(** * Enzonix DNS SDK for Go: a shallow embedding of the client

    The development follows the layout of the Go package [enzonix]:
    - the parts of the Go standard library the client calls
      ([strings], [net/url], [encoding/json], [io], [net/http]),
      each in a module named after its package;
    - [client.go]: [Client], [NewClient], the options, [APIError],
      [newRequest] and [do];
    - the domain-scoped resource operations ([DomainAPI]) and the
      zone-scoped record operations ([ZoneAPI]);
    - the properties of the specification, proved last.

    Go strings are byte strings and are modelled by [string]; a [[]byte]
    is a [list byte]. Go's [(value, error)] results are pairs whose
    second component is an [option error] ([None] is Go's [nil]). A
    pointer that can be nil is an [option], and a nil dereference is a
    panic. *)

From Stdlib Require Import ZArith NArith Ascii String Bool Lia.
From Stdlib.Strings Require Import Byte.
From stdpp Require Import gmap strings list sorting pretty.

Set Warnings "-register-all".
Open Scope Z_scope.

Definition bytes := list byte.

(** The double quote character, and JSON texts written with single quotes
    standing for double quotes. *)
Definition dquote : ascii := "034"%char.

Fixpoint js (s : string) : string :=
  match s with
  | EmptyString => EmptyString
  | String c s' => String (if Ascii.eqb c "'" then dquote else c) (js s')
  end.

Definition jsb (s : string) : bytes := list_byte_of_string (js s).

(** ** Package [strings] *)

Module Strings.

Definition code (c : ascii) : N := N_of_ascii c.

Definition rev (s : string) : string :=
  string_of_list_ascii (List.rev (list_ascii_of_string s)).

Fixpoint HasPrefix (s prefix : string) : bool :=
  match prefix, s with
  | EmptyString, _ => true
  | String a p, String b s' => Ascii.eqb a b && HasPrefix s' p
  | String _ _, EmptyString => false
  end.

Definition HasSuffix (s suffix : string) : bool :=
  HasPrefix (rev s) (rev suffix).

Fixpoint drop (n : nat) (s : string) : string :=
  match n, s with
  | S n', String _ s' => drop n' s'
  | _, _ => s
  end.

(** [s[:len(s)-len(suffix)]] when [s] ends with [suffix], else [s]. *)
Definition TrimSuffix (s suffix : string) : string :=
  if HasSuffix s suffix
  then rev (drop (String.length suffix) (rev s))
  else s.

Fixpoint ContainsByte (s : string) (c : ascii) : bool :=
  match s with
  | EmptyString => false
  | String a s' => Ascii.eqb a c || ContainsByte s' c
  end.

Fixpoint CountByte (s : string) (c : ascii) : nat :=
  match s with
  | EmptyString => O
  | String a s' => ((if Ascii.eqb a c then 1 else 0) + CountByte s' c)%nat
  end.

(** [strings.Cut(s, sep)] for a one-byte separator: the text before the
    first [sep], the text after it, and whether [sep] was found. *)
Fixpoint Cut (s : string) (sep : ascii) : string * string * bool :=
  match s with
  | EmptyString => (EmptyString, EmptyString, false)
  | String a s' =>
      if Ascii.eqb a sep then (EmptyString, s', true)
      else let '(before, after, found) := Cut s' sep in
           (String a before, after, found)
  end.

(** The split of [s] at the last [sep]: [s[:i]] and [s[i+1:]] for
    [i = strings.LastIndex(s, sep)], or [None] when [i < 0]. *)
Definition CutLast (s : string) (sep : ascii) : option (string * string) :=
  let '(after_rev, before_rev, found) := Cut (rev s) sep in
  if found then Some (rev before_rev, rev after_rev) else None.

Definition lower (c : ascii) : ascii :=
  if (65 <=? code c)%N && (code c <=? 90)%N
  then ascii_of_N (code c + 32) else c.

Definition upper (c : ascii) : ascii :=
  if (97 <=? code c)%N && (code c <=? 122)%N
  then ascii_of_N (code c - 32) else c.

Fixpoint ToLowerASCII (s : string) : string :=
  match s with
  | EmptyString => EmptyString
  | String a s' => String (lower a) (ToLowerASCII s')
  end.

(** *** [strings.TrimSpace]

    White space is what [unicode.IsSpace] accepts: the six ASCII
    characters of [asciiSpace] and the runes U+0085, U+00A0, U+1680,
    U+2000..U+200A, U+2028, U+2029, U+202F, U+205F and U+3000, which in
    a Go string appear as their UTF-8 encodings. A byte that does not
    start such an encoding decodes to a rune that is not white space. *)

Definition asciiSpace (c : ascii) : bool :=
  match code c with
  | 9 | 10 | 11 | 12 | 13 | 32 => true
  | _ => false
  end%N.

(** Two-byte encodings: U+0085 (C2 85) and U+00A0 (C2 A0). *)
Definition space2 (a b : ascii) : bool :=
  (code a =? 194)%N && ((code b =? 133)%N || (code b =? 160)%N).

(** Three-byte encodings. *)
Definition space3 (a b c : ascii) : bool :=
  match code a, code b with
  | 225, 154 => (code c =? 128)%N                         (* U+1680 *)
  | 226, 128 => ((128 <=? code c)%N && (code c <=? 138)%N) (* U+2000..200A *)
                || (code c =? 168)%N || (code c =? 169)%N  (* U+2028, U+2029 *)
                || (code c =? 175)%N                       (* U+202F *)
  | 226, 129 => (code c =? 159)%N                         (* U+205F *)
  | 227, 128 => (code c =? 128)%N                         (* U+3000 *)
  | _, _ => false
  end%N.

(** Strips white-space runes from the front; [two] and [three] recognise
    the multi-byte encodings in the order the bytes are met. *)
Fixpoint trimFront (two : ascii -> ascii -> bool)
    (three : ascii -> ascii -> ascii -> bool) (s : string) : string :=
  match s with
  | EmptyString => EmptyString
  | String a s1 =>
      if asciiSpace a then trimFront two three s1 else
      match s1 with
      | EmptyString => s
      | String b s2 =>
          if two a b then trimFront two three s2 else
          match s2 with
          | EmptyString => s
          | String c s3 =>
              if three a b c then trimFront two three s3 else s
          end
      end
  end.

Definition TrimLeftSpace (s : string) : string := trimFront space2 space3 s.

(** From the end the bytes of an encoding are met last byte first. *)
Definition TrimRightSpace (s : string) : string :=
  rev (trimFront (fun b a => space2 a b) (fun c b a => space3 a b c) (rev s)).

Definition TrimSpace (s : string) : string := TrimRightSpace (TrimLeftSpace s).

End Strings.

Definition isEmpty (s : string) : bool :=
  match s with EmptyString => true | _ => false end.

(** ** Package [net/url]

    [Parse], [ResolveReference], [String], [PathEscape] and
    [Values.Encode], following the package source (Go 1.22). An error is
    reported by its message. *)

Module Url.
Import Strings.

Record Userinfo : Type := {
  username : string;
  password : string;
  passwordSet : bool
}.

Record URL : Type := {
  Scheme : string;
  Opaque : string;
  User : option Userinfo;
  Host : string;
  Path : string;
  RawPath : string;
  OmitHost : bool;
  ForceQuery : bool;
  RawQuery : string;
  Fragment : string;
  RawFragment : string
}.

Definition emptyURL : URL :=
  {| Scheme := EmptyString; Opaque := EmptyString; User := None;
     Host := EmptyString; Path := EmptyString; RawPath := EmptyString;
     OmitHost := false; ForceQuery := false; RawQuery := EmptyString;
     Fragment := EmptyString; RawFragment := EmptyString |}.

Inductive encoding : Type :=
| encodePath | encodePathSegment | encodeHost | encodeZone
| encodeUserPassword | encodeQueryComponent | encodeFragment.

Definition isAlpha (c : ascii) : bool :=
  ((97 <=? code c) && (code c <=? 122) || (65 <=? code c) && (code c <=? 90))%N.

Definition isDigit (c : ascii) : bool :=
  ((48 <=? code c) && (code c <=? 57))%N.

Definition oneOf (set : string) (c : ascii) : bool := ContainsByte set c.

(** The characters of the host sub-delimiters list of [shouldEscape];
    the last one is the double quote. *)
Definition hostDelims : string := String dquote "!$&'()*+,;=:[]<>".

Definition shouldEscape (c : ascii) (mode : encoding) : bool :=
  if isAlpha c || isDigit c then false
  else if match mode with encodeHost | encodeZone => oneOf hostDelims c | _ => false end
  then false
  else if oneOf "-_.~" c then false
  else if oneOf "$&+,/:;=?@" c then
    match mode with
    | encodePath => Ascii.eqb c "?"
    | encodePathSegment => oneOf "/;,?" c
    | encodeUserPassword => oneOf "@/?:" c
    | encodeQueryComponent => true
    | encodeFragment => false
    | encodeHost | encodeZone => true
    end
  else if match mode with encodeFragment => oneOf "!()*" c | _ => false end
  then false
  else true.

Definition ishex (c : ascii) : bool :=
  isDigit c || ((97 <=? code c) && (code c <=? 102) || (65 <=? code c) && (code c <=? 70))%N.

Definition unhex (c : ascii) : N :=
  if isDigit c then code c - 48
  else if (97 <=? code c)%N && (code c <=? 102)%N then code c - 97 + 10
  else if (65 <=? code c)%N && (code c <=? 70)%N then code c - 65 + 10
  else 0.

Definition upperhex (n : N) : ascii :=
  if (n <? 10)%N then ascii_of_N (48 + n) else ascii_of_N (65 + n - 10).

Definition isMode (m m' : encoding) : bool :=
  match m, m' with
  | encodePath, encodePath | encodePathSegment, encodePathSegment
  | encodeHost, encodeHost | encodeZone, encodeZone
  | encodeUserPassword, encodeUserPassword
  | encodeQueryComponent, encodeQueryComponent
  | encodeFragment, encodeFragment => true
  | _, _ => false
  end.

(** [unescape]: [inr] carries the error message. *)
Fixpoint unescape (s : string) (mode : encoding) : string + string :=
  match s with
  | EmptyString => inl EmptyString
  | String c s1 =>
      if Ascii.eqb c "%" then
        match s1 with
        | String h1 (String h2 s3) =>
            if negb (ishex h1 && ishex h2) then inr "invalid URL escape"
            else if isMode mode encodeHost && (unhex h1 <? 8)%N
                    && negb (Ascii.eqb h1 "2" && Ascii.eqb h2 "5")
            then inr "invalid URL escape"
            else
              let v := ascii_of_N (unhex h1 * 16 + unhex h2) in
              if isMode mode encodeZone
                 && negb (Ascii.eqb h1 "2" && Ascii.eqb h2 "5")
                 && negb (Ascii.eqb v " ") && shouldEscape v encodeHost
              then inr "invalid URL escape"
              else match unescape s3 mode with
                   | inl t => inl (String v t)
                   | inr e => inr e
                   end
        | _ => inr "invalid URL escape"
        end
      else if Ascii.eqb c "+" then
        match unescape s1 mode with
        | inl t => inl (String (if isMode mode encodeQueryComponent then " "%char else c) t)
        | inr e => inr e
        end
      else if (isMode mode encodeHost || isMode mode encodeZone)
              && (code c <? 128)%N && shouldEscape c encodeHost
      then inr "invalid character in host name"
      else match unescape s1 mode with
           | inl t => inl (String c t)
           | inr e => inr e
           end
  end.

Fixpoint escape (s : string) (mode : encoding) : string :=
  match s with
  | EmptyString => EmptyString
  | String c s' =>
      if Ascii.eqb c " " && isMode mode encodeQueryComponent
      then String "+" (escape s' mode)
      else if shouldEscape c mode
      then String "%" (String (upperhex (code c / 16))
                      (String (upperhex (code c mod 16)) (escape s' mode)))
      else String c (escape s' mode)
  end.

Definition PathEscape (s : string) : string := escape s encodePathSegment.
Definition QueryEscape (s : string) : string := escape s encodeQueryComponent.

Inductive schemeScan : Type :=
| noScheme
| missingScheme
| scheme (name rest : string).

(** [getScheme]; [first] tells whether the byte read is [rawURL[0]]. *)
Fixpoint getSchemeAt (first : bool) (s : string) : schemeScan :=
  match s with
  | EmptyString => noScheme
  | String c s' =>
      let more :=
        match getSchemeAt false s' with
        | scheme name rest => scheme (String c name) rest
        | other => other
        end in
      if isAlpha c then more
      else if isDigit c || oneOf "+-." c then (if first then noScheme else more)
      else if Ascii.eqb c ":"
      then (if first then missingScheme else scheme EmptyString s')
      else noScheme
  end.

Definition getScheme (rawURL : string) : schemeScan := getSchemeAt true rawURL.

Fixpoint stringContainsCTLByte (s : string) : bool :=
  match s with
  | EmptyString => false
  | String c s' => (code c <? 32)%N || (code c =? 127)%N || stringContainsCTLByte s'
  end.

Fixpoint allDigits (s : string) : bool :=
  match s with
  | EmptyString => true
  | String c s' => isDigit c && allDigits s'
  end.

Definition validOptionalPort (port : string) : bool :=
  match port with
  | EmptyString => true
  | String c digits => Ascii.eqb c ":" && allDigits digits
  end.

Fixpoint validUserinfo (s : string) : bool :=
  match s with
  | EmptyString => true
  | String c s' =>
      (isAlpha c || isDigit c || oneOf "-._:~!$&'()*+,;=%@" c) && validUserinfo s'
  end.

(** The text before and after the first occurrence of [sep] in [s]. *)
Fixpoint CutString (s sep : string) : option (string * string) :=
  if HasPrefix s sep then Some (EmptyString, drop (String.length sep) s)
  else match s with
       | EmptyString => None
       | String c s' =>
           match CutString s' sep with
           | Some (before, after) => Some (String c before, after)
           | None => None
           end
       end.

Definition bindE {A B : Type} (r : A + string) (k : A -> B + string) : B + string :=
  match r with
  | inl a => k a
  | inr e => inr e
  end.

(** [parseHost]: an authority without user information, [host[:port]]. *)
Definition parseHost (host : string) : string + string :=
  if HasPrefix host "[" then
    match CutLast host "]" with
    | None => inr "missing ']' in host"
    | Some (literal, colonPort) =>
        if negb (validOptionalPort colonPort) then inr "invalid port after host"
        else match CutString literal "%25" with
             | Some (host1, zone) =>
                 bindE (unescape host1 encodeHost) (fun h1 =>
                 bindE (unescape ("%25" +:+ zone) encodeZone) (fun h2 =>
                 bindE (unescape ("]" +:+ colonPort) encodeHost) (fun h3 =>
                 inl (h1 +:+ h2 +:+ h3))))
             | None => unescape host encodeHost
             end
    end
  else
    match CutLast host ":" with
    | Some (_, port) =>
        if negb (validOptionalPort (":" +:+ port)) then inr "invalid port after host"
        else unescape host encodeHost
    | None => unescape host encodeHost
    end.

Definition parseAuthority (authority : string)
    : (option Userinfo * string) + string :=
  match CutLast authority "@" with
  | None => bindE (parseHost authority) (fun host => inl (None, host))
  | Some (userinfo, hostport) =>
      bindE (parseHost hostport) (fun host =>
      if negb (validUserinfo userinfo) then inr "net/url: invalid userinfo"
      else if negb (ContainsByte userinfo ":") then
        bindE (unescape userinfo encodeUserPassword) (fun name =>
        inl (Some {| username := name; password := EmptyString;
                     passwordSet := false |}, host))
      else
        let '(name, pass, _) := Cut userinfo ":" in
        bindE (unescape name encodeUserPassword) (fun name' =>
        bindE (unescape pass encodeUserPassword) (fun pass' =>
        inl (Some {| username := name'; password := pass';
                     passwordSet := true |}, host))))
  end.

Definition withPath (u : URL) (path rawPath : string) : URL :=
  {| Scheme := Scheme u; Opaque := Opaque u; User := User u; Host := Host u;
     Path := path; RawPath := rawPath; OmitHost := OmitHost u;
     ForceQuery := ForceQuery u; RawQuery := RawQuery u;
     Fragment := Fragment u; RawFragment := RawFragment u |}.

Definition setPath (u : URL) (p : string) : URL + string :=
  bindE (unescape p encodePath) (fun path =>
  inl (withPath u path
         (if String.eqb p (escape path encodePath) then EmptyString else p))).

Definition setFragment (u : URL) (f : string) : URL + string :=
  bindE (unescape f encodeFragment) (fun frag =>
  inl {| Scheme := Scheme u; Opaque := Opaque u; User := User u; Host := Host u;
         Path := Path u; RawPath := RawPath u; OmitHost := OmitHost u;
         ForceQuery := ForceQuery u; RawQuery := RawQuery u;
         Fragment := frag;
         RawFragment := if String.eqb f (escape frag encodeFragment)
                        then EmptyString else f |}).

(** [parse(rawURL, viaRequest = false)]. *)
Definition parse (rawURL : string) : URL + string :=
  if stringContainsCTLByte rawURL then inr "net/url: invalid control character in URL"
  else if String.eqb rawURL "*" then inl (withPath emptyURL "*" EmptyString)
  else
    match (match getScheme rawURL with
           | missingScheme => inr "missing protocol scheme"
           | noScheme => inl (EmptyString, rawURL)
           | scheme name rest => inl (ToLowerASCII name, rest)
           end) with
    | inr e => inr e
    | inl (sch, rest0) =>
        let '(rest1, force, query) :=
          if HasSuffix rest0 "?" && Nat.eqb (CountByte rest0 "?") 1
          then (TrimSuffix rest0 "?", true, EmptyString)
          else let '(before, after, _) := Cut rest0 "?" in (before, false, after) in
        let u0 := {| Scheme := sch; Opaque := EmptyString; User := None;
                     Host := EmptyString; Path := EmptyString; RawPath := EmptyString;
                     OmitHost := false; ForceQuery := force; RawQuery := query;
                     Fragment := EmptyString; RawFragment := EmptyString |} in
        if negb (HasPrefix rest1 "/") && negb (isEmpty sch) then
          inl {| Scheme := sch; Opaque := rest1; User := None;
                 Host := EmptyString; Path := EmptyString; RawPath := EmptyString;
                 OmitHost := false; ForceQuery := force; RawQuery := query;
                 Fragment := EmptyString; RawFragment := EmptyString |}
        else if negb (HasPrefix rest1 "/")
                && ContainsByte (fst (fst (Cut rest1 "/"))) ":"
        then inr "first path segment in URL cannot contain colon"
        else if (negb (isEmpty sch) || negb (HasPrefix rest1 "///"))
                && HasPrefix rest1 "//"
        then
          let '(authority, after, found) := Cut (drop 2 rest1) "/" in
          let rest2 := if found then String "/" after else EmptyString in
          bindE (parseAuthority authority) (fun '(user, host) =>
          setPath {| Scheme := sch; Opaque := EmptyString; User := user;
                     Host := host; Path := EmptyString; RawPath := EmptyString;
                     OmitHost := false; ForceQuery := force; RawQuery := query;
                     Fragment := EmptyString; RawFragment := EmptyString |} rest2)
        else if negb (isEmpty sch) && HasPrefix rest1 "/"
        then setPath {| Scheme := sch; Opaque := EmptyString; User := None;
                        Host := EmptyString; Path := EmptyString; RawPath := EmptyString;
                        OmitHost := true; ForceQuery := force; RawQuery := query;
                        Fragment := EmptyString; RawFragment := EmptyString |} rest1
        else setPath u0 rest1
    end.

Definition Parse (rawURL : string) : URL + string :=
  let '(u, frag, _) := Cut rawURL "#" in
  bindE (parse u) (fun url =>
  if isEmpty frag then inl url else setFragment url frag).

Definition IsAbs (u : URL) : bool := negb (isEmpty (Scheme u)).

Fixpoint validEncoded (s : string) (mode : encoding) : bool :=
  match s with
  | EmptyString => true
  | String c s' =>
      (oneOf "!$&'()*+,;=:@[]%" c || negb (shouldEscape c mode))
      && validEncoded s' mode
  end.

Definition EscapedPath (u : URL) : string :=
  if negb (isEmpty (RawPath u)) && validEncoded (RawPath u) encodePath
     && match unescape (RawPath u) encodePath with
        | inl p => String.eqb p (Path u)
        | inr _ => false
        end
  then RawPath u
  else if String.eqb (Path u) "*" then "*"
  else escape (Path u) encodePath.

Definition EscapedFragment (u : URL) : string :=
  if negb (isEmpty (RawFragment u)) && validEncoded (RawFragment u) encodeFragment
     && match unescape (RawFragment u) encodeFragment with
        | inl f => String.eqb f (Fragment u)
        | inr _ => false
        end
  then RawFragment u
  else escape (Fragment u) encodeFragment.

Definition UserinfoString (ui : Userinfo) : string :=
  escape (username ui) encodeUserPassword
  +:+ (if passwordSet ui
       then ":" +:+ escape (password ui) encodeUserPassword
       else EmptyString).

(** The method [String] of [URL]; [buf] is the text written before the path. *)
Definition String (u : URL) : string :=
  let schemePart :=
    if isEmpty (Scheme u) then EmptyString else Scheme u +:+ ":" in
  let body :=
    if negb (isEmpty (Opaque u)) then schemePart +:+ Opaque u
    else
      let authority :=
        if negb (isEmpty (Scheme u)) || negb (isEmpty (Host u)) || bool_decide (is_Some (User u))
        then
          if OmitHost u && isEmpty (Host u) && bool_decide (User u = None)
          then EmptyString
          else
            (if negb (isEmpty (Host u)) || negb (isEmpty (Path u))
                || bool_decide (is_Some (User u))
             then "//" else EmptyString)
            +:+ match User u with
                | Some ui => UserinfoString ui +:+ "@"
                | None => EmptyString
                end
            +:+ escape (Host u) encodeHost
        else EmptyString in
      let buf := schemePart +:+ authority in
      let path := EscapedPath u in
      let buf1 :=
        if negb (isEmpty path) && negb (HasPrefix path "/") && negb (isEmpty (Host u))
        then buf +:+ "/" else buf in
      let buf2 :=
        if isEmpty buf1 && ContainsByte (fst (fst (Cut path "/"))) ":"
        then "./" else buf1 in
      buf2 +:+ path in
  body
  +:+ (if ForceQuery u || negb (isEmpty (RawQuery u))
       then "?" +:+ RawQuery u else EmptyString)
  +:+ (if negb (isEmpty (Fragment u))
       then "#" +:+ EscapedFragment u else EmptyString).

Fixpoint Split (s : string) (sep : ascii) : list string :=
  match s with
  | EmptyString => [EmptyString]
  | String.String c s' =>
      if Ascii.eqb c sep then EmptyString :: Split s' sep
      else match Split s' sep with
           | h :: t => String.String c h :: t
           | [] => [String.String c EmptyString]
           end
  end.

(** One turn of the loop of [resolvePath]: [dst] is the path written so
    far (it starts with a slash) and [first] its flag. *)
Definition resolveStep (st : string * bool) (elem : string) : string * bool :=
  let '(dst, first) := st in
  if String.eqb elem "." then (dst, false)
  else if String.eqb elem ".." then
    match CutLast (drop 1 dst) "/" with
    | None => ("/", true)
    | Some (kept, _) => ("/" +:+ kept, first)
    end
  else ((if first then dst else dst +:+ "/") +:+ elem, false).

Definition resolvePath (base ref : string) : string :=
  let full :=
    if isEmpty ref then base
    else if negb (HasPrefix ref "/") then
      match CutLast base "/" with
      | Some (dir, _) => dir +:+ "/" +:+ ref
      | None => ref
      end
    else ref in
  if isEmpty full then EmptyString
  else
    let elems := Split full "/" in
    let '(dst, _) := fold_left resolveStep elems ("/", true) in
    let last_elem := List.last elems EmptyString in
    let r := if String.eqb last_elem "." || String.eqb last_elem ".."
             then dst +:+ "/" else dst in
    if HasPrefix (drop 1 r) "/" then drop 1 r else r.

(** [setPath] on a validly escaped path cannot fail; as in the source an
    error is ignored and the URL is left as it was. *)
Definition setPathOrKeep (u : URL) (p : string) : URL :=
  match setPath u p with
  | inl u' => u'
  | inr _ => u
  end.

Definition ResolveReference (u ref : URL) : URL :=
  let url0 :=
    {| Scheme := if isEmpty (Scheme ref) then Scheme u else Scheme ref;
       Opaque := Opaque ref; User := User ref; Host := Host ref;
       Path := Path ref; RawPath := RawPath ref; OmitHost := OmitHost ref;
       ForceQuery := ForceQuery ref; RawQuery := RawQuery ref;
       Fragment := Fragment ref; RawFragment := RawFragment ref |} in
  if negb (isEmpty (Scheme ref)) || negb (isEmpty (Host ref))
     || bool_decide (is_Some (User ref))
  then setPathOrKeep url0 (resolvePath (EscapedPath ref) EmptyString)
  else if negb (isEmpty (Opaque ref)) then
    {| Scheme := Scheme url0; Opaque := Opaque ref; User := None;
       Host := EmptyString; Path := EmptyString; RawPath := RawPath ref;
       OmitHost := OmitHost ref; ForceQuery := ForceQuery ref;
       RawQuery := RawQuery ref; Fragment := Fragment ref;
       RawFragment := RawFragment ref |}
  else
    let inherit :=
      isEmpty (Path ref) && negb (ForceQuery ref) && isEmpty (RawQuery ref) in
    let noFrag := inherit && isEmpty (Fragment ref) in
    let url1 :=
      {| Scheme := Scheme url0; Opaque := Opaque ref; User := User ref;
         Host := Host ref; Path := Path ref; RawPath := RawPath ref;
         OmitHost := OmitHost ref; ForceQuery := ForceQuery ref;
         RawQuery := if inherit then RawQuery u else RawQuery ref;
         Fragment := if noFrag then Fragment u else Fragment ref;
         RawFragment := if noFrag then RawFragment u else RawFragment ref |} in
    if isEmpty (Path ref) && negb (isEmpty (Opaque u)) then
      {| Scheme := Scheme url1; Opaque := Opaque u; User := None;
         Host := EmptyString; Path := EmptyString; RawPath := RawPath url1;
         OmitHost := OmitHost url1; ForceQuery := ForceQuery url1;
         RawQuery := RawQuery url1; Fragment := Fragment url1;
         RawFragment := RawFragment url1 |}
    else
      setPathOrKeep
        {| Scheme := Scheme url1; Opaque := Opaque url1; User := User u;
           Host := Host u; Path := Path url1; RawPath := RawPath url1;
           OmitHost := OmitHost url1; ForceQuery := ForceQuery url1;
           RawQuery := RawQuery url1; Fragment := Fragment url1;
           RawFragment := RawFragment url1 |}
        (resolvePath (EscapedPath u) (EscapedPath ref)).

(** [ResolveReference] as [newRequest] calls it: on a receiver held
    through a pointer, nil being [None]. The function reads the receiver
    first for its scheme, when the reference has none ([url.Scheme =
    u.Scheme]), and a nil receiver is dereferenced there: the result is
    [None]. A reference with a scheme is resolved by the first [return],
    before the receiver is read. *)
Definition ResolveReferenceFrom (u : option URL) (ref : URL) : option URL :=
  match u with
  | Some u => Some (ResolveReference u ref)
  | None =>
      if isEmpty (Scheme ref) then None
      else Some (setPathOrKeep ref (resolvePath (EscapedPath ref) EmptyString))
  end.

Definition withRawQuery (u : URL) (q : string) : URL :=
  {| Scheme := Scheme u; Opaque := Opaque u; User := User u; Host := Host u;
     Path := Path u; RawPath := RawPath u; OmitHost := OmitHost u;
     ForceQuery := ForceQuery u; RawQuery := q;
     Fragment := Fragment u; RawFragment := RawFragment u |}.

Definition withHost (u : URL) (h : string) : URL :=
  {| Scheme := Scheme u; Opaque := Opaque u; User := User u; Host := h;
     Path := Path u; RawPath := RawPath u; OmitHost := OmitHost u;
     ForceQuery := ForceQuery u; RawQuery := RawQuery u;
     Fragment := Fragment u; RawFragment := RawFragment u |}.

(** *** [url.Values]: a map from keys to lists of values; [Encode]
    writes the keys in sorted order. *)

Definition keyLe (a b : string) : Prop := String.leb a b = true.

#[export] Instance keyLe_dec : RelDecision keyLe.
Proof. intros a b. unfold keyLe. apply _. Defined.

Definition ValuesSet (v : gmap string (list string)) (key value : string)
    : gmap string (list string) :=
  <[key := [value]]> v.

Fixpoint join (sep : string) (l : list string) : string :=
  match l with
  | [] => EmptyString
  | [x] => x
  | x :: l' => x +:+ sep +:+ join sep l'
  end.

Definition Encode (v : gmap string (list string)) : string :=
  let keys := merge_sort keyLe (map fst (map_to_list v)) in
  join "&"
    (flat_map (fun k =>
       map (fun x => QueryEscape k +:+ "=" +:+ QueryEscape x)
           (default [] (v !! k))) keys).

End Url.

(** ** Package [encoding/json]: reading a JSON text

    [checkValid] and the decoder of the package walk the text with one
    scanner. Here the text is first cut into tokens, each with the
    offsets where it starts and stops, and the tokens are then assembled
    into a [value] with a stack of open arrays and objects. Both passes
    read their input once, from left to right. *)

Module Json.

Definition bcode (b : byte) : N := Byte.to_N b.

Definition inRange (lo hi : N) (b : byte) : bool :=
  ((lo <=? bcode b) && (bcode b <=? hi))%N.

Definition isSpace (b : byte) : bool :=
  match b with
  | " "%byte | x09 | x0d | x0a => true
  | _ => false
  end.

Definition isDigit (b : byte) : bool := inRange 48 57 b.

Definition isHex (b : byte) : bool :=
  isDigit b || inRange 97 102 b || inRange 65 70 b.

Definition hexVal (b : byte) : N :=
  if isDigit b then bcode b - 48
  else if inRange 97 102 b then bcode b - 97 + 10
  else bcode b - 65 + 10.

Inductive token : Type :=
| TLBrace | TRBrace | TLBracket | TRBracket | TColon | TComma
| TString (content : bytes)      (* the bytes between the quotes *)
| TNumber (literal : bytes)
| TTrue | TFalse | TNull.

Record spanned : Type := { tok : token; start : nat; stop : nat }.

(** *** Numbers: the states [stepNeg], [step0], [step1], [stepDot],
    [stepDot0], [stepE], [stepESign] and [stepE0] of the scanner. *)
Inductive numState : Type :=
| numBegin | numNeg | num0 | num1 | numDot | numDot0 | numE | numESign | numE0.

Definition numStep (st : numState) (b : byte) : option numState :=
  match st with
  | numBegin =>
      if Byte.eqb b "-" then Some numNeg
      else if Byte.eqb b "0" then Some num0
      else if isDigit b then Some num1 else None
  | numNeg =>
      if Byte.eqb b "0" then Some num0
      else if isDigit b then Some num1 else None
  | num0 =>
      if Byte.eqb b "." then Some numDot
      else if Byte.eqb b "e" || Byte.eqb b "E" then Some numE else None
  | num1 =>
      if isDigit b then Some num1
      else if Byte.eqb b "." then Some numDot
      else if Byte.eqb b "e" || Byte.eqb b "E" then Some numE else None
  | numDot => if isDigit b then Some numDot0 else None
  | numDot0 =>
      if isDigit b then Some numDot0
      else if Byte.eqb b "e" || Byte.eqb b "E" then Some numE else None
  | numE =>
      if Byte.eqb b "+" || Byte.eqb b "-" then Some numESign
      else if isDigit b then Some numE0 else None
  | numESign => if isDigit b then Some numE0 else None
  | numE0 => if isDigit b then Some numE0 else None
  end.

Definition numComplete (st : numState) : bool :=
  match st with
  | num0 | num1 | numDot0 | numE0 => true
  | _ => false
  end.

Fixpoint validNumberFrom (st : numState) (lit : bytes) : bool :=
  match lit with
  | [] => numComplete st
  | b :: lit' =>
      match numStep st b with
      | Some st' => validNumberFrom st' lit'
      | None => false
      end
  end.

Definition validNumber (lit : bytes) : bool := validNumberFrom numBegin lit.

(** A byte that can occur in a number; after a complete number such a
    byte is rejected by the scanner, so a number token is a maximal run
    of these bytes. *)
Definition isNumberByte (b : byte) : bool :=
  isDigit b || Byte.eqb b "-" || Byte.eqb b "+" || Byte.eqb b "."
  || Byte.eqb b "e" || Byte.eqb b "E".

(** *** Tokens *)

Inductive escState : Type :=
| escNone                (* stepInString *)
| escBackslash           (* stepInStringEsc *)
| escU (missing : nat).  (* stepInStringEscU.., hex digits still to read *)

Inductive lexState : Type :=
| lexIdle
| lexString (from : nat) (acc : bytes) (esc : escState)
| lexNumber (from : nat) (acc : bytes)
| lexLiteral (from : nat) (expected : bytes) (t : token).

Definition mk (t : token) (from to : nat) : spanned :=
  {| tok := t; start := from; stop := to |}.

(** A byte met between tokens. *)
Definition lexBegin (pos : nat) (b : byte) : option (lexState * list spanned) :=
  if isSpace b then Some (lexIdle, [])
  else match b with
       | "{"%byte => Some (lexIdle, [mk TLBrace pos (S pos)])
       | "}"%byte => Some (lexIdle, [mk TRBrace pos (S pos)])
       | "["%byte => Some (lexIdle, [mk TLBracket pos (S pos)])
       | "]"%byte => Some (lexIdle, [mk TRBracket pos (S pos)])
       | ":"%byte => Some (lexIdle, [mk TColon pos (S pos)])
       | ","%byte => Some (lexIdle, [mk TComma pos (S pos)])
       | x22 => Some (lexString pos [] escNone, [])
       | "t"%byte => Some (lexLiteral pos (list_byte_of_string "rue") TTrue, [])
       | "f"%byte => Some (lexLiteral pos (list_byte_of_string "alse") TFalse, [])
       | "n"%byte => Some (lexLiteral pos (list_byte_of_string "ull") TNull, [])
       | _ => if Byte.eqb b "-" || isDigit b
              then Some (lexNumber pos [b], []) else None
       end.

Definition isEscapeByte (b : byte) : bool :=
  match b with
  | x22 | x5c | "/"%byte | "b"%byte | "f"%byte | "n"%byte | "r"%byte | "t"%byte
  | "u"%byte => true
  | _ => false
  end.

(** One byte at offset [pos]; the tokens completed by it are returned
    last first. [None] is a syntax error. *)
Definition lexStep (st : lexState) (pos : nat) (b : byte)
    : option (lexState * list spanned) :=
  match st with
  | lexIdle => lexBegin pos b
  | lexString from acc escNone =>
      match b with
      | x22 => Some (lexIdle, [mk (TString (rev acc)) from (S pos)])
      | x5c => Some (lexString from (b :: acc) escBackslash, [])
      | _ => if (bcode b <? 32)%N then None
             else Some (lexString from (b :: acc) escNone, [])
      end
  | lexString from acc escBackslash =>
      if negb (isEscapeByte b) then None
      else Some (lexString from (b :: acc)
                   (if Byte.eqb b "u" then escU 4 else escNone), [])
  | lexString from acc (escU n) =>
      if negb (isHex b) then None
      else Some (lexString from (b :: acc)
                   (match n with
                    | S (S m) => escU (S m)
                    | _ => escNone
                    end), [])
  | lexNumber from acc =>
      if isNumberByte b then Some (lexNumber from (b :: acc), [])
      else if negb (validNumber (rev acc)) then None
      else match lexBegin pos b with
           | Some (st', toks) =>
               Some (st', toks ++ [mk (TNumber (rev acc)) from pos])
           | None => None
           end
  | lexLiteral from expected t =>
      match expected with
      | e :: more =>
          if negb (Byte.eqb b e) then None
          else match more with
               | [] => Some (lexIdle, [mk t from (S pos)])
               | _ => Some (lexLiteral from more t, [])
               end
      | [] => None
      end
  end.

(** The end of the text. *)
Definition lexEnd (st : lexState) (pos : nat) : option (list spanned) :=
  match st with
  | lexIdle => Some []
  | lexNumber from acc =>
      if validNumber (rev acc) then Some [mk (TNumber (rev acc)) from pos]
      else None
  | lexString _ _ _ | lexLiteral _ _ _ => None
  end.

Fixpoint lexFrom (data : bytes) (pos : nat) (st : lexState)
    (done : list spanned) : option (list spanned) :=
  match data with
  | [] =>
      match lexEnd st pos with
      | Some toks => Some (rev (toks ++ done))
      | None => None
      end
  | b :: data' =>
      match lexStep st pos b with
      | Some (st', toks) => lexFrom data' (S pos) st' (toks ++ done)
      | None => None
      end
  end.

Definition lex (data : bytes) : option (list spanned) :=
  lexFrom data O lexIdle [].

(** *** Strings: [unquoteBytes] *)

Definition toByte (n : N) : byte := default x00 (Byte.of_N n).

Definition replacement : bytes := [xef; xbf; xbd].   (* U+FFFD *)

(** [utf8.EncodeRune] *)
Definition encodeRune (r : N) : bytes :=
  if (r <=? 127)%N then [toByte r]
  else if (r <=? 2047)%N
  then [toByte (192 + r / 64); toByte (128 + r mod 64)]
  else if ((55296 <=? r) && (r <=? 57343) || (1114111 <? r))%N then replacement
  else if (r <=? 65535)%N
  then [toByte (224 + r / 4096); toByte (128 + (r / 64) mod 64);
        toByte (128 + r mod 64)]
  else [toByte (240 + r / 262144); toByte (128 + (r / 4096) mod 64);
        toByte (128 + (r / 64) mod 64); toByte (128 + r mod 64)].

Definition cont (b : byte) : bool := inRange 128 191 b.

(** Well-formed UTF-8 sequences of two, three and four bytes, as
    [utf8.DecodeRune] accepts them. *)
Definition utf8Seq2 (a b : byte) : bool := inRange 194 223 a && cont b.

Definition utf8Seq3 (a b c : byte) : bool :=
  ((Byte.eqb a xe0 && inRange 160 191 b)
   || (inRange 225 236 a && cont b)
   || (Byte.eqb a xed && inRange 128 159 b)
   || (inRange 238 239 a && cont b)) && cont c.

Definition utf8Seq4 (a b c d : byte) : bool :=
  ((Byte.eqb a xf0 && inRange 144 191 b)
   || (inRange 241 243 a && cont b)
   || (Byte.eqb a xf4 && inRange 128 143 b)) && cont c && cont d.

Definition hex4 (a b c d : byte) : N :=
  ((hexVal a * 16 + hexVal b) * 16 + hexVal c) * 16 + hexVal d.

Definition isSurrogate (r : N) : bool := ((55296 <=? r) && (r <? 57344))%N.

(** [utf16.DecodeRune], [None] for what is not a surrogate pair. *)
Definition decodePair (r1 r2 : N) : option N :=
  if ((55296 <=? r1) && (r1 <? 56320) && (56320 <=? r2) && (r2 <? 57344))%N
  then Some ((r1 - 55296) * 1024 + (r2 - 56320) + 65536)%N
  else None.

Definition simpleEscape (b : byte) : byte :=
  match b with
  | "b"%byte => x08
  | "f"%byte => x0c
  | "n"%byte => x0a
  | "r"%byte => x0d
  | "t"%byte => x09
  | _ => b
  end.

(** The text of a string token with its escapes replaced and each byte
    that is not part of well-formed UTF-8 replaced by U+FFFD. The token
    has passed the scanner, so every escape is complete. *)
Fixpoint unquoteBytes (s : bytes) : bytes :=
  match s with
  | [] => []
  | x5c :: "u"%byte :: h1 :: h2 :: h3 :: h4 :: rest =>
      let r := hex4 h1 h2 h3 h4 in
      if isSurrogate r then
        match rest with
        | x5c :: "u"%byte :: g1 :: g2 :: g3 :: g4 :: rest' =>
            match decodePair r (hex4 g1 g2 g3 g4) with
            | Some dec => encodeRune dec ++ unquoteBytes rest'
            | None => replacement ++ unquoteBytes rest
            end
        | _ => replacement ++ unquoteBytes rest
        end
      else encodeRune r ++ unquoteBytes rest
  | x5c :: e :: rest => simpleEscape e :: unquoteBytes rest
  | a :: r1 =>
      if (bcode a <? 128)%N then a :: unquoteBytes r1 else
      match r1 with
      | b :: r2 =>
          if utf8Seq2 a b then a :: b :: unquoteBytes r2 else
          match r2 with
          | c :: r3 =>
              if utf8Seq3 a b c then a :: b :: c :: unquoteBytes r3 else
              match r3 with
              | d :: r4 =>
                  if utf8Seq4 a b c d then a :: b :: c :: d :: unquoteBytes r4
                  else replacement ++ unquoteBytes r1
              | [] => replacement ++ unquoteBytes r1
              end
          | [] => replacement ++ unquoteBytes r1
          end
      | [] => replacement ++ unquoteBytes r1
      end
  end.

Definition unquote (content : bytes) : string :=
  string_of_list_byte (unquoteBytes content).

(** *** Values *)

Inductive value : Type :=
| Null
| Bool (b : bool)
| Number (literal : bytes)
| Str (s : string)
| Array (elems : list value)
| Object (members : list (string * value * bytes)).
    (* key, value, and the text of the value as it stands in the input *)

Definition memberKey (m : string * value * bytes) : string := fst (fst m).
Definition memberValue (m : string * value * bytes) : value := snd (fst m).
Definition memberRaw (m : string * value * bytes) : bytes := snd m.

Inductive frame : Type :=
| inArray (from : nat) (elems : list value)
| inObject (from : nat) (members : list (string * value * bytes)) (key : string).

Inductive expect : Type :=
| expValue          (* a value *)
| expValueOrEnd     (* after an opening bracket: a value or the closing one *)
| expKeyOrEnd       (* after an opening brace: a key or the closing one *)
| expKey            (* after a comma in an object *)
| expColon          (* after a key *)
| expCommaOrEnd     (* after a value inside an array or an object *)
| expEnd (v : value).  (* after the top-level value *)

Definition maxNestingDepth : N := 10000.

Definition slice (data : bytes) (from to : nat) : bytes :=
  take (to - from) (drop from data).

(** A value that spans [[from, to)] has been read. *)
Definition complete (data : bytes) (stack : list frame)
    (v : value) (from to : nat) : list frame * expect :=
  match stack with
  | [] => ([], expEnd v)
  | inArray f elems :: below => (inArray f (v :: elems) :: below, expCommaOrEnd)
  | inObject f members key :: below =>
      (inObject f ((key, v, slice data from to) :: members) key :: below,
       expCommaOrEnd)
  end.

Definition push (fr : frame) (stack : list frame) (e : expect)
    : option (list frame * expect) :=
  if (N.of_nat (length (fr :: stack)) <=? maxNestingDepth)%N
  then Some (fr :: stack, e) else None.

Definition closeArray (data : bytes) (stack : list frame) (to : nat)
    : option (list frame * expect) :=
  match stack with
  | inArray f elems :: below => Some (complete data below (Array (rev elems)) f to)
  | _ => None
  end.

Definition closeObject (data : bytes) (stack : list frame) (to : nat)
    : option (list frame * expect) :=
  match stack with
  | inObject f members _ :: below =>
      Some (complete data below (Object (rev members)) f to)
  | _ => None
  end.

Definition beginValue (data : bytes) (stack : list frame) (t : spanned)
    : option (list frame * expect) :=
  match tok t with
  | TString c => Some (complete data stack (Str (unquote c)) (start t) (stop t))
  | TNumber l => Some (complete data stack (Number l) (start t) (stop t))
  | TTrue => Some (complete data stack (Bool true) (start t) (stop t))
  | TFalse => Some (complete data stack (Bool false) (start t) (stop t))
  | TNull => Some (complete data stack Null (start t) (stop t))
  | TLBrace => push (inObject (start t) [] EmptyString) stack expKeyOrEnd
  | TLBracket => push (inArray (start t) []) stack expValueOrEnd
  | _ => None
  end.

Definition setKey (stack : list frame) (key : string)
    : option (list frame * expect) :=
  match stack with
  | inObject f members _ :: below => Some (inObject f members key :: below, expColon)
  | _ => None
  end.

Definition parseStep (data : bytes) (st : list frame * expect) (t : spanned)
    : option (list frame * expect) :=
  let '(stack, e) := st in
  match e, tok t with
  | expValue, _ => beginValue data stack t
  | expValueOrEnd, TRBracket => closeArray data stack (stop t)
  | expValueOrEnd, _ => beginValue data stack t
  | expKeyOrEnd, TRBrace => closeObject data stack (stop t)
  | (expKeyOrEnd | expKey), TString c => setKey stack (unquote c)
  | expColon, TColon => Some (stack, expValue)
  | expCommaOrEnd, TComma =>
      match stack with
      | inArray _ _ :: _ => Some (stack, expValue)
      | inObject _ _ _ :: _ => Some (stack, expKey)
      | [] => None
      end
  | expCommaOrEnd, TRBracket => closeArray data stack (stop t)
  | expCommaOrEnd, TRBrace => closeObject data stack (stop t)
  | _, _ => None
  end.

Fixpoint parseTokens (data : bytes) (st : list frame * expect)
    (toks : list spanned) : option value :=
  match toks with
  | [] =>
      match st with
      | ([], expEnd v) => Some v
      | _ => None
      end
  | t :: toks' =>
      match parseStep data st t with
      | Some st' => parseTokens data st' toks'
      | None => None
      end
  end.

(** The value a JSON text denotes; [None] when [checkValid] rejects it. *)
Definition parse (data : bytes) : option value :=
  match lex data with
  | Some toks => parseTokens data ([], expValue) toks
  | None => None
  end.

(** *** Field names

    A key selects the field with that name, compared with case folded.
    The field names of this package are ASCII; besides the ASCII
    letters only U+017F folds to [S] and U+212A to [K]. *)

Definition upper (c : ascii) : ascii := Strings.upper c.

Fixpoint foldName (s : string) : string :=
  match s with
  | EmptyString => EmptyString
  | String a s1 =>
      match s1 with
      | String b s2 =>
          if (N_of_ascii a =? 197)%N && (N_of_ascii b =? 191)%N
          then String "S" (foldName s2)
          else match s2 with
               | String c s3 =>
                   if (N_of_ascii a =? 226)%N && (N_of_ascii b =? 132)%N
                      && (N_of_ascii c =? 170)%N
                   then String "K" (foldName s3)
                   else String (upper a) (foldName s1)
               | EmptyString => String (upper a) (foldName s1)
               end
      | EmptyString => String (upper a) EmptyString
      end
  end.

Definition nameMatches (field key : string) : bool :=
  String.eqb key field || String.eqb (foldName key) (foldName field).

End Json.

(** ** [APIError] and Go's [error] values *)

(** APIError represents an error returned by the Enzonix API. *)
Record APIError : Type := {
  StatusCode : Z;        (* json:"-" *)
  Message : string;      (* json:"message,omitempty" *)
  Code : string;         (* json:"code,omitempty" *)
  Raw : bytes            (* json:"raw,omitempty"; the empty list is nil *)
}.

Inductive error : Type :=
| errorString (msg : string)                 (* errors.New, fmt.Errorf *)
| wrapError (msg : string) (err : error)     (* fmt.Errorf("msg: %w", err) *)
| libError (pkg msg : string)                (* an error of a library package *)
| apiError (e : APIError).                   (* a *APIError *)

(** [json.Unmarshal(data, &v)] at the type of [v]: the target after the
    call and the error. [Encoder.Encode(v)]: the bytes written. *)
Class Unmarshaler (A : Type) := Unmarshal : bytes -> A -> A * option error.
Class Marshaler (A : Type) := Encode : A -> bytes + error.

(** The static type of a nil [any]. *)
Definition untyped : Type := Empty_set.

#[export] Instance untyped_Unmarshaler : Unmarshaler untyped := fun _ v => (v, None).
#[export] Instance untyped_Marshaler : Marshaler untyped := fun v => match v with end.

Definition nil {A : Type} : option A := None.

(** *** Decoding into an [APIError]

    [StatusCode] has the tag [json:"-"] and is never a target. [Message]
    and [Code] are strings: a JSON string is stored, [null] leaves the
    field as it is, any other value is an [UnmarshalTypeError], of which
    the first is kept while decoding goes on. [Raw] is a
    [json.RawMessage] and receives the text of its value. *)

Definition kindName (v : Json.value) : string :=
  match v with
  | Json.Null => "null"
  | Json.Bool _ => "bool"
  | Json.Number _ => "number"
  | Json.Str _ => "string"
  | Json.Array _ => "array"
  | Json.Object _ => "object"
  end.

Definition syntaxError : error := libError "encoding/json" "invalid JSON text".

Definition typeError (v : Json.value) : error :=
  libError "encoding/json" ("cannot unmarshal " +:+ kindName v).

Definition storeString (v : Json.value) (old : string) : string * option error :=
  match v with
  | Json.Str s => (s, None)
  | Json.Null => (old, None)
  | _ => (old, Some (typeError v))
  end.

Definition saveError (saved err : option error) : option error :=
  match saved with
  | Some _ => saved
  | None => err
  end.

Definition decodeMember (st : APIError * option error)
    (m : string * Json.value * bytes) : APIError * option error :=
  let '(e, saved) := st in
  if Json.nameMatches "message" (Json.memberKey m) then
    let '(s, err) := storeString (Json.memberValue m) (Message e) in
    ({| StatusCode := StatusCode e; Message := s; Code := Code e; Raw := Raw e |},
     saveError saved err)
  else if Json.nameMatches "code" (Json.memberKey m) then
    let '(s, err) := storeString (Json.memberValue m) (Code e) in
    ({| StatusCode := StatusCode e; Message := Message e; Code := s; Raw := Raw e |},
     saveError saved err)
  else if Json.nameMatches "raw" (Json.memberKey m) then
    ({| StatusCode := StatusCode e; Message := Message e; Code := Code e;
        Raw := Json.memberRaw m |}, saved)
  else (e, saved).

#[export] Instance APIError_Unmarshaler : Unmarshaler APIError := fun data e =>
  match Json.parse data with
  | None => (e, Some syntaxError)
  | Some Json.Null => (e, None)
  | Some (Json.Object members) => fold_left decodeMember members (e, None)
  | Some v => (e, Some (typeError v))
  end.

(** ** Package [io] *)

Module Io.

(** A stream: the bytes it delivers, and the error that ends it in
    place of end-of-file, if any. *)
Record Reader : Type := { content : bytes; failure : option error }.

(** [io.ReadAll(io.LimitReader(r, n))]: a stream longer than [n] bytes
    is cut at [n] and its end is never reached. *)
Fixpoint readLimited (n : N) (data : bytes) (fail : option error)
    : bytes * option error :=
  match data with
  | [] => ([], if (n =? 0)%N then None else fail)
  | b :: rest =>
      if (n =? 0)%N then ([], None)
      else let '(got, err) := readLimited (N.pred n) rest fail in (b :: got, err)
  end.

Definition ReadAllLimit (r : Reader) (n : N) : bytes * option error :=
  readLimited n (content r) (failure r).

End Io.

(** ** Package [net/http] *)

Module Http.

Definition MethodGet : string := "GET".
Definition MethodPost : string := "POST".
Definition MethodPut : string := "PUT".
Definition MethodPatch : string := "PATCH".
Definition MethodDelete : string := "DELETE".

(** A [context.Context]; a nil context is [None]. *)
Record Context : Type := { ctxID : nat }.

(** An [http.Client], by its timeout in nanoseconds and the identity of
    its transport. *)
Record Client : Type := { Timeout : Z; Transport : nat }.

Record Request : Type := {
  Ctx : Context;
  Method : string;
  URL : Url.URL;
  Header : gmap string (list string);
  Body : option bytes;
  ContentLength : Z;
  GetBody : option bytes      (* what the function returns, when set *)
}.

Record Response : Type := {
  StatusCode : Z;
  RespBody : Io.Reader
}.

Definition isTokenByte (c : ascii) : bool :=
  Url.isAlpha c || Url.isDigit c || Strings.ContainsByte "!#$%&'*+-.^_`|~" c.

Fixpoint allToken (s : string) : bool :=
  match s with
  | EmptyString => true
  | String c s' => isTokenByte c && allToken s'
  end.

Definition validMethod (method : string) : bool :=
  negb (isEmpty method) && allToken method.

(** [textproto.CanonicalMIMEHeaderKey] *)
Fixpoint canonFrom (upper : bool) (s : string) : string :=
  match s with
  | EmptyString => EmptyString
  | String c s' =>
      let c' := if upper then Strings.upper c else Strings.lower c in
      String c' (canonFrom (Ascii.eqb c' "-") s')
  end.

Fixpoint headerKeyShape (s : string) : bool * bool :=   (* valid, has a space *)
  match s with
  | EmptyString => (true, false)
  | String c s' =>
      let '(ok, sp) := headerKeyShape s' in
      if isTokenByte c then (ok, sp)
      else if Ascii.eqb c " " then (ok, true)
      else (false, sp)
  end.

Definition CanonicalMIMEHeaderKey (key : string) : string :=
  match headerKeyShape key with
  | (true, false) => canonFrom true key
  | _ => key
  end.

Definition HeaderSet (h : gmap string (list string)) (key value : string)
    : gmap string (list string) :=
  <[CanonicalMIMEHeaderKey key := [value]]> h.

(** [Header.Get]: the first value of the key, or the empty string. *)
Definition HeaderGet (h : gmap string (list string)) (key : string) : string :=
  match h !! CanonicalMIMEHeaderKey key with
  | Some (v :: _) => v
  | _ => EmptyString
  end.

Definition setHeader (r : Request) (key value : string) : Request :=
  {| Ctx := Ctx r; Method := Method r; URL := URL r;
     Header := HeaderSet (Header r) key value;
     Body := Body r; ContentLength := ContentLength r; GetBody := GetBody r |}.

Definition hasPort (host : string) : bool :=
  match Strings.CutLast host ":", Strings.CutLast host "]" with
  | Some (_, afterColon), Some (_, afterBracket) =>
      (String.length afterColon <? String.length afterBracket)%nat
  | Some _, None => true
  | None, _ => false
  end.

Definition removeEmptyPort (host : string) : string :=
  if hasPort host then Strings.TrimSuffix host ":" else host.

(** [http.NewRequestWithContext] with a body held in a [bytes.Buffer]. *)
Definition NewRequestWithContext (ctx : option Context) (method url : string)
    (body : option bytes) : Request + error :=
  let method := if isEmpty method then MethodGet else method in
  if negb (validMethod method) then inr (libError "net/http" "invalid method")
  else match ctx with
  | None => inr (libError "net/http" "nil Context")
  | Some ctx =>
      match Url.Parse url with
      | inr e => inr (libError "net/url" e)
      | inl u =>
          inl {| Ctx := ctx; Method := method;
                 URL := Url.withHost u (removeEmptyPort (Url.Host u));
                 Header := ∅;
                 Body := body;
                 ContentLength := match body with
                                  | Some b => Z.of_nat (length b)
                                  | None => 0
                                  end;
                 GetBody := body |}
      end
  end.

(** [http.StatusText]: the text of a status code, empty for a code that
    is not known. *)
Definition StatusText (code : Z) : string :=
  match code with
  | 100 => "Continue"
  | 101 => "Switching Protocols"
  | 102 => "Processing"
  | 103 => "Early Hints"
  | 200 => "OK"
  | 201 => "Created"
  | 202 => "Accepted"
  | 203 => "Non-Authoritative Information"
  | 204 => "No Content"
  | 205 => "Reset Content"
  | 206 => "Partial Content"
  | 207 => "Multi-Status"
  | 208 => "Already Reported"
  | 226 => "IM Used"
  | 300 => "Multiple Choices"
  | 301 => "Moved Permanently"
  | 302 => "Found"
  | 303 => "See Other"
  | 304 => "Not Modified"
  | 305 => "Use Proxy"
  | 307 => "Temporary Redirect"
  | 308 => "Permanent Redirect"
  | 400 => "Bad Request"
  | 401 => "Unauthorized"
  | 402 => "Payment Required"
  | 403 => "Forbidden"
  | 404 => "Not Found"
  | 405 => "Method Not Allowed"
  | 406 => "Not Acceptable"
  | 407 => "Proxy Authentication Required"
  | 408 => "Request Timeout"
  | 409 => "Conflict"
  | 410 => "Gone"
  | 411 => "Length Required"
  | 412 => "Precondition Failed"
  | 413 => "Request Entity Too Large"
  | 414 => "Request URI Too Long"
  | 415 => "Unsupported Media Type"
  | 416 => "Requested Range Not Satisfiable"
  | 417 => "Expectation Failed"
  | 418 => "I'm a teapot"
  | 421 => "Misdirected Request"
  | 422 => "Unprocessable Entity"
  | 423 => "Locked"
  | 424 => "Failed Dependency"
  | 425 => "Too Early"
  | 426 => "Upgrade Required"
  | 428 => "Precondition Required"
  | 429 => "Too Many Requests"
  | 431 => "Request Header Fields Too Large"
  | 451 => "Unavailable For Legal Reasons"
  | 500 => "Internal Server Error"
  | 501 => "Not Implemented"
  | 502 => "Bad Gateway"
  | 503 => "Service Unavailable"
  | 504 => "Gateway Timeout"
  | 505 => "HTTP Version Not Supported"
  | 506 => "Variant Also Negotiates"
  | 507 => "Insufficient Storage"
  | 508 => "Loop Detected"
  | 510 => "Not Extended"
  | 511 => "Network Authentication Required"
  | _ => EmptyString
  end.

End Http.

(** * [client.go] *)

Definition defaultBaseURL : string := "https://api.ns.enzonix.com".
Definition defaultTimeout : Z := 10 * 1000000000.   (* 10 * time.Second *)
Definition defaultUserAgent : string := "enzonix-dns-sdk-go/0.1.0".

(** Client is an HTTP client for the Enzonix DNS API. The base URL and
    the HTTP client are held through pointers that can be nil. *)
Record Client : Type := {
  baseURL : option Url.URL;
  apiKey : string;
  httpClient : option Http.Client;
  userAgent : string
}.

(** Option allows customising a Client instance produced by NewClient: a
    function that updates the client in place and may fail; a nil option
    is [None]. *)
Definition Option : Type := option (Client -> Client * option error).

Definition defaultHTTPClient : Http.Client :=
  {| Http.Timeout := defaultTimeout; Http.Transport := O |}.

(** The loop of [NewClient] over the options. *)
Fixpoint applyOptions (opts : list Option) (client : Client) : Client * option error :=
  match opts with
  | [] => (client, None)
  | None :: rest => applyOptions rest client
  | Some opt :: rest =>
      match opt client with
      | (client', Some err) => (client', Some err)
      | (client', None) => applyOptions rest client'
      end
  end.

(** NewClient creates a new Enzonix DNS API client. *)
Definition NewClient (key : string) (opts : list Option)
    : option Client * option error :=
  if isEmpty (Strings.TrimSpace key) then
    (None, Some (errorString "enzonix: api key must not be empty"))
  else
    match Url.Parse defaultBaseURL with
    | inr e =>
        (None, Some (wrapError "enzonix: parse default base url" (libError "net/url" e)))
    | inl base =>
        let client := {| baseURL := Some base;
                         apiKey := key;
                         userAgent := defaultUserAgent;
                         httpClient := Some defaultHTTPClient |} in
        match applyOptions opts client with
        | (_, Some err) => (None, Some err)
        | (client, None) =>
            (Some (match httpClient client with
                   | None => {| baseURL := baseURL client; apiKey := apiKey client;
                                httpClient := Some defaultHTTPClient;
                                userAgent := userAgent client |}
                   | Some _ => client
                   end), None)
        end
    end.

(** WithBaseURL overrides the default API base URL. *)
Definition WithBaseURL (rawURL : string) : Option :=
  Some (fun c =>
    if isEmpty (Strings.TrimSpace rawURL) then
      (c, Some (errorString "enzonix: base url must not be empty"))
    else match Url.Parse rawURL with
    | inr e => (c, Some (wrapError "enzonix: parse base url" (libError "net/url" e)))
    | inl parsed =>
        if negb (Url.IsAbs parsed) then
          (c, Some (errorString "enzonix: base url must be absolute"))
        else ({| baseURL := Some parsed; apiKey := apiKey c;
                 httpClient := httpClient c; userAgent := userAgent c |}, None)
    end).

(** WithHTTPClient sets a custom http.Client. It must not be nil. *)
Definition WithHTTPClient (hc : option Http.Client) : Option :=
  Some (fun c =>
    match hc with
    | None => (c, Some (errorString "enzonix: http client must not be nil"))
    | Some _ => ({| baseURL := baseURL c; apiKey := apiKey c;
                    httpClient := hc; userAgent := userAgent c |}, None)
    end).

(** WithUserAgent overrides the default user agent string. *)
Definition WithUserAgent (ua : string) : Option :=
  Some (fun c =>
    ({| baseURL := baseURL c; apiKey := apiKey c; httpClient := httpClient c;
        userAgent := Strings.TrimSpace ua |}, None)).

(** ** Methods of [*Client]

    A method runs on a store that holds the client it is called on, the
    network, and a trace of the requests built and sent. The network
    answers a request of an HTTP client from the requests sent so far.
    The receiver is a client: a method called on a nil [*Client] has no
    counterpart here. *)

Inductive event : Type :=
| Built (req : Http.Request)   (* newRequest returned req *)
| Sent (req : Http.Request).   (* httpClient.Do(req) was called *)

Record Store : Type := {
  self : Client;
  network : Http.Client -> list Http.Request -> Http.Request -> Http.Response + error;
  trace : list event           (* oldest first *)
}.

Inductive outcome (A : Type) : Type :=
| Returned (a : A)
| Panicked (msg : string).
Arguments Returned {A} a.
Arguments Panicked {A} msg.

Definition M (A : Type) : Type := Store -> outcome A * Store.

Definition ret {A : Type} (a : A) : M A := fun s => (Returned a, s).

Definition bind {A B : Type} (m : M A) (k : A -> M B) : M B := fun s =>
  match m s with
  | (Returned a, s') => k a s'
  | (Panicked msg, s') => (Panicked msg, s')
  end.

#[export] Instance M_ret : MRet M := @ret.
#[export] Instance M_bind : MBind M := fun A B k m => bind m k.

Definition getSelf : M Client := fun s => (Returned (self s), s).

Definition addEvent (s : Store) (ev : event) : Store :=
  {| self := self s; network := network s; trace := trace s ++ [ev] |}.

Definition record (ev : event) : M unit := fun s => (Returned tt, addEvent s ev).

Definition panic {A : Type} (msg : string) : M A := fun s => (Panicked msg, s).

Definition sentRequests (t : list event) : list Http.Request :=
  omap (fun ev => match ev with Sent r => Some r | Built _ => None end) t.

(** The network answers [req]; the call is added to the trace. *)
Definition roundTrip (hc : Http.Client) (req : Http.Request)
    : M (Http.Response + error) := fun s =>
  (Returned (network s hc (sentRequests (trace s)) req), addEvent s (Sent req)).

(** [c.httpClient.Do(req)] *)
Definition httpClientDo (req : Http.Request) : M (Http.Response + error) :=
  c ← getSelf;
  match httpClient c with
  | None => panic "invalid memory address or nil pointer dereference"
  | Some hc => roundTrip hc req
  end.

Definition bearer (key : string) : string := "Bearer " +:+ key.

Definition newRequest {A : Type} `{!Marshaler A} (ctx : option Http.Context)
    (method path : string) (query : option (gmap string (list string)))
    (body : option A) : M (Http.Request + error) :=
  c ← getSelf;
  match ctx with
  | None => ret (inr (errorString "enzonix: context must not be nil"))
  | Some _ =>
  match Url.Parse path with
  | inr e => ret (inr (wrapError "enzonix: parse path" (libError "net/url" e)))
  | inl rel =>
  match Url.ResolveReferenceFrom (baseURL c) rel with
  | None => panic "invalid memory address or nil pointer dereference"
  | Some u =>
  let u := match query with
           | Some q => Url.withRawQuery u (Url.Encode q)
           | None => u
           end in
  match (match body with
         | Some b => match Encode b with
                     | inl buf => inl (Some buf)
                     | inr err => inr err
                     end
         | None => inl None
         end) with
  | inr err => ret (inr (wrapError "enzonix: encode request body" err))
  | inl bodyReader =>
  match Http.NewRequestWithContext ctx method (Url.String u) bodyReader with
  | inr err => ret (inr (wrapError "enzonix: create request" err))
  | inl req =>
      let req := Http.setHeader req "Authorization" (bearer (apiKey c)) in
      let req := Http.setHeader req "Accept" "application/json" in
      let req := match body with
                 | Some _ => Http.setHeader req "Content-Type" "application/json"
                 | None => req
                 end in
      let req := if negb (isEmpty (userAgent c))
                 then Http.setHeader req "User-Agent" (userAgent c)
                 else req in
      _ ← record (Built req);
      ret (inl req)
  end end end end end.

Definition jsonLimit : N := 1048576.     (* 1 << 20 *)
Definition exportLimit : N := 4194304.   (* 4 << 20 *)

(** The [*APIError] for a response of status [status] of which [body] was
    read: the statements that [do] and [parseAPIError] both run on the
    body they have read. *)
Definition makeAPIError (status : Z) (body : bytes) : APIError :=
  let apiErr := {| StatusCode := status; Message := EmptyString;
                   Code := EmptyString; Raw := [] |} in
  match body with
  | [] => apiErr
  | _ :: _ =>
      match Unmarshal body apiErr with
      | (apiErr, Some _) =>
          (* be tolerant to plain string errors *)
          {| StatusCode := StatusCode apiErr;
             Message := Strings.TrimSpace (string_of_list_byte body);
             Code := Code apiErr; Raw := Raw apiErr |}
      | (apiErr, None) =>
          {| StatusCode := StatusCode apiErr; Message := Message apiErr;
             Code := Code apiErr; Raw := body |}
      end
  end.

(** [do] sends the request and decodes the answer into [out]; the target
    after the call is returned with the error. *)
Definition do {A : Type} `{!Unmarshaler A} (req : Http.Request) (out : option A)
    : M (option A * option error) :=
  r ← httpClientDo req;
  match r with
  | inr err => ret (out, Some (wrapError "enzonix: request failed" err))
  | inl res =>
      match Io.ReadAllLimit (Http.RespBody res) jsonLimit with
      | (_, Some err) => ret (out, Some (wrapError "enzonix: read response" err))
      | (bodyBytes, None) =>
          if (400 <=? Http.StatusCode res) then
            ret (out, Some (apiError (makeAPIError (Http.StatusCode res) bodyBytes)))
          else
            match out, bodyBytes with
            | None, _ | _, [] => ret (out, None)
            | Some target, _ :: _ =>
                match Unmarshal bodyBytes target with
                | (target', Some err) =>
                    ret (Some target', Some (wrapError "enzonix: decode response" err))
                | (target', None) => ret (Some target', None)
                end
            end
      end
  end.

(** [parseAPIError] reads the body itself and ignores a read error. *)
Definition parseAPIError (res : Http.Response) : error :=
  let '(body, _) := Io.ReadAllLimit (Http.RespBody res) jsonLimit in
  apiError (makeAPIError (Http.StatusCode res) body).

(** [requireID] *)
Definition requireID (value label : string) : option error :=
  if isEmpty (Strings.TrimSpace value)
  then Some (errorString ("enzonix: " +:+ label +:+ " must not be empty"))
  else None.

(** Error satisfies the error interface; [%d] writes the status in
    decimal. *)
Definition APIError_Error (e : APIError) : string :=
  let msg := Message e in
  let msg := if isEmpty msg then Http.StatusText (StatusCode e) else msg in
  if negb (isEmpty (Code e)) then
    "enzonix: " +:+ msg +:+ " (status=" +:+ pretty (StatusCode e)
    +:+ ", code=" +:+ Code e +:+ ")"
  else "enzonix: " +:+ msg +:+ " (status=" +:+ pretty (StatusCode e) +:+ ")".

(** A [time.Time], as nanoseconds since the Unix epoch. *)
Definition Time : Type := Z.

(** * The domain-scoped client API *)

Module DomainAPI.

Definition clientAPIPrefix : string := "/api/client".

(** Domain represents a domain resource managed via the client API. *)
Record Domain : Type := {
  ID : string;
  ClientID : string;
  Name : string;
  Active : bool;
  CreatedAt : option Time;
  UpdatedAt : option Time;
  NameserverLastChecked : option Time;
  NameserverVerifiedAt : option Time;
  NameserverCheckStatus : string
}.

Definition zeroDomain : Domain :=
  {| ID := EmptyString; ClientID := EmptyString; Name := EmptyString;
     Active := false; CreatedAt := None; UpdatedAt := None;
     NameserverLastChecked := None; NameserverVerifiedAt := None;
     NameserverCheckStatus := EmptyString |}.

(** NameserverCheckResponse represents the check-nameserver payload. *)
Record NameserverCheckResponse : Type := {
  CheckDomain : Domain;
  CheckValid : bool;
  CheckStatus : string
}.

Definition zeroNameserverCheckResponse : NameserverCheckResponse :=
  {| CheckDomain := zeroDomain; CheckValid := false; CheckStatus := EmptyString |}.

(** Record describes a DNS record managed by Enzonix. *)
Record Record_ : Type := {
  RecordID : string;
  DomainID : string;
  RecordName : string;
  RecordType : string;
  TTL : Z;
  CountryCodes : list string;
  Priority : Z;
  Value : string;
  RecordCreatedAt : option Time;
  RecordUpdatedAt : option Time
}.

Definition zeroRecord : Record_ :=
  {| RecordID := EmptyString; DomainID := EmptyString; RecordName := EmptyString;
     RecordType := EmptyString; TTL := 0; CountryCodes := []; Priority := 0;
     Value := EmptyString; RecordCreatedAt := None; RecordUpdatedAt := None |}.

(** CreateRecordRequest defines the payload used to create a new record. *)
Record CreateRecordRequest : Type := {
  CreateDomainID : string;
  CreateName : string;
  CreateType : string;
  CreateValue : string;
  CreateTTL : option Z;
  CreatePriority : option Z;
  CreateCountryCodes : list string
}.

(** UpdateRecordRequest defines the payload used to update an existing record. *)
Record UpdateRecordRequest : Type := {
  UpdateName : option string;
  UpdateType : option string;
  UpdateValue : option string;
  UpdateTTL : option Z;
  UpdatePriority : option Z;
  UpdateCountryCodes : list string
}.

(** BindImportResponse represents the response from the BIND import endpoint. *)
Record BindImportResponse : Type := {
  ImportDomain : Domain;
  RecordsCreated : Z;
  ImportRecords : list Record_;
  PartialSuccess : bool;
  ImportErrors : list string
}.

Definition zeroBindImportResponse : BindImportResponse :=
  {| ImportDomain := zeroDomain; RecordsCreated := 0; ImportRecords := [];
     PartialSuccess := false; ImportErrors := [] |}.

Record ClientProfile : Type := {
  ProfileID : string;
  ProfileName : string;
  Email : string;
  APIToken : string;
  DomainLimit : Z;
  ProfileCreatedAt : Time;
  ProfileUpdatedAt : Time
}.

Definition zeroClientProfile : ClientProfile :=
  {| ProfileID := EmptyString; ProfileName := EmptyString; Email := EmptyString;
     APIToken := EmptyString; DomainLimit := 0; ProfileCreatedAt := 0;
     ProfileUpdatedAt := 0 |}.

Section Operations.

(** [encoding/json] at the types of the resources. *)
Context `{!Unmarshaler (list Domain), !Unmarshaler Domain,
          !Unmarshaler NameserverCheckResponse,
          !Unmarshaler (list Record_), !Unmarshaler Record_,
          !Unmarshaler BindImportResponse, !Unmarshaler ClientProfile,
          !Marshaler (gmap string string),
          !Marshaler CreateRecordRequest, !Marshaler UpdateRecordRequest}.

(** ListDomains retrieves all domains owned by the authenticated client. *)
Definition ListDomains (ctx : option Http.Context) : M (list Domain * option error) :=
  r ← newRequest (A := untyped) ctx Http.MethodGet (clientAPIPrefix +:+ "/domains") nil nil;
  match r with
  | inr err => ret ([], Some err)
  | inl req =>
      '(domains, err) ← do req (Some []);
      match err with
      | Some err => ret ([], Some err)
      | None => ret (default [] domains, None)
      end
  end.

(** CreateDomain creates a new domain for the authenticated client. *)
Definition CreateDomain (ctx : option Http.Context) (name : string)
    : M (option Domain * option error) :=
  let name := Strings.TrimSpace name in
  if isEmpty name then
    ret (None, Some (errorString "enzonix: domain name must not be empty"))
  else
    let payload : gmap string string := {["name" := name]} in
    r ← newRequest ctx Http.MethodPost (clientAPIPrefix +:+ "/domains") nil (Some payload);
    match r with
    | inr err => ret (None, Some err)
    | inl req =>
        '(domain, err) ← do req (Some zeroDomain);
        match err with
        | Some err => ret (None, Some err)
        | None => ret (domain, None)
        end
    end.

(** DeleteDomain deletes a domain by ID. *)
Definition DeleteDomain (ctx : option Http.Context) (domainID : string)
    : M (option error) :=
  match requireID domainID "domain id" with
  | Some err => ret (Some err)
  | None =>
      let path := clientAPIPrefix +:+ "/domains/" +:+ Url.PathEscape domainID in
      r ← newRequest (A := untyped) ctx Http.MethodDelete path nil nil;
      match r with
      | inr err => ret (Some err)
      | inl req => '(_, err) ← do (A := untyped) req nil; ret err
      end
  end.

(** CheckNameserver triggers a nameserver validation for a domain. *)
Definition CheckNameserver (ctx : option Http.Context) (domainID : string)
    : M (option NameserverCheckResponse * option error) :=
  match requireID domainID "domain id" with
  | Some err => ret (None, Some err)
  | None =>
      let path := clientAPIPrefix +:+ "/domains/" +:+ Url.PathEscape domainID
                  +:+ "/check-nameserver" in
      r ← newRequest (A := untyped) ctx Http.MethodPost path nil nil;
      match r with
      | inr err => ret (None, Some err)
      | inl req =>
          '(resp, err) ← do req (Some zeroNameserverCheckResponse);
          match err with
          | Some err => ret (None, Some err)
          | None => ret (resp, None)
          end
      end
  end.

(** ListDomainRecords returns all records for the given domain ID. *)
Definition ListDomainRecords (ctx : option Http.Context) (domainID : string)
    : M (list Record_ * option error) :=
  match requireID domainID "domain id" with
  | Some err => ret ([], Some err)
  | None =>
      let path := clientAPIPrefix +:+ "/domains/" +:+ Url.PathEscape domainID
                  +:+ "/records" in
      r ← newRequest (A := untyped) ctx Http.MethodGet path nil nil;
      match r with
      | inr err => ret ([], Some err)
      | inl req =>
          '(records, err) ← do req (Some []);
          match err with
          | Some err => ret ([], Some err)
          | None => ret (default [] records, None)
          end
      end
  end.

(** CreateRecord creates a record and returns the created resource. *)
Definition CreateRecord (ctx : option Http.Context) (payload : CreateRecordRequest)
    : M (option Record_ * option error) :=
  match requireID (CreateDomainID payload) "domain id" with
  | Some err => ret (None, Some err)
  | None =>
      if isEmpty (Strings.TrimSpace (CreateName payload)) then
        ret (None, Some (errorString "enzonix: record name must not be empty"))
      else if isEmpty (Strings.TrimSpace (CreateType payload)) then
        ret (None, Some (errorString "enzonix: record type must not be empty"))
      else if isEmpty (Strings.TrimSpace (CreateValue payload)) then
        ret (None, Some (errorString "enzonix: record value must not be empty"))
      else
        r ← newRequest ctx Http.MethodPost (clientAPIPrefix +:+ "/records") nil
              (Some payload);
        match r with
        | inr err => ret (None, Some err)
        | inl req =>
            '(record, err) ← do req (Some zeroRecord);
            match err with
            | Some err => ret (None, Some err)
            | None => ret (record, None)
            end
        end
  end.

(** UpdateRecord updates a record by ID and returns the updated resource. *)
Definition UpdateRecord (ctx : option Http.Context) (recordID : string)
    (payload : UpdateRecordRequest) : M (option Record_ * option error) :=
  match requireID recordID "record id" with
  | Some err => ret (None, Some err)
  | None =>
      let path := clientAPIPrefix +:+ "/records/" +:+ Url.PathEscape recordID in
      r ← newRequest ctx Http.MethodPut path nil (Some payload);
      match r with
      | inr err => ret (None, Some err)
      | inl req =>
          '(record, err) ← do req (Some zeroRecord);
          match err with
          | Some err => ret (None, Some err)
          | None => ret (record, None)
          end
      end
  end.

(** DeleteRecord deletes a record by ID. *)
Definition DeleteRecord (ctx : option Http.Context) (recordID : string)
    : M (option error) :=
  match requireID recordID "record id" with
  | Some err => ret (Some err)
  | None =>
      let path := clientAPIPrefix +:+ "/records/" +:+ Url.PathEscape recordID in
      r ← newRequest (A := untyped) ctx Http.MethodDelete path nil nil;
      match r with
      | inr err => ret (Some err)
      | inl req => '(_, err) ← do (A := untyped) req nil; ret err
      end
  end.

(** ExportBindZone downloads a domain's records as a BIND zone file. *)
Definition ExportBindZone (ctx : option Http.Context) (domainID : string)
    : M (bytes * option error) :=
  match requireID domainID "domain id" with
  | Some err => ret ([], Some err)
  | None =>
      let path := clientAPIPrefix +:+ "/domains/" +:+ Url.PathEscape domainID
                  +:+ "/export/bind" in
      r ← newRequest (A := untyped) ctx Http.MethodGet path nil nil;
      match r with
      | inr err => ret ([], Some err)
      | inl req =>
          let req := Http.setHeader req "Accept" "text/plain" in
          res ← httpClientDo req;
          match res with
          | inr err => ret ([], Some (wrapError "enzonix: request failed" err))
          | inl res =>
              if (400 <=? Http.StatusCode res) then ret ([], Some (parseAPIError res))
              else ret (Io.ReadAllLimit (Http.RespBody res) exportLimit)
          end
      end
  end.

(** ImportBindZone imports records from a BIND zone file. *)
Definition ImportBindZone (ctx : option Http.Context) (zoneData : bytes)
    (contentType : string) : M (option BindImportResponse * option error) :=
  match zoneData with
  | [] => ret (None, Some (errorString "enzonix: zone data must not be empty"))
  | _ :: _ =>
      let contentType := if isEmpty contentType then "text/plain" else contentType in
      r ← newRequest (A := untyped) ctx Http.MethodPost
            (clientAPIPrefix +:+ "/import/bind") nil nil;
      match r with
      | inr err => ret (None, Some err)
      | inl req =>
          let req :=
            {| Http.Ctx := Http.Ctx req; Http.Method := Http.Method req;
               Http.URL := Http.URL req; Http.Header := Http.Header req;
               Http.Body := Some zoneData;
               Http.ContentLength := Z.of_nat (length zoneData);
               Http.GetBody := Some zoneData |} in
          let req := Http.setHeader req "Content-Type" contentType in
          '(resp, err) ← do req (Some zeroBindImportResponse);
          match err with
          | Some err => ret (None, Some err)
          | None => ret (resp, None)
          end
      end
  end.

(** RotateAPIKey rotates the client's API key and returns the updated profile. *)
Definition RotateAPIKey (ctx : option Http.Context)
    : M (option ClientProfile * option error) :=
  r ← newRequest (A := untyped) ctx Http.MethodPost
        (clientAPIPrefix +:+ "/rotate-api-key") nil nil;
  match r with
  | inr err => ret (None, Some err)
  | inl req =>
      '(profile, err) ← do req (Some zeroClientProfile);
      match err with
      | Some err => ret (None, Some err)
      | None => ret (profile, None)
      end
  end.

End Operations.

End DomainAPI.

(** * The zone-scoped record API *)

Module ZoneAPI.

(** Record describes a DNS record managed by Enzonix. *)
Record Record_ : Type := {
  ID : string;
  Zone : string;
  Name : string;
  Type_ : string;
  Content : string;
  TTL : Z;
  Priority : N;
  Weight : N;
  CreatedAt : option Time;
  UpdatedAt : option Time
}.

(** ListRecordsOptions controls the result set returned by ListRecords. *)
Record ListRecordsOptions : Type := {
  OptName : string;
  OptType : string;
  Page : Z;
  PerPage : Z
}.

(** CreateRecordRequest defines the payload used to create a new record. *)
Record CreateRecordRequest : Type := {
  CreateName : string;
  CreateType : string;
  CreateContent : string;
  CreateTTL : Z;
  CreatePriority : N;
  CreateWeight : N
}.

(** UpdateRecordRequest defines the payload used to update an existing record. *)
Record UpdateRecordRequest : Type := {
  UpdateName : option string;
  UpdateType : option string;
  UpdateContent : option string;
  UpdateTTL : option Z;
  UpdatePriority : option N;
  UpdateWeight : option N
}.

(** The envelope [ListRecords] decodes. *)
Record recordsResponse : Type := { Records : list Record_ }.

Definition zeroRecord : Record_ :=
  {| ID := EmptyString; Zone := EmptyString; Name := EmptyString;
     Type_ := EmptyString; Content := EmptyString; TTL := 0; Priority := 0;
     Weight := 0; CreatedAt := None; UpdatedAt := None |}.

Definition requireZone (zone : string) : option error :=
  if isEmpty (Strings.TrimSpace zone)
  then Some (errorString "enzonix: zone must not be empty")
  else None.

Definition trimZone (zone : string) : string :=
  let zone := Strings.TrimSpace zone in
  Strings.TrimSuffix zone ".".

Definition zoneRecordsPath (zone : string) : string :=
  "/zones/" +:+ Url.PathEscape (trimZone zone) +:+ "/records".

Definition zoneRecordPath (zone recordID : string) : string :=
  zoneRecordsPath zone +:+ "/" +:+ Url.PathEscape recordID.

(** [strconv.Itoa] *)
Definition Itoa (n : Z) : string := pretty n.

(** The query of [ListRecords]. *)
Definition listQuery (opts : option ListRecordsOptions) : gmap string (list string) :=
  match opts with
  | None => ∅
  | Some opts =>
      let query : gmap string (list string) := ∅ in
      let query := if negb (isEmpty (OptName opts))
                   then Url.ValuesSet query "name" (OptName opts) else query in
      let query := if negb (isEmpty (OptType opts))
                   then Url.ValuesSet query "type" (OptType opts) else query in
      let query := if (0 <? Page opts)
                   then Url.ValuesSet query "page" (Itoa (Page opts)) else query in
      let query := if (0 <? PerPage opts)
                   then Url.ValuesSet query "per_page" (Itoa (PerPage opts)) else query in
      query
  end.

Section Operations.

Context `{!Unmarshaler recordsResponse, !Unmarshaler Record_,
          !Marshaler CreateRecordRequest, !Marshaler UpdateRecordRequest}.

(** ListRecords returns all records for the given zone. *)
Definition ListRecords (ctx : option Http.Context) (zone : string)
    (opts : option ListRecordsOptions) : M (list Record_ * option error) :=
  match requireZone zone with
  | Some err => ret ([], Some err)
  | None =>
      let query := listQuery opts in
      r ← newRequest (A := untyped) ctx Http.MethodGet (zoneRecordsPath zone)
            (Some query) nil;
      match r with
      | inr err => ret ([], Some err)
      | inl req =>
          '(response, err) ← do req (Some {| Records := [] |});
          match err with
          | Some err => ret ([], Some err)
          | None => ret (from_option Records [] response, None)
          end
      end
  end.

(** CreateRecord creates a record and returns the created resource. *)
Definition CreateRecord (ctx : option Http.Context) (zone : string)
    (payload : CreateRecordRequest) : M (option Record_ * option error) :=
  match requireZone zone with
  | Some err => ret (None, Some err)
  | None =>
      if isEmpty (Strings.TrimSpace (CreateName payload)) then
        ret (None, Some (errorString "enzonix: record name must not be empty"))
      else if isEmpty (Strings.TrimSpace (CreateType payload)) then
        ret (None, Some (errorString "enzonix: record type must not be empty"))
      else if isEmpty (Strings.TrimSpace (CreateContent payload)) then
        ret (None, Some (errorString "enzonix: record content must not be empty"))
      else
        r ← newRequest ctx Http.MethodPost (zoneRecordsPath zone) nil (Some payload);
        match r with
        | inr err => ret (None, Some err)
        | inl req =>
            '(record, err) ← do req (Some zeroRecord);
            match err with
            | Some err => ret (None, Some err)
            | None => ret (record, None)
            end
        end
  end.

(** UpdateRecord updates a record by ID and returns the updated resource. *)
Definition UpdateRecord (ctx : option Http.Context) (zone recordID : string)
    (payload : UpdateRecordRequest) : M (option Record_ * option error) :=
  match requireZone zone with
  | Some err => ret (None, Some err)
  | None =>
      if isEmpty (Strings.TrimSpace recordID) then
        ret (None, Some (errorString "enzonix: record id must not be empty"))
      else
        r ← newRequest ctx Http.MethodPatch (zoneRecordPath zone recordID) nil
              (Some payload);
        match r with
        | inr err => ret (None, Some err)
        | inl req =>
            '(record, err) ← do req (Some zeroRecord);
            match err with
            | Some err => ret (None, Some err)
            | None => ret (record, None)
            end
        end
  end.

(** DeleteRecord deletes a record by ID. *)
Definition DeleteRecord (ctx : option Http.Context) (zone recordID : string)
    : M (option error) :=
  match requireZone zone with
  | Some err => ret (Some err)
  | None =>
      if isEmpty (Strings.TrimSpace recordID) then
        ret (Some (errorString "enzonix: record id must not be empty"))
      else
        r ← newRequest (A := untyped) ctx Http.MethodDelete
              (zoneRecordPath zone recordID) nil nil;
        match r with
        | inr err => ret (Some err)
        | inl req => '(_, err) ← do (A := untyped) req nil; ret err
        end
  end.

End Operations.

End ZoneAPI.

(** * Vocabulary of the properties *)

(** The values of the members of an object whose key selects the field
    [name], in the order of the text. *)
Definition fieldValues (name : string) (members : list (string * Json.value * bytes))
    : list Json.value :=
  map Json.memberValue
      (filter (fun m => Json.nameMatches name (Json.memberKey m) = true) members).

(** A JSON value that is a string, and the string of an optional value. *)
Definition isString (v : Json.value) : Prop :=
  match v with
  | Json.Str _ => True
  | _ => False
  end.

Definition stringOr (d : string) (v : option Json.value) : string :=
  match v with
  | Some (Json.Str s) => s
  | _ => d
  end.

(** A byte that stands for itself inside a JSON string: printable ASCII
    other than the double quote and the backslash. *)
Definition plainByte (b : byte) : bool :=
  (32 <=? Json.bcode b)%N && (Json.bcode b <? 127)%N
  && negb (Byte.eqb b x22) && negb (Byte.eqb b x5c).

Definition plain (text : bytes) : Prop := Forall (fun b => plainByte b = true) text.

(** The error body [{"message":"msg","code":"code"}], followed by a line
    feed when [newline] is set, as [http.Error] and [json.Encoder] write
    it. *)
Definition structuredBody (msg code : bytes) (newline : bool) : bytes :=
  jsb "{'message':'" ++ msg ++ jsb "','code':'" ++ code ++ jsb "'}"
  ++ (if newline then [x0a] else []).

(** A byte with which a JSON token can start: white space, a brace, a
    bracket, a colon, a comma, a quote, a minus sign, a digit, or the
    first letter of [true], [false] or [null]. *)
Definition startsToken (b : byte) : bool :=
  Json.isSpace b || Json.isDigit b
  || match b with
     | "{"%byte | "}"%byte | "["%byte | "]"%byte | ":"%byte | ","%byte
     | x22 | "-"%byte | "t"%byte | "f"%byte | "n"%byte => true
     | _ => false
     end.

(** The [APIError] the response path starts from. *)
Definition emptyAPIError (status : Z) : APIError :=
  {| StatusCode := status; Message := EmptyString; Code := EmptyString; Raw := [] |}.

(** [s'] is [s] with some events added, the requests sent among them
    carrying the credential of the client, which is unchanged. *)
Definition follows (s s' : Store) : Prop :=
  self s' = self s
  /\ network s' = network s
  /\ forall req, Sent req ∈ trace s' ->
       Sent req ∈ trace s
       \/ Http.Header req !! "Authorization" = Some [bearer (apiKey (self s))].

(** The default base URL, parsed. *)
Definition defaultBase : Url.URL :=
  {| Url.Scheme := "https"; Url.Opaque := EmptyString; Url.User := None;
     Url.Host := "api.ns.enzonix.com"; Url.Path := EmptyString;
     Url.RawPath := EmptyString; Url.OmitHost := false;
     Url.ForceQuery := false; Url.RawQuery := EmptyString;
     Url.Fragment := EmptyString; Url.RawFragment := EmptyString |}.

(** The client [NewClient] hands to the first option. *)
Definition initialClient (key : string) : Client :=
  {| baseURL := Some defaultBase;
     apiKey := key;
     httpClient := Some defaultHTTPClient;
     userAgent := defaultUserAgent |}.

(** [opts] holds an option that returns [err] when [NewClient] reaches
    it, every option before it having returned nil. *)
Definition FirstFailure (opts : list Option) (c : Client) (err : error) : Prop :=
  exists pre opt post c',
    opts = pre ++ Some opt :: post
    /\ applyOptions pre c = (c', None)
    /\ snd (opt c') = Some err.

(** The error of an option applied to [c]; a nil option is not called. *)
Definition optionError (o : Option) (c : Client) : option error :=
  match o with
  | Some opt => snd (opt c)
  | None => None
  end.

(** The options this package provides, and nil. *)
Definition providedOption (o : Option) : Prop :=
  o = None
  \/ (exists rawURL, o = WithBaseURL rawURL)
  \/ (exists hc, o = WithHTTPClient hc)
  \/ (exists ua, o = WithUserAgent ua).

(** What a request built for client [c] with body [body] carries. *)
Definition carriesHeaders {A : Type} (c : Client) (body : option A)
    (req : Http.Request) : Prop :=
  Http.Header req !! "Authorization" = Some [bearer (apiKey c)]
  /\ Http.Header req !! "Content-Type"
     = match body with
       | Some _ => Some ["application/json"]
       | None => None
       end
  /\ Http.Header req !! "User-Agent"
     = if isEmpty (userAgent c) then None else Some [userAgent c].

(** The calls of the resource operations, and the store a call leaves. *)
Inductive operation : Type :=
| callListDomains (ctx : option Http.Context)
| callCreateDomain (ctx : option Http.Context) (name : string)
| callDeleteDomain (ctx : option Http.Context) (domainID : string)
| callCheckNameserver (ctx : option Http.Context) (domainID : string)
| callListDomainRecords (ctx : option Http.Context) (domainID : string)
| callCreateRecord (ctx : option Http.Context) (payload : DomainAPI.CreateRecordRequest)
| callUpdateRecord (ctx : option Http.Context) (recordID : string)
    (payload : DomainAPI.UpdateRecordRequest)
| callDeleteRecord (ctx : option Http.Context) (recordID : string)
| callExportBindZone (ctx : option Http.Context) (domainID : string)
| callImportBindZone (ctx : option Http.Context) (zoneData : bytes) (contentType : string)
| callRotateAPIKey (ctx : option Http.Context)
| callZoneListRecords (ctx : option Http.Context) (zone : string)
    (opts : option ZoneAPI.ListRecordsOptions)
| callZoneCreateRecord (ctx : option Http.Context) (zone : string)
    (payload : ZoneAPI.CreateRecordRequest)
| callZoneUpdateRecord (ctx : option Http.Context) (zone recordID : string)
    (payload : ZoneAPI.UpdateRecordRequest)
| callZoneDeleteRecord (ctx : option Http.Context) (zone recordID : string).

Section Calls.

Context `{!Unmarshaler (list DomainAPI.Domain), !Unmarshaler DomainAPI.Domain,
          !Unmarshaler DomainAPI.NameserverCheckResponse,
          !Unmarshaler (list DomainAPI.Record_), !Unmarshaler DomainAPI.Record_,
          !Unmarshaler DomainAPI.BindImportResponse,
          !Unmarshaler DomainAPI.ClientProfile,
          !Marshaler (gmap string string),
          !Marshaler DomainAPI.CreateRecordRequest,
          !Marshaler DomainAPI.UpdateRecordRequest,
          !Unmarshaler ZoneAPI.recordsResponse, !Unmarshaler ZoneAPI.Record_,
          !Marshaler ZoneAPI.CreateRecordRequest,
          !Marshaler ZoneAPI.UpdateRecordRequest}.

Definition storeAfter (op : operation) (s : Store) : Store :=
  match op with
  | callListDomains ctx => snd (DomainAPI.ListDomains ctx s)
  | callCreateDomain ctx name => snd (DomainAPI.CreateDomain ctx name s)
  | callDeleteDomain ctx id => snd (DomainAPI.DeleteDomain ctx id s)
  | callCheckNameserver ctx id => snd (DomainAPI.CheckNameserver ctx id s)
  | callListDomainRecords ctx id => snd (DomainAPI.ListDomainRecords ctx id s)
  | callCreateRecord ctx payload => snd (DomainAPI.CreateRecord ctx payload s)
  | callUpdateRecord ctx id payload => snd (DomainAPI.UpdateRecord ctx id payload s)
  | callDeleteRecord ctx id => snd (DomainAPI.DeleteRecord ctx id s)
  | callExportBindZone ctx id => snd (DomainAPI.ExportBindZone ctx id s)
  | callImportBindZone ctx data ct => snd (DomainAPI.ImportBindZone ctx data ct s)
  | callRotateAPIKey ctx => snd (DomainAPI.RotateAPIKey ctx s)
  | callZoneListRecords ctx zone opts => snd (ZoneAPI.ListRecords ctx zone opts s)
  | callZoneCreateRecord ctx zone payload => snd (ZoneAPI.CreateRecord ctx zone payload s)
  | callZoneUpdateRecord ctx zone id payload =>
      snd (ZoneAPI.UpdateRecord ctx zone id payload s)
  | callZoneDeleteRecord ctx zone id => snd (ZoneAPI.DeleteRecord ctx zone id s)
  end.

End Calls.

(** A server stub in the manner of the package tests: it answers every
    request with the same status and body. *)
Definition stubServer (status : Z) (body : bytes)
    : Http.Client -> list Http.Request -> Http.Request -> Http.Response + error :=
  fun _ _ _ =>
    inl {| Http.StatusCode := status;
           Http.RespBody := {| Io.content := body; Io.failure := None |} |}.

Definition background : option Http.Context := Some {| Http.ctxID := O |}.

(** A request as [newRequest] builds it for the default client and the
    path [/fail], before the headers are set. *)
Definition plainRequest : Http.Request :=
  {| Http.Ctx := {| Http.ctxID := O |};
     Http.Method := Http.MethodGet;
     Http.URL := Url.withPath defaultBase "/fail" EmptyString;
     Http.Header := ∅;
     Http.Body := None;
     Http.ContentLength := 0;
     Http.GetBody := None |}.

(** A store for a client whose server answers like [stubServer]. *)
Definition stubStore (c : Client) (status : Z) (body : bytes) : Store :=
  {| self := c; network := stubServer status body; trace := [] |}.

(** The body [http.Error] writes for a JSON message: the text and a line feed. *)
Definition oopsBody : bytes := jsb "{'message':'oops','code':'bad_request'}" ++ [x0a].

(** An error body whose code is a number. *)
Definition numericCodeBody : bytes := jsb "{'message':'not found','code':404}".

(** Codecs for the resource types, to run a call against a stub: the
    decoder stores nothing and the encoder writes an empty object. *)
Definition keepTarget (A : Type) : Unmarshaler A := fun _ v => (v, None).
Definition emptyObject (A : Type) : Marshaler A := fun _ => inl (jsb "{}").

(** The zone file of the test [TestExportBindZone]. *)
Definition zoneFile : bytes := list_byte_of_string "$ORIGIN example.com." ++ [x0a].

(** ** The calls, with what they return *)

(** The value a call returns beside the error. *)
Inductive result : Type :=
| noValue
| domains (l : list DomainAPI.Domain)
| domainPtr (d : option DomainAPI.Domain)
| checkPtr (r : option DomainAPI.NameserverCheckResponse)
| domainRecords (l : list DomainAPI.Record_)
| domainRecordPtr (r : option DomainAPI.Record_)
| zoneBytes (data : bytes)
| importPtr (r : option DomainAPI.BindImportResponse)
| profilePtr (p : option DomainAPI.ClientProfile)
| zoneRecords (l : list ZoneAPI.Record_)
| zoneRecordPtr (r : option ZoneAPI.Record_).

Definition withValue {A : Type} (f : A -> result) (m : M (A * option error))
    : M (result * option error) :=
  r ← m; ret (f (fst r), snd r).

Definition withoutValue (m : M (option error)) : M (result * option error) :=
  err ← m; ret (noValue, err).

Section Runs.

Context `{!Unmarshaler (list DomainAPI.Domain), !Unmarshaler DomainAPI.Domain,
          !Unmarshaler DomainAPI.NameserverCheckResponse,
          !Unmarshaler (list DomainAPI.Record_), !Unmarshaler DomainAPI.Record_,
          !Unmarshaler DomainAPI.BindImportResponse,
          !Unmarshaler DomainAPI.ClientProfile,
          !Marshaler (gmap string string),
          !Marshaler DomainAPI.CreateRecordRequest,
          !Marshaler DomainAPI.UpdateRecordRequest,
          !Unmarshaler ZoneAPI.recordsResponse, !Unmarshaler ZoneAPI.Record_,
          !Marshaler ZoneAPI.CreateRecordRequest,
          !Marshaler ZoneAPI.UpdateRecordRequest}.

(** A call of a resource operation. *)
Definition run (op : operation) : M (result * option error) :=
  match op with
  | callListDomains ctx => withValue domains (DomainAPI.ListDomains ctx)
  | callCreateDomain ctx name => withValue domainPtr (DomainAPI.CreateDomain ctx name)
  | callDeleteDomain ctx id => withoutValue (DomainAPI.DeleteDomain ctx id)
  | callCheckNameserver ctx id => withValue checkPtr (DomainAPI.CheckNameserver ctx id)
  | callListDomainRecords ctx id =>
      withValue domainRecords (DomainAPI.ListDomainRecords ctx id)
  | callCreateRecord ctx payload =>
      withValue domainRecordPtr (DomainAPI.CreateRecord ctx payload)
  | callUpdateRecord ctx id payload =>
      withValue domainRecordPtr (DomainAPI.UpdateRecord ctx id payload)
  | callDeleteRecord ctx id => withoutValue (DomainAPI.DeleteRecord ctx id)
  | callExportBindZone ctx id => withValue zoneBytes (DomainAPI.ExportBindZone ctx id)
  | callImportBindZone ctx data ct =>
      withValue importPtr (DomainAPI.ImportBindZone ctx data ct)
  | callRotateAPIKey ctx => withValue profilePtr (DomainAPI.RotateAPIKey ctx)
  | callZoneListRecords ctx zone opts =>
      withValue zoneRecords (ZoneAPI.ListRecords ctx zone opts)
  | callZoneCreateRecord ctx zone payload =>
      withValue zoneRecordPtr (ZoneAPI.CreateRecord ctx zone payload)
  | callZoneUpdateRecord ctx zone id payload =>
      withValue zoneRecordPtr (ZoneAPI.UpdateRecord ctx zone id payload)
  | callZoneDeleteRecord ctx zone id => withoutValue (ZoneAPI.DeleteRecord ctx zone id)
  end.

End Runs.

(** The nil value of the result of a call: what the call returns with an
    error. *)
Definition nilResult (op : operation) : result :=
  match op with
  | callListDomains _ => domains []
  | callCreateDomain _ _ => domainPtr None
  | callCheckNameserver _ _ => checkPtr None
  | callListDomainRecords _ _ => domainRecords []
  | callCreateRecord _ _ | callUpdateRecord _ _ _ => domainRecordPtr None
  | callExportBindZone _ _ => zoneBytes []
  | callImportBindZone _ _ _ => importPtr None
  | callRotateAPIKey _ => profilePtr None
  | callZoneListRecords _ _ _ => zoneRecords []
  | callZoneCreateRecord _ _ _ | callZoneUpdateRecord _ _ _ _ => zoneRecordPtr None
  | callDeleteDomain _ _ | callDeleteRecord _ _ | callZoneDeleteRecord _ _ _ => noValue
  end.

(** The value each call declares before it decodes the answer into it:
    a nil slice, or a pointer to the zero value of the resource. *)
Definition zeroResult (op : operation) : result :=
  match op with
  | callListDomains _ => domains []
  | callCreateDomain _ _ => domainPtr (Some DomainAPI.zeroDomain)
  | callCheckNameserver _ _ => checkPtr (Some DomainAPI.zeroNameserverCheckResponse)
  | callListDomainRecords _ _ => domainRecords []
  | callCreateRecord _ _ | callUpdateRecord _ _ _ =>
      domainRecordPtr (Some DomainAPI.zeroRecord)
  | callExportBindZone _ _ => zoneBytes []
  | callImportBindZone _ _ _ => importPtr (Some DomainAPI.zeroBindImportResponse)
  | callRotateAPIKey _ => profilePtr (Some DomainAPI.zeroClientProfile)
  | callZoneListRecords _ _ _ => zoneRecords []
  | callZoneCreateRecord _ _ _ | callZoneUpdateRecord _ _ _ _ =>
      zoneRecordPtr (Some ZoneAPI.zeroRecord)
  | callDeleteDomain _ _ | callDeleteRecord _ _ | callZoneDeleteRecord _ _ _ => noValue
  end.

(** The context a call is given. *)
Definition callContext (op : operation) : option Http.Context :=
  match op with
  | callListDomains ctx | callCreateDomain ctx _ | callDeleteDomain ctx _
  | callCheckNameserver ctx _ | callListDomainRecords ctx _ | callCreateRecord ctx _
  | callUpdateRecord ctx _ _ | callDeleteRecord ctx _ | callExportBindZone ctx _
  | callImportBindZone ctx _ _ | callRotateAPIKey ctx | callZoneListRecords ctx _ _
  | callZoneCreateRecord ctx _ _ | callZoneUpdateRecord ctx _ _ _
  | callZoneDeleteRecord ctx _ _ => ctx
  end.

(** The strings a call tests for being blank, in the order of the tests. *)
Definition requiredStrings (op : operation) : list string :=
  match op with
  | callListDomains _ | callImportBindZone _ _ _ | callRotateAPIKey _ => []
  | callCreateDomain _ name => [name]
  | callDeleteDomain _ id | callCheckNameserver _ id | callListDomainRecords _ id
  | callExportBindZone _ id | callUpdateRecord _ id _ | callDeleteRecord _ id => [id]
  | callCreateRecord _ payload =>
      [DomainAPI.CreateDomainID payload; DomainAPI.CreateName payload;
       DomainAPI.CreateType payload; DomainAPI.CreateValue payload]
  | callZoneListRecords _ zone _ => [zone]
  | callZoneCreateRecord _ zone payload =>
      [zone; ZoneAPI.CreateName payload; ZoneAPI.CreateType payload;
       ZoneAPI.CreateContent payload]
  | callZoneUpdateRecord _ zone id _ | callZoneDeleteRecord _ zone id => [zone; id]
  end.

(** The inputs a call requires are there: no required string is blank,
    and the zone data of an import is not empty. *)
Definition inputsPresent (op : operation) : Prop :=
  Forall (fun x => Strings.TrimSpace x <> EmptyString) (requiredStrings op)
  /\ match op with
     | callImportBindZone _ data _ => data <> []
     | _ => True
     end.

(** The network gives one answer to every request. *)
Definition answers (s : Store) (r : Http.Response + error) : Prop :=
  forall hc sent req, network s hc sent req = r.

(** The store of a client that differs from the client of [s] in its
    base URL. *)
Definition rebased (s : Store) (u : Url.URL) : Store :=
  {| self := {| baseURL := Some u; apiKey := apiKey (self s);
                httpClient := httpClient (self s); userAgent := userAgent (self s) |};
     network := network s;
     trace := trace s |}.

(** A network that fails every request with [err]. *)
Definition failingNetwork (err : error)
    : Http.Client -> list Http.Request -> Http.Request -> Http.Response + error :=
  fun _ _ _ => inr err.

(** A response whose body ends with a read error after [partial]. *)
Definition brokenBody (status : Z) (partial : bytes) (err : error) : Http.Response :=
  {| Http.StatusCode := status;
     Http.RespBody := {| Io.content := partial; Io.failure := Some err |} |}.

(** ** Vocabulary of the further properties *)

(** What the options of the package keep: an absolute base URL and a
    user agent without surrounding white space. *)
Definition wellConfigured (c : Client) : Prop :=
  (exists base, baseURL c = Some base /\ Url.IsAbs base = true)
  /\ Strings.TrimSpace (userAgent c) = userAgent c.

(** An option from outside the package that resets the client, as
    [*c = Client{}] does: every field is zero and both pointers are
    nil. *)
Definition resetClient : Option :=
  Some (fun _ => ({| baseURL := None; apiKey := EmptyString;
                     httpClient := None; userAgent := EmptyString |}, None)).

(** A path that starts with one slash and then [c], which is no slash,
    number sign or question mark. *)
Definition rooted (c : ascii) (path : string) : Prop :=
  exists rest, path = String "/" (String c rest).

Definition segmentStart (c : ascii) : Prop :=
  Ascii.eqb "/" c = false /\ Ascii.eqb c "#" = false /\ Ascii.eqb c "?" = false.

(** A reference made of a path that starts with a slash, and possibly a
    query and a fragment. *)
Definition pathReference (rel : Url.URL) : Prop :=
  Url.Scheme rel = EmptyString /\ Url.Opaque rel = EmptyString
  /\ Url.User rel = None /\ Url.Host rel = EmptyString
  /\ (exists t, Url.Path rel = String "/" t)
  /\ (exists t, Url.EscapedPath rel = String "/" t).

(** Two base URLs with the same scheme, user information and host. *)
Definition sameAuthority (u u' : Url.URL) : Prop :=
  Url.Scheme u = Url.Scheme u' /\ Url.User u = Url.User u' /\ Url.Host u = Url.Host u'.

(** What a member does to a string field: a string is stored, anything
    else leaves the field as it is. *)
Definition keepString (old : string) (v : Json.value) : string :=
  match v with
  | Json.Str s => s
  | _ => old
  end.

(** The values a string field accepts without an error. *)
Definition stringOrNull (v : Json.value) : bool :=
  match v with
  | Json.Str _ | Json.Null => true
  | _ => false
  end.

(** The headers [newRequest] sets. *)
Definition requestHeaders (c : Client) (withBody : bool) : gmap string (list string) :=
  let h := <["Accept" := ["application/json"]]>
             (<["Authorization" := [bearer (apiKey c)]]> ∅) in
  let h := if withBody then <["Content-Type" := ["application/json"]]> h else h in
  if negb (isEmpty (userAgent c)) then <["User-Agent" := [userAgent c]]> h else h.

(** The Accept and Content-Type headers of the request of a call. *)
Definition callAccept (op : operation) : string :=
  match op with
  | callExportBindZone _ _ => "text/plain"
  | _ => "application/json"
  end.

Definition callContentType (op : operation) : option string :=
  match op with
  | callCreateDomain _ _ | callCreateRecord _ _ | callUpdateRecord _ _ _
  | callZoneCreateRecord _ _ _ | callZoneUpdateRecord _ _ _ _ => Some "application/json"
  | callImportBindZone _ _ contentType =>
      Some (if isEmpty contentType then "text/plain" else contentType)
  | _ => None
  end.

Definition headerNames : list string :=
  ["Authorization"; "Accept"; "Content-Type"; "User-Agent"].

(** Every header of [h] has one of these names. *)
Definition onlyHeaders (names : list string) (h : gmap string (list string)) : Prop :=
  forall key, is_Some (h !! key) -> key ∈ names.

(** Every character of a string passes a test. *)
Fixpoint allChars (P : ascii -> bool) (s : string) : bool :=
  match s with
  | EmptyString => true
  | String c s' => P c && allChars P s'
  end.

(** A character that can stand in the text of a path or of a query: the
    percent sign, or a character that [escape] leaves as it is in a path. *)
Definition urlSafe (c : ascii) : bool :=
  Ascii.eqb c "%" || negb (Url.shouldEscape c Url.encodePath).

(** A path without [.] and [..] segments. *)
Definition dotSegment (elem : string) : bool :=
  String.eqb elem "." || String.eqb elem "..".

Definition dotFree (path : string) : Prop :=
  Forall (fun elem => dotSegment elem = false) (Url.Split path "/").

(** The modes of [unescape] other than those of a host. *)
Definition notHostMode (mode : Url.encoding) : Prop :=
  Url.isMode mode Url.encodeHost = false /\ Url.isMode mode Url.encodeZone = false.

(** The URL with a scheme, a host, a path given decoded and as written,
    and a query. *)
Definition urlOf (scheme host decoded written query : string) : Url.URL :=
  {| Url.Scheme := scheme; Url.Opaque := EmptyString; Url.User := None;
     Url.Host := host; Url.Path := decoded;
     Url.RawPath := if String.eqb written (Url.escape decoded Url.encodePath)
                    then EmptyString else written;
     Url.OmitHost := false; Url.ForceQuery := false; Url.RawQuery := query;
     Url.Fragment := EmptyString; Url.RawFragment := EmptyString |}.

(** The parameters of the query of [ListRecords], in the order [Encode]
    writes them: by key. *)
Definition queryParts (opts : ZoneAPI.ListRecordsOptions) : list string :=
  (if negb (isEmpty (ZoneAPI.OptName opts))
   then ["name=" +:+ Url.QueryEscape (ZoneAPI.OptName opts)] else [])
  ++ (if 0 <? ZoneAPI.Page opts
      then ["page=" +:+ ZoneAPI.Itoa (ZoneAPI.Page opts)] else [])
  ++ (if 0 <? ZoneAPI.PerPage opts
      then ["per_page=" +:+ ZoneAPI.Itoa (ZoneAPI.PerPage opts)] else [])
  ++ (if negb (isEmpty (ZoneAPI.OptType opts))
      then ["type=" +:+ Url.QueryEscape (ZoneAPI.OptType opts)] else []).

(** The path made of segments, each escaped. *)
Definition segmentsPath (segments : list string) : string :=
  "/" +:+ Url.join "/" (map Url.PathEscape segments).

(** The text of the query [newRequest] is given. *)
Definition queryText (query : option (gmap string (list string))) : string :=
  match query with
  | Some q => Url.Encode q
  | None => EmptyString
  end.

(** The base URL has the scheme and the host of the default one, and no
    user information. *)
Definition defaultAuthority (u : Url.URL) : Prop :=
  Url.Scheme u = "https" /\ Url.User u = None /\ Url.Host u = "api.ns.enzonix.com".

(** The method, the path segments and the query of each call. *)
Definition callMethod (op : operation) : string :=
  match op with
  | callListDomains _ | callListDomainRecords _ _ | callExportBindZone _ _
  | callZoneListRecords _ _ _ => "GET"
  | callCreateDomain _ _ | callCheckNameserver _ _ | callCreateRecord _ _
  | callImportBindZone _ _ _ | callRotateAPIKey _ | callZoneCreateRecord _ _ _ => "POST"
  | callUpdateRecord _ _ _ => "PUT"
  | callZoneUpdateRecord _ _ _ _ => "PATCH"
  | callDeleteDomain _ _ | callDeleteRecord _ _ | callZoneDeleteRecord _ _ _ => "DELETE"
  end.

Definition callSegments (op : operation) : list string :=
  match op with
  | callListDomains _ | callCreateDomain _ _ => ["api"; "client"; "domains"]
  | callDeleteDomain _ id => ["api"; "client"; "domains"; id]
  | callCheckNameserver _ id => ["api"; "client"; "domains"; id; "check-nameserver"]
  | callListDomainRecords _ id => ["api"; "client"; "domains"; id; "records"]
  | callCreateRecord _ _ => ["api"; "client"; "records"]
  | callUpdateRecord _ id _ | callDeleteRecord _ id => ["api"; "client"; "records"; id]
  | callExportBindZone _ id => ["api"; "client"; "domains"; id; "export"; "bind"]
  | callImportBindZone _ _ _ => ["api"; "client"; "import"; "bind"]
  | callRotateAPIKey _ => ["api"; "client"; "rotate-api-key"]
  | callZoneListRecords _ zone _ | callZoneCreateRecord _ zone _ =>
      ["zones"; ZoneAPI.trimZone zone; "records"]
  | callZoneUpdateRecord _ zone id _ | callZoneDeleteRecord _ zone id =>
      ["zones"; ZoneAPI.trimZone zone; "records"; id]
  end.

Definition callQuery (op : operation) : string :=
  match op with
  | callZoneListRecords _ _ (Some opts) => Url.join "&" (queryParts opts)
  | _ => EmptyString
  end.

(** The text of the URL of a call with the default base. *)
Definition callURL (op : operation) : string :=
  "https://api.ns.enzonix.com" +:+ segmentsPath (callSegments op)
  +:+ (if isEmpty (callQuery op) then EmptyString else "?" +:+ callQuery op).

Definition refused : error := libError "net/http" "connection refused".

Definition failingStore : Store :=
  {| self := initialClient "key"; network := failingNetwork refused; trace := [] |}.

(** A store whose network answers with a body that breaks off. *)
Definition brokenStore : Store :=
  {| self := initialClient "key";
     network := fun _ _ _ => inl (brokenBody 200 zoneFile refused);
     trace := [] |}.

(** The value of the error body [oopsBody]. *)
Definition oopsValue : Json.value := Eval vm_compute in
    match Json.parse oopsBody with
    | Some v => v
    | None => Json.Null
    end.

(** A base URL with a path and a query. *)
Definition versionedBase : Url.URL :=
  {| Url.Scheme := "https"; Url.Opaque := EmptyString; Url.User := None;
     Url.Host := "api.ns.enzonix.com"; Url.Path := "/v2";
     Url.RawPath := EmptyString; Url.OmitHost := false;
     Url.ForceQuery := false; Url.RawQuery := "debug=1";
     Url.Fragment := EmptyString; Url.RawFragment := EmptyString |}.

(** Options that select a name, a type and the second page. *)
Definition listOptions : ZoneAPI.ListRecordsOptions :=
  {| ZoneAPI.OptName := "www"; ZoneAPI.OptType := "A";
     ZoneAPI.Page := 2; ZoneAPI.PerPage := 0 |}.

(** An update that changes the content of a record. *)
Definition contentUpdate : ZoneAPI.UpdateRecordRequest :=
  {| ZoneAPI.UpdateName := None; ZoneAPI.UpdateType := None;
     ZoneAPI.UpdateContent := Some "192.0.2.7"; ZoneAPI.UpdateTTL := None;
     ZoneAPI.UpdatePriority := None; ZoneAPI.UpdateWeight := None |}.

(** * Properties *)

(** ** The monad *)

Lemma bind_unfold {A B : Type} (m : M A) (k : A -> M B) (s : Store) :
  (x ← m; k x) s
  = match m s with
    | (Returned a, s') => k a s'
    | (Panicked msg, s') => (Panicked msg, s')
    end.
Proof. reflexivity. Qed.

Lemma addEvent_self (s : Store) (ev : event) : self (addEvent s ev) = self s.
Proof. reflexivity. Qed.

Lemma addEvent_trace (s : Store) (ev : event) : trace (addEvent s ev) = trace s ++ [ev].
Proof. reflexivity. Qed.

(** ** [newRequest] *)

Lemma canonical_Authorization : Http.CanonicalMIMEHeaderKey "Authorization" = "Authorization".
Proof. reflexivity. Qed.

Lemma canonical_Accept : Http.CanonicalMIMEHeaderKey "Accept" = "Accept".
Proof. reflexivity. Qed.

Lemma canonical_ContentType : Http.CanonicalMIMEHeaderKey "Content-Type" = "Content-Type".
Proof. reflexivity. Qed.

Lemma canonical_UserAgent : Http.CanonicalMIMEHeaderKey "User-Agent" = "User-Agent".
Proof. reflexivity. Qed.

Lemma Header_setHeader (r : Http.Request) (key value : string) :
  Http.Header (Http.setHeader r key value)
  = <[Http.CanonicalMIMEHeaderKey key := [value]]> (Http.Header r).
Proof. reflexivity. Qed.

Lemma NewRequestWithContext_Header ctx method url body req :
  Http.NewRequestWithContext ctx method url body = inl req ->
  Http.Header req = ∅.
Proof.
  unfold Http.NewRequestWithContext.
  destruct (negb _); [discriminate |].
  destruct ctx; [| discriminate].
  destruct (Url.Parse url); [| discriminate].
  intros [= <-]. reflexivity.
Qed.

(** [newRequest] either reports an error and leaves the store as it
    was, or returns a request with its headers and records it, or
    panics on a nil base URL and leaves the store as it was. *)
Lemma newRequest_cases {A : Type} `{!Marshaler A} ctx method path query
    (body : option A) (s : Store) :
  (exists err, newRequest ctx method path query body s = (Returned (inr err), s))
  \/ (exists req,
        newRequest ctx method path query body s
        = (Returned (inl req), addEvent s (Built req))
        /\ carriesHeaders (self s) body req)
  \/ (baseURL (self s) = None
      /\ exists msg, newRequest ctx method path query body s = (Panicked msg, s)).
Proof.
  unfold newRequest. rewrite bind_unfold. simpl.
  destruct ctx as [cx |]; [| left; eexists; reflexivity].
  destruct (Url.Parse path) as [rel | e]; [| left; eexists; reflexivity].
  destruct (Url.ResolveReferenceFrom (baseURL (self s)) rel) as [resolved |] eqn:Hres.
  2: { right. right. unfold Url.ResolveReferenceFrom in Hres.
       destruct (baseURL (self s)); [discriminate Hres |].
       split; [reflexivity | eexists; reflexivity]. }
  set (u := match query with Some q => _ | None => _ end).
  destruct (match body with Some b => _ | None => _ end) as [rd | e] eqn:Hbody;
    [| left; eexists; reflexivity].
  destruct (Http.NewRequestWithContext _ _ _ _) as [req | e] eqn:Hreq;
    [| left; eexists; reflexivity].
  right. left. eexists. split; [reflexivity |].
  apply NewRequestWithContext_Header in Hreq.
  unfold carriesHeaders.
  destruct body as [b |], (isEmpty (userAgent (self s))); simpl;
    rewrite ?Header_setHeader, ?canonical_Authorization, ?canonical_Accept,
      ?canonical_ContentType, ?canonical_UserAgent, Hreq;
    repeat split; simplify_map_eq; reflexivity.
Qed.

(** ** [do] *)

Lemma httpClientDo_cases (req : Http.Request) (s : Store) :
  (httpClient (self s) = None /\ exists msg, httpClientDo req s = (Panicked msg, s))
  \/ (exists hc, httpClient (self s) = Some hc
        /\ httpClientDo req s
           = (Returned (network s hc (sentRequests (trace s)) req), addEvent s (Sent req))).
Proof.
  unfold httpClientDo. rewrite bind_unfold. simpl.
  destruct (httpClient (self s)) as [hc |].
  - right. exists hc. split; reflexivity.
  - left. split; [reflexivity | eexists; reflexivity].
Qed.

(** [do] sends the request once, unless the client has no HTTP client. *)
Lemma do_cases {A : Type} `{!Unmarshaler A} (req : Http.Request) (out : option A)
    (s : Store) :
  (exists msg, do req out s = (Panicked msg, s))
  \/ (exists r, do req out s = (Returned r, addEvent s (Sent req))).
Proof.
  unfold do. rewrite bind_unfold.
  destruct (httpClientDo_cases req s) as [[_ [msg ->]] | [hc [_ ->]]].
  - left. eexists. reflexivity.
  - right.
    destruct (network s hc (sentRequests (trace s)) req) as [res | err];
      [| eexists; reflexivity].
    destruct (Io.ReadAllLimit _ _) as [body [err |]]; [eexists; reflexivity |].
    destruct (400 <=? Http.StatusCode res); [eexists; reflexivity |].
    destruct out as [target |], body as [| b body]; try (eexists; reflexivity).
    destruct (Unmarshal (b :: body) target) as [t' [err |]]; eexists; reflexivity.
Qed.

(** ** What a call leaves behind *)

Lemma follows_refl (s : Store) : follows s s.
Proof. repeat split. intros req Hin. left. exact Hin. Qed.

Lemma follows_Built (s : Store) (req : Http.Request) :
  follows s (addEvent s (Built req)).
Proof.
  repeat split. intros r Hin. left.
  rewrite addEvent_trace in Hin. apply elem_of_app in Hin as [Hin | Hin]; [exact Hin |].
  apply list_elem_of_singleton in Hin. discriminate.
Qed.

Lemma follows_Built_Sent (s : Store) (built req : Http.Request) :
  Http.Header req !! "Authorization" = Some [bearer (apiKey (self s))] ->
  follows s (addEvent (addEvent s (Built built)) (Sent req)).
Proof.
  intros Hauth. repeat split. intros r Hin.
  rewrite !addEvent_trace in Hin.
  apply elem_of_app in Hin as [Hin | Hin].
  - apply elem_of_app in Hin as [Hin | Hin]; [left; exact Hin |].
    apply list_elem_of_singleton in Hin. discriminate.
  - apply list_elem_of_singleton in Hin. injection Hin as ->. right. exact Hauth.
Qed.

Lemma Authorization_setHeader (req : Http.Request) (key value : string) (v : list string) :
  Http.CanonicalMIMEHeaderKey key <> "Authorization" ->
  Http.Header req !! "Authorization" = Some v ->
  Http.Header (Http.setHeader req key value) !! "Authorization" = Some v.
Proof.
  intros Hne Hv. rewrite Header_setHeader, lookup_insert_ne; [exact Hv | exact Hne].
Qed.

(** The steps shared by the proofs about the calls: case analysis on
    [newRequest], then on [do], each leaving one of three stores. A
    panic of [newRequest] leaves the store as it was. *)
Ltac split_newRequest :=
  rewrite ?bind_unfold;
  lazymatch goal with
  | |- context [@newRequest ?A ?M ?ctx ?m ?p ?q ?b ?s] =>
      let err := fresh "err" in
      let req := fresh "req" in
      let Hauth := fresh "Hauth" in
      let msg := fresh "msg" in
      destruct (@newRequest_cases A M ctx m p q b s)
        as [[err ->] | [[req [-> [Hauth _]]] | [_ [msg ->]]]];
      [simpl | rewrite ?bind_unfold | apply follows_refl]
  end.

Ltac split_do :=
  lazymatch goal with
  | |- context [@do ?A ?U ?req ?out ?s] =>
      let msg := fresh "msg" in
      let o := fresh "o" in
      let e := fresh "e" in
      destruct (@do_cases A U req out s) as [[msg ->] | [[o [e |]] ->]]; simpl
  end.

Ltac keeps_Authorization :=
  repeat (apply Authorization_setHeader; [discriminate |]); assumption.

Ltac call_follows :=
  split_newRequest;
  [apply follows_refl
  | split_do;
    first [apply follows_Built | apply follows_Built_Sent; keeps_Authorization]].

Section CallsFollow.

Context `{!Unmarshaler (list DomainAPI.Domain), !Unmarshaler DomainAPI.Domain,
          !Unmarshaler DomainAPI.NameserverCheckResponse,
          !Unmarshaler (list DomainAPI.Record_), !Unmarshaler DomainAPI.Record_,
          !Unmarshaler DomainAPI.BindImportResponse,
          !Unmarshaler DomainAPI.ClientProfile,
          !Marshaler (gmap string string),
          !Marshaler DomainAPI.CreateRecordRequest,
          !Marshaler DomainAPI.UpdateRecordRequest,
          !Unmarshaler ZoneAPI.recordsResponse, !Unmarshaler ZoneAPI.Record_,
          !Marshaler ZoneAPI.CreateRecordRequest,
          !Marshaler ZoneAPI.UpdateRecordRequest}.

Lemma ExportBindZone_follows ctx id s :
  follows s (snd (DomainAPI.ExportBindZone ctx id s)).
Proof.
  unfold DomainAPI.ExportBindZone.
  destruct (requireID id "domain id"); [apply follows_refl |].
  split_newRequest; [apply follows_refl |].
  match goal with
  | |- context [httpClientDo ?r ?s1] =>
      destruct (httpClientDo_cases r s1) as [[_ [msg ->]] | [hc [_ ->]]]
  end.
  - apply follows_Built.
  - destruct (network _ _ _ _) as [res | e]; simpl.
    + destruct (400 <=? Http.StatusCode res); simpl;
        apply follows_Built_Sent; keeps_Authorization.
    + apply follows_Built_Sent; keeps_Authorization.
Qed.

Lemma ImportBindZone_follows ctx data ct s :
  follows s (snd (DomainAPI.ImportBindZone ctx data ct s)).
Proof.
  unfold DomainAPI.ImportBindZone.
  destruct data as [| b data]; [apply follows_refl |].
  call_follows.
Qed.

(** Every call leaves the client as it was and sends only requests that
    carry its credential. *)
Lemma storeAfter_follows (op : operation) (s : Store) : follows s (storeAfter op s).
Proof.
  destruct op; simpl;
    try apply ExportBindZone_follows; try apply ImportBindZone_follows.
  - unfold DomainAPI.ListDomains. call_follows.
  - unfold DomainAPI.CreateDomain.
    destruct (isEmpty _); [apply follows_refl | call_follows].
  - unfold DomainAPI.DeleteDomain.
    destruct (requireID _ _); [apply follows_refl | call_follows].
  - unfold DomainAPI.CheckNameserver.
    destruct (requireID _ _); [apply follows_refl | call_follows].
  - unfold DomainAPI.ListDomainRecords.
    destruct (requireID _ _); [apply follows_refl | call_follows].
  - unfold DomainAPI.CreateRecord.
    destruct (requireID _ _); [apply follows_refl |].
    repeat (destruct (isEmpty _); [apply follows_refl |]). call_follows.
  - unfold DomainAPI.UpdateRecord.
    destruct (requireID _ _); [apply follows_refl | call_follows].
  - unfold DomainAPI.DeleteRecord.
    destruct (requireID _ _); [apply follows_refl | call_follows].
  - unfold DomainAPI.RotateAPIKey. call_follows.
  - unfold ZoneAPI.ListRecords.
    destruct (ZoneAPI.requireZone _); [apply follows_refl | call_follows].
  - unfold ZoneAPI.CreateRecord.
    destruct (ZoneAPI.requireZone _); [apply follows_refl |].
    repeat (destruct (isEmpty _); [apply follows_refl |]). call_follows.
  - unfold ZoneAPI.UpdateRecord.
    destruct (ZoneAPI.requireZone _); [apply follows_refl |].
    destruct (isEmpty _); [apply follows_refl | call_follows].
  - unfold ZoneAPI.DeleteRecord.
    destruct (ZoneAPI.requireZone _); [apply follows_refl |].
    destruct (isEmpty _); [apply follows_refl | call_follows].
Qed.

End CallsFollow.

(** ** Decoding an error body *)

Lemma nameMatches_message_code (key : string) :
  Json.nameMatches "message" key = true -> Json.nameMatches "code" key = false.
Proof.
  unfold Json.nameMatches. intros H.
  apply orb_true_iff in H as [H | H]; apply String.eqb_eq in H.
  - subst key. reflexivity.
  - apply orb_false_iff. split; apply String.eqb_neq.
    + intros ->. discriminate H.
    + rewrite H. discriminate.
Qed.

Lemma decodeMember_StatusCode (st : APIError * option error) m :
  StatusCode (fst (decodeMember st m)) = StatusCode (fst st).
Proof.
  destruct st as [e saved]. unfold decodeMember.
  repeat (destruct (Json.nameMatches _ _)); try reflexivity;
    destruct (storeString _ _); reflexivity.
Qed.

Lemma fold_decodeMember_StatusCode members (st : APIError * option error) :
  StatusCode (fst (fold_left decodeMember members st)) = StatusCode (fst st).
Proof.
  revert st. induction members as [| m members IH]; intros st; simpl.
  - reflexivity.
  - rewrite IH. apply decodeMember_StatusCode.
Qed.

(** [json.Unmarshal] cannot reach the status code. *)
Lemma Unmarshal_StatusCode (data : bytes) (e : APIError) :
  StatusCode (fst (Unmarshal data e)) = StatusCode e.
Proof.
  unfold Unmarshal, APIError_Unmarshaler.
  destruct (Json.parse data) as [[] |]; try reflexivity.
  apply fold_decodeMember_StatusCode.
Qed.

Lemma fieldValues_cons name m members :
  fieldValues name (m :: members)
  = if Json.nameMatches name (Json.memberKey m)
    then Json.memberValue m :: fieldValues name members
    else fieldValues name members.
Proof.
  unfold fieldValues. rewrite filter_cons.
  destruct (Json.nameMatches name (Json.memberKey m)) eqn:E.
  - rewrite decide_True by reflexivity. reflexivity.
  - rewrite decide_False by discriminate. reflexivity.
Qed.

Lemma decodeMember_Message_miss (e : APIError) saved m :
  Json.nameMatches "message" (Json.memberKey m) = false ->
  Message (fst (decodeMember (e, saved) m)) = Message e.
Proof.
  intros Em. unfold decodeMember. rewrite Em.
  destruct (Json.nameMatches "code" _); [destruct (storeString _ _); reflexivity |].
  destruct (Json.nameMatches "raw" _); reflexivity.
Qed.

Lemma decodeMember_Message_hit (e : APIError) saved m (msg : string) :
  Json.nameMatches "message" (Json.memberKey m) = true ->
  Json.memberValue m = Json.Str msg ->
  Message (fst (decodeMember (e, saved) m)) = msg.
Proof. intros Em Hv. unfold decodeMember. rewrite Em, Hv. reflexivity. Qed.

Lemma decodeMember_Code_miss (e : APIError) saved m :
  Json.nameMatches "code" (Json.memberKey m) = false ->
  Code (fst (decodeMember (e, saved) m)) = Code e.
Proof.
  intros Ec. unfold decodeMember. rewrite Ec.
  destruct (Json.nameMatches "message" _); [destruct (storeString _ _); reflexivity |].
  destruct (Json.nameMatches "raw" _); reflexivity.
Qed.

Lemma decodeMember_Code_hit (e : APIError) saved m (code : string) :
  Json.nameMatches "code" (Json.memberKey m) = true ->
  Json.memberValue m = Json.Str code ->
  Code (fst (decodeMember (e, saved) m)) = code.
Proof.
  intros Ec Hv. unfold decodeMember.
  destruct (Json.nameMatches "message" _) eqn:Em.
  - rewrite (nameMatches_message_code _ Em) in Ec. discriminate.
  - rewrite Ec, Hv. reflexivity.
Qed.

Lemma decodeMember_no_error (e : APIError) m :
  (Json.nameMatches "message" (Json.memberKey m) = true -> isString (Json.memberValue m)) ->
  (Json.nameMatches "code" (Json.memberKey m) = true -> isString (Json.memberValue m)) ->
  snd (decodeMember (e, None) m) = None.
Proof.
  intros Hm Hc. unfold decodeMember.
  destruct (Json.nameMatches "message" _).
  - specialize (Hm eq_refl). destruct (Json.memberValue m); try contradiction. reflexivity.
  - destruct (Json.nameMatches "code" _).
    + specialize (Hc eq_refl). destruct (Json.memberValue m); try contradiction. reflexivity.
    + destruct (Json.nameMatches "raw" _); reflexivity.
Qed.

(** When the members for [Message] and [Code] are all strings, no member
    raises a type error. *)
Lemma fold_no_error members (e : APIError) :
  Forall isString (fieldValues "message" members) ->
  Forall isString (fieldValues "code" members) ->
  snd (fold_left decodeMember members (e, None)) = None.
Proof.
  revert e. induction members as [| m members IH]; intros e Hm Hc; cbn [fold_left].
  - reflexivity.
  - rewrite fieldValues_cons in Hm, Hc.
    assert (snd (decodeMember (e, None) m) = None
            /\ Forall isString (fieldValues "message" members)
            /\ Forall isString (fieldValues "code" members)) as (Hstep & Hm' & Hc').
    { destruct (Json.nameMatches "message" (Json.memberKey m)) eqn:Em,
               (Json.nameMatches "code" (Json.memberKey m)) eqn:Ec;
        try apply Forall_cons in Hm as [Hvm Hm];
        try apply Forall_cons in Hc as [Hvc Hc];
        (split; [| split; assumption]);
        apply decodeMember_no_error; rewrite ?Em, ?Ec; intros;
        (assumption || discriminate). }
    destruct (decodeMember (e, None) m) as [e' saved']. simpl in Hstep. subst saved'.
    apply IH; assumption.
Qed.

Lemma makeAPIError_StatusCode (status : Z) (body : bytes) :
  StatusCode (makeAPIError status body) = status.
Proof.
  unfold makeAPIError. destruct body as [| b body]; [reflexivity |].
  pose proof (Unmarshal_StatusCode (b :: body) (emptyAPIError status)) as H.
  unfold emptyAPIError in H.
  destruct (Unmarshal _ _) as [e [err |]]; simpl in *; exact H.
Qed.

Lemma last_string (l : list Json.value) :
  Forall isString l -> l <> [] -> exists s, last l = Some (Json.Str s).
Proof.
  induction l as [| v l IH]; intros Hall Hne; [contradiction |].
  apply Forall_cons in Hall as [Hv Hall].
  destruct l as [| w l].
  - destruct v; try contradiction. eexists. reflexivity.
  - destruct (IH Hall ltac:(discriminate)) as [s Hs]. exists s. exact Hs.
Qed.

Lemma stringOr_last_cons (d s : string) (l : list Json.value) :
  Forall isString l ->
  stringOr d (last (Json.Str s :: l)) = stringOr s (last l).
Proof.
  intros Hall. destruct l as [| w l]; [reflexivity |].
  destruct (last_string (w :: l) Hall ltac:(discriminate)) as [x Hx].
  change (last (Json.Str s :: w :: l)) with (last (w :: l)). rewrite Hx. reflexivity.
Qed.

(** Of the members that select [Message], all strings, the last one is
    kept; without such a member [Message] stays as it is. *)
Lemma fold_Message_last members (e : APIError) (saved : option error) :
  Forall isString (fieldValues "message" members) ->
  Message (fst (fold_left decodeMember members (e, saved)))
  = stringOr (Message e) (last (fieldValues "message" members)).
Proof.
  revert e saved. induction members as [| m members IH]; intros e saved Hall;
    cbn [fold_left].
  - reflexivity.
  - rewrite fieldValues_cons in *.
    destruct (Json.nameMatches "message" (Json.memberKey m)) eqn:Em.
    + apply Forall_cons in Hall as [Hv Hall].
      destruct (Json.memberValue m) as [| | | msg | |] eqn:Ev; try contradiction.
      pose proof (decodeMember_Message_hit e saved m msg Em Ev) as Hstep.
      destruct (decodeMember (e, saved) m) as [e' saved'].
      rewrite (IH e' saved' Hall), stringOr_last_cons by exact Hall.
      simpl in Hstep. rewrite Hstep. reflexivity.
    + pose proof (decodeMember_Message_miss e saved m Em) as Hstep.
      destruct (decodeMember (e, saved) m) as [e' saved'].
      rewrite (IH e' saved' Hall). simpl in Hstep. rewrite Hstep. reflexivity.
Qed.

Lemma fold_Code_last members (e : APIError) (saved : option error) :
  Forall isString (fieldValues "code" members) ->
  Code (fst (fold_left decodeMember members (e, saved)))
  = stringOr (Code e) (last (fieldValues "code" members)).
Proof.
  revert e saved. induction members as [| m members IH]; intros e saved Hall;
    cbn [fold_left].
  - reflexivity.
  - rewrite fieldValues_cons in *.
    destruct (Json.nameMatches "code" (Json.memberKey m)) eqn:Ec.
    + apply Forall_cons in Hall as [Hv Hall].
      destruct (Json.memberValue m) as [| | | code | |] eqn:Ev; try contradiction.
      pose proof (decodeMember_Code_hit e saved m code Ec Ev) as Hstep.
      destruct (decodeMember (e, saved) m) as [e' saved'].
      rewrite (IH e' saved' Hall), stringOr_last_cons by exact Hall.
      simpl in Hstep. rewrite Hstep. reflexivity.
    + pose proof (decodeMember_Code_miss e saved m Ec) as Hstep.
      destruct (decodeMember (e, saved) m) as [e' saved'].
      rewrite (IH e' saved' Hall). simpl in Hstep. rewrite Hstep. reflexivity.
Qed.

(** A body that is a JSON object whose [message] and [code] members are
    strings is accepted, and yields the last of each. *)
Lemma makeAPIError_structured (status : Z) (body : bytes) members :
  Json.parse body = Some (Json.Object members) ->
  Forall isString (fieldValues "message" members) ->
  Forall isString (fieldValues "code" members) ->
  snd (Unmarshal body (emptyAPIError status)) = None
  /\ Message (makeAPIError status body)
     = stringOr EmptyString (last (fieldValues "message" members))
  /\ Code (makeAPIError status body)
     = stringOr EmptyString (last (fieldValues "code" members))
  /\ Raw (makeAPIError status body) = body.
Proof.
  intros Hparse Hm Hc. unfold makeAPIError.
  destruct body as [| b body]; [discriminate Hparse |].
  unfold Unmarshal, APIError_Unmarshaler. rewrite Hparse.
  pose proof (fold_no_error members (emptyAPIError status) Hm Hc) as Herr.
  pose proof (fold_Message_last members (emptyAPIError status) None Hm) as HM.
  pose proof (fold_Code_last members (emptyAPIError status) None Hc) as HC.
  unfold emptyAPIError in *.
  destruct (fold_left decodeMember members _) as [e err]. simpl in *. subst err.
  simpl. auto.
Qed.

(** *** Bodies of the form [{"message":...,"code":...}] *)

Lemma lexStep_plain from acc pos b :
  plainByte b = true ->
  Json.lexStep (Json.lexString from acc Json.escNone) pos b
  = Some (Json.lexString from (b :: acc) Json.escNone, []).
Proof. destruct b; intros H; try discriminate H; reflexivity. Qed.

(** The tokenizer reads a plain text up to the closing quote. *)
Lemma lexFrom_plain content rest pos from acc done :
  plain content ->
  Json.lexFrom (content ++ x22 :: rest) pos (Json.lexString from acc Json.escNone) done
  = Json.lexFrom rest (S (pos + length content)) Json.lexIdle
      (Json.mk (Json.TString (rev acc ++ content)) from (S (pos + length content))
       :: done).
Proof.
  intros Hplain. revert pos acc.
  induction Hplain as [| b content Hb _ IH]; intros pos acc.
  - simpl. rewrite app_nil_r, Nat.add_0_r. reflexivity.
  - cbn [app Json.lexFrom]. rewrite (lexStep_plain _ _ _ _ Hb). cbn [app].
    rewrite IH. cbn [rev length]. rewrite <- app_assoc. cbn [app].
    replace (S pos + length content)%nat with (pos + S (length content))%nat by lia.
    reflexivity.
Qed.

Lemma unquoteBytes_plain content : plain content -> Json.unquoteBytes content = content.
Proof.
  induction 1 as [| b content Hb _ IH]; [reflexivity |].
  transitivity (b :: Json.unquoteBytes content); [| rewrite IH; reflexivity].
  destruct b; try discriminate Hb; reflexivity.
Qed.

Lemma parse_structuredBody (msg code : bytes) (newline : bool) :
  plain msg -> plain code ->
  exists raw1 raw2,
    Json.parse (structuredBody msg code newline)
    = Some (Json.Object [("message", Json.Str (string_of_list_byte msg), raw1);
                         ("code", Json.Str (string_of_list_byte code), raw2)]).
Proof.
  intros Hm Hc.
  unfold Json.parse, Json.lex, structuredBody.
  let x := eval vm_compute in (jsb "{'message':'") in change (jsb "{'message':'") with x.
  let x := eval vm_compute in (jsb "','code':'") in change (jsb "','code':'") with x.
  let x := eval vm_compute in (jsb "'}") in change (jsb "'}") with x.
  destruct newline; eexists; eexists; cbn;
    rewrite (lexFrom_plain msg _ _ _ _ _ Hm); cbn;
    rewrite (lexFrom_plain code _ _ _ _ _ Hc);
    cbn [Json.lexFrom Json.lexStep Json.lexBegin Json.isSpace Json.lexEnd rev app];
    cbv [Json.parseTokens Json.parseStep Json.beginValue Json.push Json.setKey
         Json.complete Json.closeObject Json.tok Json.start Json.stop Json.mk
         Json.maxNestingDepth length N.of_nat N.leb N.compare Pos.of_succ_nat
         Pos.compare Pos.compare_cont Pos.succ];
    cbn [rev app]; unfold Json.unquote;
    rewrite (unquoteBytes_plain msg Hm), (unquoteBytes_plain code Hc);
    reflexivity.
Qed.

(** Such a body is accepted, yields its two strings and is kept whole. *)
Lemma makeAPIError_structuredBody (status : Z) (msg code : bytes) (newline : bool) :
  plain msg -> plain code ->
  Message (makeAPIError status (structuredBody msg code newline))
  = string_of_list_byte msg
  /\ Code (makeAPIError status (structuredBody msg code newline))
     = string_of_list_byte code
  /\ Raw (makeAPIError status (structuredBody msg code newline))
     = structuredBody msg code newline.
Proof.
  intros Hm Hc.
  destruct (parse_structuredBody msg code newline Hm Hc) as (raw1 & raw2 & Hparse).
  destruct (makeAPIError_structured status _ _ Hparse
              ltac:(repeat constructor) ltac:(repeat constructor))
    as (_ & HM & HC & HR).
  repeat split; assumption.
Qed.

(** A text that starts with a byte no JSON token starts with is rejected. *)
Lemma parse_not_JSON (b : byte) (rest : bytes) :
  startsToken b = false -> Json.parse (b :: rest) = None.
Proof.
  intros Hb. unfold Json.parse, Json.lex. cbn [Json.lexFrom].
  replace (Json.lexStep Json.lexIdle 0 b) with (@None (Json.lexState * list Json.spanned));
    [reflexivity |].
  destruct b; try discriminate Hb; reflexivity.
Qed.

(** A body that [json.Unmarshal] rejects is kept as trimmed text. *)
Lemma makeAPIError_rejected (status : Z) (body : bytes) :
  snd (Unmarshal body (emptyAPIError status)) <> None ->
  Message (makeAPIError status body) = Strings.TrimSpace (string_of_list_byte body).
Proof.
  intros Hrej. unfold makeAPIError.
  destruct body as [| b body].
  - reflexivity.
  - unfold emptyAPIError in Hrej.
    destruct (Unmarshal _ _) as [e [err |]]; [reflexivity | contradiction].
Qed.

(** A body that [json.Unmarshal] accepts is kept whole. *)
Lemma makeAPIError_accepted (status : Z) (body : bytes) :
  snd (Unmarshal body (emptyAPIError status)) = None ->
  Raw (makeAPIError status body) = body.
Proof.
  intros Hacc. unfold makeAPIError.
  destruct body as [| b body]; [reflexivity |].
  unfold emptyAPIError in Hacc.
  destruct (Unmarshal _ _) as [e [err |]]; [discriminate | reflexivity].
Qed.

(** A body that is not JSON leaves [Raw] nil. *)
Lemma makeAPIError_not_json (status : Z) (body : bytes) :
  Json.parse body = None ->
  Raw (makeAPIError status body) = []
  /\ Message (makeAPIError status body) = Strings.TrimSpace (string_of_list_byte body).
Proof.
  intros Hparse. unfold makeAPIError.
  destruct body as [| b body]; [split; reflexivity |].
  unfold Unmarshal, APIError_Unmarshaler. rewrite Hparse. split; reflexivity.
Qed.

(** ** Local validation *)

Lemma requireID_blank (value label : string) :
  Strings.TrimSpace value = EmptyString ->
  requireID value label
  = Some (errorString ("enzonix: " +:+ label +:+ " must not be empty")).
Proof. intros H. unfold requireID. rewrite H. reflexivity. Qed.

Lemma requireZone_blank (zone : string) :
  Strings.TrimSpace zone = EmptyString ->
  ZoneAPI.requireZone zone = Some (errorString "enzonix: zone must not be empty").
Proof. intros H. unfold ZoneAPI.requireZone. rewrite H. reflexivity. Qed.

Ltac split_blank :=
  match goal with
  | |- context [isEmpty (Strings.TrimSpace ?x)] =>
      destruct (isEmpty (Strings.TrimSpace x)) eqn:?
  end.

Ltac blank_member Hin Hblank :=
  repeat (apply elem_of_cons in Hin as [Hin | Hin];
          [subst; rewrite Hblank in *; discriminate |]);
  apply elem_of_nil in Hin; exact Hin.

Section Validation.

Context `{!Unmarshaler (list DomainAPI.Domain), !Unmarshaler DomainAPI.Domain,
          !Unmarshaler DomainAPI.NameserverCheckResponse,
          !Unmarshaler (list DomainAPI.Record_), !Unmarshaler DomainAPI.Record_,
          !Unmarshaler DomainAPI.BindImportResponse,
          !Unmarshaler DomainAPI.ClientProfile,
          !Marshaler (gmap string string),
          !Marshaler DomainAPI.CreateRecordRequest,
          !Marshaler DomainAPI.UpdateRecordRequest,
          !Unmarshaler ZoneAPI.recordsResponse, !Unmarshaler ZoneAPI.Record_,
          !Marshaler ZoneAPI.CreateRecordRequest,
          !Marshaler ZoneAPI.UpdateRecordRequest}.

Lemma DomainAPI_CreateRecord_blank ctx (payload : DomainAPI.CreateRecordRequest)
    (blank : string) (s : Store) :
  Strings.TrimSpace blank = EmptyString ->
  blank ∈ [DomainAPI.CreateDomainID payload; DomainAPI.CreateName payload;
           DomainAPI.CreateType payload; DomainAPI.CreateValue payload] ->
  exists msg, DomainAPI.CreateRecord ctx payload s
              = (Returned (None, Some (errorString msg)), s).
Proof.
  intros Hblank Hin. unfold DomainAPI.CreateRecord, requireID.
  repeat (split_blank; [eexists; reflexivity |]).
  exfalso. blank_member Hin Hblank.
Qed.

Lemma ZoneAPI_CreateRecord_blank ctx zone (payload : ZoneAPI.CreateRecordRequest)
    (blank : string) (s : Store) :
  Strings.TrimSpace blank = EmptyString ->
  blank ∈ [zone; ZoneAPI.CreateName payload; ZoneAPI.CreateType payload;
           ZoneAPI.CreateContent payload] ->
  exists msg, ZoneAPI.CreateRecord ctx zone payload s
              = (Returned (None, Some (errorString msg)), s).
Proof.
  intros Hblank Hin. unfold ZoneAPI.CreateRecord, ZoneAPI.requireZone.
  repeat (split_blank; [eexists; reflexivity |]).
  exfalso. blank_member Hin Hblank.
Qed.

Lemma ZoneAPI_UpdateRecord_blank ctx zone recordID payload (blank : string) (s : Store) :
  Strings.TrimSpace blank = EmptyString ->
  blank ∈ [zone; recordID] ->
  exists msg, ZoneAPI.UpdateRecord ctx zone recordID payload s
              = (Returned (None, Some (errorString msg)), s).
Proof.
  intros Hblank Hin. unfold ZoneAPI.UpdateRecord, ZoneAPI.requireZone.
  repeat (split_blank; [eexists; reflexivity |]).
  exfalso. blank_member Hin Hblank.
Qed.

Lemma ZoneAPI_DeleteRecord_blank ctx zone recordID (blank : string) (s : Store) :
  Strings.TrimSpace blank = EmptyString ->
  blank ∈ [zone; recordID] ->
  exists msg, ZoneAPI.DeleteRecord ctx zone recordID s
              = (Returned (Some (errorString msg)), s).
Proof.
  intros Hblank Hin. unfold ZoneAPI.DeleteRecord, ZoneAPI.requireZone.
  repeat (split_blank; [eexists; reflexivity |]).
  exfalso. blank_member Hin Hblank.
Qed.

End Validation.

(** ** Strings *)

Lemma isEmpty_true (s : string) : isEmpty s = true <-> s = EmptyString.
Proof. destruct s; simpl; split; intros H; (reflexivity || discriminate). Qed.

Lemma list_ascii_of_string_app (a b : string) :
  list_ascii_of_string (a +:+ b) = list_ascii_of_string a ++ list_ascii_of_string b.
Proof. induction a as [| c a IH]; simpl; [reflexivity | rewrite IH; reflexivity]. Qed.

Lemma string_of_list_ascii_app (a b : list ascii) :
  string_of_list_ascii (a ++ b) = string_of_list_ascii a +:+ string_of_list_ascii b.
Proof. induction a as [| c a IH]; simpl; [reflexivity | rewrite IH; reflexivity]. Qed.

Lemma length_string_of_list_ascii (l : list ascii) :
  String.length (string_of_list_ascii l) = length l.
Proof. induction l as [| c l IH]; simpl; [reflexivity | rewrite IH; reflexivity]. Qed.

Lemma length_list_ascii_of_string (s : string) :
  length (list_ascii_of_string s) = String.length s.
Proof. induction s as [| c s IH]; simpl; [reflexivity | rewrite IH; reflexivity]. Qed.

Lemma rev_app (a b : string) :
  Strings.rev (a +:+ b) = Strings.rev b +:+ Strings.rev a.
Proof.
  unfold Strings.rev.
  rewrite list_ascii_of_string_app, rev_app_distr, string_of_list_ascii_app.
  reflexivity.
Qed.

Lemma rev_rev (s : string) : Strings.rev (Strings.rev s) = s.
Proof.
  unfold Strings.rev.
  rewrite list_ascii_of_string_of_list_ascii, rev_involutive.
  apply string_of_list_ascii_of_string.
Qed.

Lemma length_rev (s : string) : String.length (Strings.rev s) = String.length s.
Proof.
  unfold Strings.rev.
  rewrite length_string_of_list_ascii, length_rev. apply length_list_ascii_of_string.
Qed.

Lemma length_append (a b : string) :
  String.length (a +:+ b) = (String.length a + String.length b)%nat.
Proof. induction a as [| c a IH]; simpl; [reflexivity | rewrite IH; reflexivity]. Qed.

Lemma append_cons (a : ascii) (s t : string) :
  String a s +:+ t = String a (s +:+ t).
Proof. reflexivity. Qed.

Lemma append_nil (t : string) : EmptyString +:+ t = t.
Proof. reflexivity. Qed.

Lemma trimFront_unfold two three (s : string) :
  Strings.trimFront two three s
  = match s with
    | EmptyString => EmptyString
    | String a s1 =>
        if Strings.asciiSpace a then Strings.trimFront two three s1 else
        match s1 with
        | EmptyString => s
        | String b s2 =>
            if two a b then Strings.trimFront two three s2 else
            match s2 with
            | EmptyString => s
            | String c s3 =>
                if three a b c then Strings.trimFront two three s3 else s
            end
        end
    end.
Proof. destruct s; reflexivity. Qed.

(** What [trimFront] returns is the end of its argument. *)
Lemma trimFront_suffix two three (s : string) :
  exists p, s = p +:+ Strings.trimFront two three s.
Proof.
  remember (String.length s) as n eqn:Hn. revert s Hn.
  induction n as [n IH] using lt_wf_ind. intros s Hn.
  rewrite trimFront_unfold.
  destruct s as [| a s1]; [exists EmptyString; reflexivity |].
  simpl in Hn. destruct (Strings.asciiSpace a).
  { destruct (IH (String.length s1) ltac:(lia) s1 eq_refl) as [p Hp].
    exists (String a p). rewrite append_cons. f_equal. exact Hp. }
  destruct s1 as [| b s2]; [exists EmptyString; reflexivity |].
  simpl in Hn. destruct (two a b).
  { destruct (IH (String.length s2) ltac:(lia) s2 eq_refl) as [p Hp].
    exists (String a (String b p)). rewrite !append_cons. do 2 f_equal. exact Hp. }
  destruct s2 as [| c s3]; [exists EmptyString; reflexivity |].
  simpl in Hn. destruct (three a b c); [| exists EmptyString; reflexivity].
  destruct (IH (String.length s3) ltac:(lia) s3 eq_refl) as [p Hp].
  exists (String a (String b (String c p))). rewrite !append_cons. do 3 f_equal. exact Hp.
Qed.

Lemma trimFront_fixed two three (s : string) :
  String.length (Strings.trimFront two three s) = String.length s ->
  Strings.trimFront two three s = s.
Proof.
  intros Hlen. destruct (trimFront_suffix two three s) as [p Hp].
  rewrite Hp in Hlen at 2. rewrite length_append in Hlen.
  destruct p as [| c p]; [symmetry; exact Hp | simpl in Hlen; lia].
Qed.

Lemma trimFront_length two three (s : string) :
  (String.length (Strings.trimFront two three s) <= String.length s)%nat.
Proof.
  destruct (trimFront_suffix two three s) as [p Hp].
  rewrite Hp at 2. rewrite length_append. lia.
Qed.

(** A string without surrounding white space is a fixed point of both
    halves of [TrimSpace]. *)
Lemma TrimSpace_fixed (s : string) :
  Strings.TrimSpace s = s -> Strings.TrimLeftSpace s = s.
Proof.
  intros H. apply trimFront_fixed.
  pose proof (trimFront_length Strings.space2 Strings.space3 s) as Hleft.
  assert (String.length (Strings.TrimSpace s)
          <= String.length (Strings.TrimLeftSpace s))%nat as Hright.
  { unfold Strings.TrimSpace, Strings.TrimRightSpace.
    rewrite length_rev.
    etransitivity; [apply trimFront_length |]. rewrite length_rev. reflexivity. }
  rewrite H in Hright. unfold Strings.TrimLeftSpace in Hright. lia.
Qed.

(** A final dot is no white space and completes no white-space rune. *)
Lemma trimFront_app_dot two three (s : string) :
  (forall a, two a "."%char = false) ->
  (forall a b, three a b "."%char = false) ->
  Strings.trimFront two three (s +:+ ".")
  = Strings.trimFront two three s +:+ ".".
Proof.
  intros H2 H3.
  remember (String.length s) as n eqn:Hn. revert s Hn.
  induction n as [n IH] using lt_wf_ind. intros s Hn.
  rewrite (trimFront_unfold _ _ (s +:+ ".")), (trimFront_unfold _ _ s).
  destruct s as [| a s1]; [reflexivity |].
  simpl in Hn. rewrite !append_cons. destruct (Strings.asciiSpace a).
  { apply (IH (String.length s1) ltac:(lia) s1 eq_refl). }
  destruct s1 as [| b s2]; rewrite ?append_cons, ?append_nil.
  { rewrite H2. reflexivity. }
  simpl in Hn. destruct (two a b).
  { apply (IH (String.length s2) ltac:(lia) s2 eq_refl). }
  destruct s2 as [| c s3]; rewrite ?append_cons, ?append_nil.
  { rewrite H3. reflexivity. }
  simpl in Hn. destruct (three a b c); [| reflexivity].
  apply (IH (String.length s3) ltac:(lia) s3 eq_refl).
Qed.

Lemma space2_dot (a : ascii) : Strings.space2 a "." = false.
Proof. unfold Strings.space2. simpl. apply andb_false_r. Qed.

Lemma space3_dot (a b : ascii) : Strings.space3 a b "." = false.
Proof.
  unfold Strings.space3. change (Strings.code ".") with 46%N.
  generalize (Strings.code a) (Strings.code b). intros x y.
  repeat match goal with
         | |- context [match ?v with _ => _ end] => destruct v
         end; reflexivity.
Qed.

Lemma TrimLeftSpace_app_dot (s : string) :
  Strings.TrimLeftSpace (s +:+ ".") = Strings.TrimLeftSpace s +:+ ".".
Proof. apply trimFront_app_dot; [apply space2_dot | apply space3_dot]. Qed.

Lemma TrimRightSpace_app_dot (s : string) :
  Strings.TrimRightSpace (s +:+ ".") = s +:+ ".".
Proof.
  unfold Strings.TrimRightSpace. rewrite rev_app.
  change (Strings.rev ".") with ".".
  assert (forall t,
    Strings.trimFront (fun b a => Strings.space2 a b)
      (fun c b a => Strings.space3 a b c) ("." +:+ t) = "." +:+ t) as Hdot.
  { intros t. change ("." +:+ t) with (String "." t).
    rewrite trimFront_unfold. change (Strings.asciiSpace ".") with false. cbv beta iota.
    destruct t as [| b t]; [reflexivity |]. rewrite space2_dot.
    destruct t as [| c t]; [reflexivity |]. rewrite space3_dot. reflexivity. }
  change (String "." EmptyString +:+ Strings.rev s) with ("." +:+ Strings.rev s).
  rewrite Hdot, rev_app, rev_rev. reflexivity.
Qed.

Lemma HasPrefix_nil (s : string) : Strings.HasPrefix s EmptyString = true.
Proof. destruct s; reflexivity. Qed.

Lemma TrimSuffix_app_dot (s : string) : Strings.TrimSuffix (s +:+ ".") "." = s.
Proof.
  unfold Strings.TrimSuffix, Strings.HasSuffix. rewrite rev_app.
  change (Strings.rev ".") with ".". rewrite append_cons, append_nil.
  simpl. rewrite HasPrefix_nil. apply rev_rev.
Qed.

Lemma TrimSuffix_none (s suffix : string) :
  Strings.HasSuffix s suffix = false -> Strings.TrimSuffix s suffix = s.
Proof. intros H. unfold Strings.TrimSuffix. rewrite H. reflexivity. Qed.

(** [trimZone] removes one final dot. *)
Lemma trimZone_app_dot (zone : string) :
  Strings.TrimSpace zone = zone ->
  ZoneAPI.trimZone (zone +:+ ".") = zone.
Proof.
  intros Hz. unfold ZoneAPI.trimZone, Strings.TrimSpace.
  rewrite TrimLeftSpace_app_dot, (TrimSpace_fixed zone Hz), TrimRightSpace_app_dot.
  apply TrimSuffix_app_dot.
Qed.

Lemma trimZone_plain (zone : string) :
  Strings.TrimSpace zone = zone ->
  Strings.HasSuffix zone "." = false ->
  ZoneAPI.trimZone zone = zone.
Proof.
  intros Hz Hdot. unfold ZoneAPI.trimZone. rewrite Hz. apply TrimSuffix_none, Hdot.
Qed.

(** A string of ASCII white space is blank. *)
Lemma TrimSpace_asciiSpace (s : string) :
  Forall (fun c => Strings.asciiSpace c = true) (list_ascii_of_string s) ->
  Strings.TrimSpace s = EmptyString.
Proof.
  intros Hall.
  assert (Strings.TrimLeftSpace s = EmptyString) as Hleft.
  { unfold Strings.TrimLeftSpace.
    induction s as [| a s IH]; [reflexivity |].
    simpl in Hall. apply Forall_cons in Hall as [Ha Hall].
    rewrite trimFront_unfold, Ha. apply IH, Hall. }
  unfold Strings.TrimSpace. rewrite Hleft. reflexivity.
Qed.

(** ** [NewClient] *)

Lemma Parse_defaultBaseURL : Url.Parse defaultBaseURL = inl defaultBase.
Proof. reflexivity. Qed.

Lemma applyOptions_app (pre rest : list Option) (c : Client) :
  applyOptions (pre ++ rest) c
  = match applyOptions pre c with
    | (c', Some err) => (c', Some err)
    | (c', None) => applyOptions rest c'
    end.
Proof.
  revert c. induction pre as [| [opt |] pre IH]; intros c; simpl.
  - reflexivity.
  - destruct (opt c) as [c' [err |]]; [reflexivity | apply IH].
  - apply IH.
Qed.

(** The loop stops with the error of the first option that fails. *)
Lemma applyOptions_error_iff (opts : list Option) (c : Client) (err : error) :
  snd (applyOptions opts c) = Some err <-> FirstFailure opts c err.
Proof.
  split.
  - revert c. induction opts as [| [opt |] opts IH]; intros c H; simpl in H.
    + discriminate.
    + destruct (opt c) as [c' [e |]] eqn:Hopt.
      * exists [], opt, opts, c. repeat split. rewrite Hopt. exact H.
      * destruct (IH c' H) as (pre & opt' & post & c'' & -> & Hpre & Herr).
        exists (Some opt :: pre), opt', post, c''. repeat split; [| exact Herr].
        simpl. rewrite Hopt. exact Hpre.
    + destruct (IH c H) as (pre & opt' & post & c'' & -> & Hpre & Herr).
      exists (None :: pre), opt', post, c''. repeat split; assumption.
  - intros (pre & opt & post & c' & -> & Hpre & Herr).
    rewrite applyOptions_app, Hpre. simpl.
    destruct (opt c') as [c'' [e |]]; simpl in *; [exact Herr | discriminate].
Qed.

Lemma NewClient_blank (key : string) (opts : list Option) :
  Strings.TrimSpace key = EmptyString ->
  NewClient key opts = (None, Some (errorString "enzonix: api key must not be empty")).
Proof. intros H. unfold NewClient. rewrite H. reflexivity. Qed.

Lemma NewClient_options (key : string) (opts : list Option) :
  Strings.TrimSpace key <> EmptyString ->
  NewClient key opts
  = match applyOptions opts (initialClient key) with
    | (_, Some err) => (None, Some err)
    | (client, None) =>
        (Some (match httpClient client with
               | None => {| baseURL := baseURL client; apiKey := apiKey client;
                            httpClient := Some defaultHTTPClient;
                            userAgent := userAgent client |}
               | Some _ => client
               end), None)
    end.
Proof.
  intros H. unfold NewClient.
  destruct (isEmpty (Strings.TrimSpace key)) eqn:E.
  - apply isEmpty_true in E. contradiction.
  - reflexivity.
Qed.

Lemma applyOptions_skip_nil (pre post : list Option) (c : Client) :
  applyOptions (pre ++ None :: post) c = applyOptions (pre ++ post) c.
Proof. rewrite !applyOptions_app. destruct (applyOptions pre c) as [c' [err |]]; reflexivity. Qed.

Lemma applyOptions_filter (opts : list Option) (c : Client) :
  applyOptions (filter is_Some opts) c = applyOptions opts c.
Proof.
  revert c. induction opts as [| [opt |] opts IH]; intros c.
  - reflexivity.
  - rewrite filter_cons_True by (eexists; reflexivity). simpl.
    destruct (opt c) as [c' [err |]]; [reflexivity | apply IH].
  - rewrite filter_cons_False by (intros [x Hx]; discriminate). simpl. apply IH.
Qed.

(** The options of the package leave the credential as it is. *)
Lemma providedOption_apiKey (o : Option) (c : Client) :
  providedOption o ->
  match o with
  | Some opt => apiKey (fst (opt c)) = apiKey c
  | None => True
  end.
Proof.
  intros [-> | [[rawURL ->] | [[hc ->] | [ua ->]]]]; simpl.
  - exact I.
  - destruct (isEmpty _); [reflexivity |].
    destruct (Url.Parse rawURL) as [u | e]; [| reflexivity].
    destruct (negb _); reflexivity.
  - destruct hc; reflexivity.
  - reflexivity.
Qed.

Lemma applyOptions_apiKey (opts : list Option) (c : Client) :
  Forall providedOption opts ->
  apiKey (fst (applyOptions opts c)) = apiKey c.
Proof.
  revert c. induction opts as [| o opts IH]; intros c Hall; [reflexivity |].
  apply Forall_cons in Hall as [Ho Hall].
  pose proof (providedOption_apiKey o c Ho) as Hstep.
  destruct o as [opt |]; simpl.
  - destruct (opt c) as [c' [err |]]; simpl in *; [exact Hstep |].
    rewrite (IH c' Hall). exact Hstep.
  - apply IH, Hall.
Qed.

(** [NewClient] with the options of the package stores the credential it
    is given. *)
Lemma NewClient_apiKey (key : string) (opts : list Option) (c : Client) :
  Forall providedOption opts ->
  NewClient key opts = (Some c, None) ->
  apiKey c = key.
Proof.
  intros Hall.
  destruct (String.eqb_spec (Strings.TrimSpace key) EmptyString) as [Hblank | Hkey'].
  { rewrite (NewClient_blank key opts Hblank). discriminate. }
  rewrite (NewClient_options key opts Hkey').
  pose proof (applyOptions_apiKey opts (initialClient key) Hall) as Hkey.
  destruct (applyOptions opts (initialClient key)) as [c' [err |]]; [discriminate |].
  simpl in Hkey. intros [= <-]. destruct (httpClient c'); simpl; exact Hkey.
Qed.

(** ** Reading a body *)

Lemma readLimited_take (n : N) (data : bytes) (fail : option error) :
  fst (Io.readLimited n data fail) = take (N.to_nat n) data.
Proof.
  revert n. induction data as [| b data IH]; intros n; simpl.
  - rewrite take_nil. reflexivity.
  - destruct (n =? 0)%N eqn:E.
    + apply N.eqb_eq in E. subst n. reflexivity.
    + apply N.eqb_neq in E.
      specialize (IH (N.pred n)). destruct (Io.readLimited (N.pred n) data fail) as [got err].
      simpl in *. rewrite IH.
      replace (N.to_nat n) with (S (N.to_nat (N.pred n))) by lia. reflexivity.
Qed.

Lemma readLimited_complete (n : N) (data : bytes) :
  snd (Io.readLimited n data None) = None.
Proof.
  revert n. induction data as [| b data IH]; intros n; simpl.
  - destruct (n =? 0)%N; reflexivity.
  - destruct (n =? 0)%N; [reflexivity |].
    specialize (IH (N.pred n)). destruct (Io.readLimited (N.pred n) data None).
    exact IH.
Qed.

(** A stream that does not fail is read up to the limit. *)
Lemma ReadAllLimit_take (r : Io.Reader) (n : N) :
  Io.failure r = None ->
  Io.ReadAllLimit r n = (take (N.to_nat n) (Io.content r), None).
Proof.
  intros Hok. unfold Io.ReadAllLimit. rewrite Hok.
  pose proof (readLimited_take n (Io.content r) None) as Hfst.
  pose proof (readLimited_complete n (Io.content r)) as Hsnd.
  destruct (Io.readLimited n (Io.content r) None) as [got err].
  simpl in *. subst. reflexivity.
Qed.

Lemma ReadAllLimit_fst (r : Io.Reader) (n : N) :
  fst (Io.ReadAllLimit r n) = take (N.to_nat n) (Io.content r).
Proof. apply readLimited_take. Qed.

(** * The claims *)

(** Both response paths build the same [APIError] from the status and
    the body read. *)
Lemma error_response_paths {A : Type} `{!Unmarshaler A}
    (s : Store) (hc : Http.Client) (req : Http.Request) (out : option A)
    (res : Http.Response) (body : bytes) (readErr : option error) :
  httpClient (self s) = Some hc ->
  network s hc (sentRequests (trace s)) req = inl res ->
  400 <= Http.StatusCode res ->
  Io.ReadAllLimit (Http.RespBody res) jsonLimit = (body, readErr) ->
  parseAPIError res = apiError (makeAPIError (Http.StatusCode res) body)
  /\ (readErr = None ->
      fst (do req out s)
      = Returned (out, Some (apiError (makeAPIError (Http.StatusCode res) body)))).
Proof.
  intros Hhc Hnet Hstatus Hread.
  split; [unfold parseAPIError; rewrite Hread; reflexivity |].
  intros ->. unfold do. rewrite bind_unfold.
  destruct (httpClientDo_cases req s) as [[Hnone _] | [hc' [Hhc' ->]]];
    [congruence |].
  assert (hc' = hc) as -> by congruence.
  rewrite Hnet. cbv beta iota. rewrite Hread.
  apply Z.leb_le in Hstatus. rewrite Hstatus. reflexivity.
Qed.

(** [do] reads the body before it looks at the status: a read error is
    what it returns, whatever the status. *)
Lemma do_read_error {A : Type} `{!Unmarshaler A}
    (s : Store) (hc : Http.Client) (req : Http.Request) (out : option A)
    (res : Http.Response) (body : bytes) (err : error) :
  httpClient (self s) = Some hc ->
  network s hc (sentRequests (trace s)) req = inl res ->
  Io.ReadAllLimit (Http.RespBody res) jsonLimit = (body, Some err) ->
  fst (do req out s) = Returned (out, Some (wrapError "enzonix: read response" err)).
Proof.
  intros Hhc Hnet Hread. unfold do. rewrite bind_unfold.
  destruct (httpClientDo_cases req s) as [[Hnone _] | [hc' [Hhc' ->]]];
    [congruence |].
  assert (hc' = hc) as -> by congruence.
  rewrite Hnet. cbv beta iota. rewrite Hread. reflexivity.
Qed.

(** C1, as stated: for every HTTP response with status >= 400 handled by
    the response path the returned error is an [APIError], and [Message]
    and [Code] equal the message/code fields of a body that parses as
    JSON. It fails twice. When reading the body of a 400 response breaks
    off, [do] returns the read error, wrapped, and no [APIError]: it
    reads the body before it looks at the status. And for the body
    [{"message":"not found","code":404}], which is JSON with both
    fields, [json.Unmarshal] reports the number at [code]: the message is
    the text of the whole body and the code is empty. *)
Lemma failed_response_counterexample :
  (fst (do (A := untyped) plainRequest nil
          {| self := initialClient "key";
             network := fun _ _ _ =>
               inl (brokenBody 400 oopsBody (libError "io" "unexpected EOF"));
             trace := [] |})
   = Returned (nil, Some (wrapError "enzonix: read response"
                            (libError "io" "unexpected EOF")))
   /\ forall e : APIError,
        wrapError "enzonix: read response" (libError "io" "unexpected EOF")
        <> apiError e)
  /\ (exists members,
        Json.parse numericCodeBody = Some (Json.Object members)
        /\ fieldValues "message" members = [Json.Str "not found"]
        /\ fieldValues "code" members = [Json.Number (list_byte_of_string "404")])
  /\ fst (do (A := untyped) plainRequest nil
            (stubStore (initialClient "key") 404 numericCodeBody))
     = Returned (nil, Some (apiError {| StatusCode := 404;
                                        Message := string_of_list_byte numericCodeBody;
                                        Code := EmptyString; Raw := [] |}))
  /\ string_of_list_byte numericCodeBody <> "not found".
Proof.
  split; [split; [vm_compute; reflexivity | discriminate] |].
  split.
  { eexists. split; [vm_compute; reflexivity |]. split; vm_compute; reflexivity. }
  split; [vm_compute; reflexivity | vm_compute; discriminate].
Qed.

(** C1, amended. For every HTTP response with status >= 400,
    [parseAPIError] returns an [APIError], and so does [do] when the
    body, at most 1 MiB of it, is read without an error; on a read error
    [do] returns that error, wrapped. The [StatusCode] of the [APIError]
    equals the response status. If the body is a JSON object whose
    members for [message] and for [code] are strings, [Message] and
    [Code] equal those fields: the last such member of each, and the
    empty string where there is none; in particular the body
    [{"message":"msg","code":"code"}] yields [msg] and [code] for all
    plain texts. Whenever [json.Unmarshal] reports an error, for a body
    that is not JSON as for a member of another type, [Message] equals
    the whitespace-trimmed raw body text; every body that starts with a
    byte no JSON token starts with (a letter other than t, f and n, an
    angle bracket, ...) is such a body. *)
Theorem failed_response_yields_APIError {A : Type} `{!Unmarshaler A}
    (s : Store) (hc : Http.Client) (req : Http.Request) (out : option A)
    (res : Http.Response) (body : bytes) (readErr : option error) :
  httpClient (self s) = Some hc ->
  network s hc (sentRequests (trace s)) req = inl res ->
  400 <= Http.StatusCode res ->
  Io.ReadAllLimit (Http.RespBody res) jsonLimit = (body, readErr) ->
  exists e : APIError,
    parseAPIError res = apiError e
    /\ (readErr = None -> fst (do req out s) = Returned (out, Some (apiError e)))
    /\ (forall err, readErr = Some err ->
        fst (do req out s)
        = Returned (out, Some (wrapError "enzonix: read response" err)))
    /\ StatusCode e = Http.StatusCode res
    /\ (forall members,
          Json.parse body = Some (Json.Object members) ->
          Forall isString (fieldValues "message" members) ->
          Forall isString (fieldValues "code" members) ->
          Message e = stringOr EmptyString (last (fieldValues "message" members))
          /\ Code e = stringOr EmptyString (last (fieldValues "code" members)))
    /\ (forall msg code newline,
          plain msg -> plain code -> body = structuredBody msg code newline ->
          Message e = string_of_list_byte msg /\ Code e = string_of_list_byte code)
    /\ (snd (Unmarshal body (emptyAPIError (Http.StatusCode res))) <> None ->
        Message e = Strings.TrimSpace (string_of_list_byte body))
    /\ (forall b rest,
          body = b :: rest -> startsToken b = false ->
          Message e = Strings.TrimSpace (string_of_list_byte body))
    /\ body = take (N.to_nat jsonLimit) (Io.content (Http.RespBody res)).
Proof.
  intros Hhc Hnet Hstatus Hread.
  exists (makeAPIError (Http.StatusCode res) body).
  destruct (error_response_paths s hc req out res body readErr Hhc Hnet Hstatus Hread)
    as [Hparse Hdo].
  split; [exact Hparse |]. split; [exact Hdo |].
  split.
  { intros err Herr. rewrite Herr in Hread.
    exact (do_read_error s hc req out res body err Hhc Hnet Hread). }
  split; [apply makeAPIError_StatusCode |].
  split.
  { intros members Hobject Hm Hc.
    destruct (makeAPIError_structured (Http.StatusCode res) body members
                Hobject Hm Hc) as (_ & HM & HC & _).
    split; assumption. }
  split.
  { intros msg code newline Hm Hc ->.
    destruct (makeAPIError_structuredBody (Http.StatusCode res) msg code newline Hm Hc)
      as (HM & HC & _).
    split; assumption. }
  split; [apply makeAPIError_rejected |].
  split.
  { intros b rest -> Hb. apply makeAPIError_not_json, parse_not_JSON, Hb. }
  rewrite <- ReadAllLimit_fst, Hread. reflexivity.
Qed.

(** The test [TestDoHandlesHTTPError]: a 400 response with the body
    [{"message":"oops","code":"bad_request"}]. *)
Lemma failed_response_witness :
  exists e : APIError,
    fst (do (A := untyped) plainRequest nil
           (stubStore (initialClient "key") 400 oopsBody))
    = Returned (nil, Some (apiError e))
    /\ StatusCode e = 400 /\ Message e = "oops" /\ Code e = "bad_request".
Proof.
  destruct (failed_response_yields_APIError (A := untyped)
              (stubStore (initialClient "key") 400 oopsBody) defaultHTTPClient
              plainRequest nil
              {| Http.StatusCode := 400;
                 Http.RespBody := {| Io.content := oopsBody; Io.failure := None |} |}
              oopsBody None eq_refl eq_refl (Z.le_refl 400) eq_refl)
    as (e & _ & Hdo & _ & Hstatus & Hfields & _).
  exists e. split; [exact (Hdo eq_refl) |]. split; [exact Hstatus |].
  refine (Hfields [("message", Json.Str "oops", jsb "'oops'");
                   ("code", Json.Str "bad_request", jsb "'bad_request'")] _ _ _).
  - vm_compute. reflexivity.
  - repeat constructor.
  - repeat constructor.
Defined.

(** A 400 response with a plain-text body yields the trimmed text. *)
Example plain_text_error :
  fst (do (A := untyped) plainRequest nil
         (stubStore (initialClient "key") 400 (list_byte_of_string "  not found  ")))
  = Returned (nil, Some (apiError {| StatusCode := 400; Message := "not found";
                                     Code := EmptyString; Raw := [] |})).
Proof. vm_compute. reflexivity. Qed.

(** C2, as stated: for every non-empty error response body on a status
    >= 400 response, the [APIError] preserves the raw body bytes in [Raw],
    whether or not the body parsed as JSON. It fails for the plain-text
    body [oops]: [Raw] stays nil. *)
Lemma raw_body_lost_counterexample :
  exists e : APIError,
    fst (do (A := untyped) plainRequest nil
           (stubStore (initialClient "key") 400 (list_byte_of_string "oops")))
    = Returned (nil, Some (apiError e))
    /\ parseAPIError {| Http.StatusCode := 400;
                        Http.RespBody := {| Io.content := list_byte_of_string "oops";
                                            Io.failure := None |} |}
       = apiError e
    /\ list_byte_of_string "oops" <> []
    /\ Raw e <> list_byte_of_string "oops".
Proof.
  exists {| StatusCode := 400; Message := "oops"; Code := EmptyString; Raw := [] |}.
  split; [vm_compute; reflexivity |].
  split; [vm_compute; reflexivity |].
  split; discriminate.
Qed.

(** C2, amended. For every non-empty error response body on a status
    >= 400 response that [json.Unmarshal] accepts, the [APIError]
    returned by [do] and by [parseAPIError] holds in [Raw] the body bytes
    as read (at most 1 MiB), as for every body
    [{"message":"msg","code":"code"}] of plain texts; for a body that is
    not JSON, as every body that starts with a byte no JSON token starts
    with, [Raw] stays nil and the body is kept as trimmed text in
    [Message]. *)
Theorem raw_body_kept_when_decoded {A : Type} `{!Unmarshaler A}
    (s : Store) (hc : Http.Client) (req : Http.Request) (out : option A)
    (res : Http.Response) (body : bytes) (readErr : option error) :
  httpClient (self s) = Some hc ->
  network s hc (sentRequests (trace s)) req = inl res ->
  400 <= Http.StatusCode res ->
  Io.ReadAllLimit (Http.RespBody res) jsonLimit = (body, readErr) ->
  body <> [] ->
  exists e : APIError,
    parseAPIError res = apiError e
    /\ (readErr = None -> fst (do req out s) = Returned (out, Some (apiError e)))
    /\ (snd (Unmarshal body (emptyAPIError (Http.StatusCode res))) = None ->
        Raw e = body)
    /\ (Json.parse body = None ->
        Raw e = [] /\ Message e = Strings.TrimSpace (string_of_list_byte body))
    /\ (forall msg code newline,
          plain msg -> plain code -> body = structuredBody msg code newline ->
          Raw e = body)
    /\ (forall b rest, body = b :: rest -> startsToken b = false -> Raw e = []).
Proof.
  intros Hhc Hnet Hstatus Hread Hbody.
  destruct (error_response_paths s hc req out res body readErr Hhc Hnet Hstatus Hread)
    as [Hparse Hdo].
  exists (makeAPIError (Http.StatusCode res) body).
  split; [exact Hparse |]. split; [exact Hdo |].
  split; [apply makeAPIError_accepted |].
  split; [apply makeAPIError_not_json |].
  split.
  - intros msg code newline Hm Hc ->.
    apply (makeAPIError_structuredBody (Http.StatusCode res) msg code newline Hm Hc).
  - intros b rest -> Hb.
    apply (makeAPIError_not_json (Http.StatusCode res) (b :: rest)), parse_not_JSON, Hb.
Qed.

Lemma raw_body_kept_witness :
  exists e : APIError,
    fst (do (A := untyped) plainRequest nil
           (stubStore (initialClient "key") 400 oopsBody))
    = Returned (nil, Some (apiError e))
    /\ Raw e = oopsBody.
Proof.
  destruct (raw_body_kept_when_decoded (A := untyped)
              (stubStore (initialClient "key") 400 oopsBody) defaultHTTPClient
              plainRequest nil
              {| Http.StatusCode := 400;
                 Http.RespBody := {| Io.content := oopsBody; Io.failure := None |} |}
              oopsBody None eq_refl eq_refl (Z.le_refl 400) eq_refl ltac:(discriminate))
    as (e & _ & Hdo & Hraw & _).
  exists e. split; [exact (Hdo eq_refl) |].
  apply Hraw. vm_compute. reflexivity.
Defined.

(** C3. [NewClient] returns an error if and only if the trimmed
    credential is empty or some supplied option returns an error
    ([WithBaseURL] rejecting an empty, unparseable or non-absolute URL,
    [WithHTTPClient] rejecting nil); on the first failing option it
    returns that option's error and no client value.

    The error returned is [err] exactly when the credential is blank and
    [err] is the credential error, or the credential is not blank and
    [err] is the error of the first option that fails; a client is
    returned exactly when no error is. *)
Theorem NewClient_error_iff (key : string) (opts : list Option) (err : error) :
  (snd (NewClient key opts) = Some err
   <-> (Strings.TrimSpace key = EmptyString
        /\ err = errorString "enzonix: api key must not be empty")
       \/ (Strings.TrimSpace key <> EmptyString
           /\ FirstFailure opts (initialClient key) err))
  /\ (snd (NewClient key opts) = None <-> is_Some (fst (NewClient key opts)))
  /\ (forall rawURL c,
        optionError (WithBaseURL rawURL) c <> None
        <-> Strings.TrimSpace rawURL = EmptyString
            \/ (exists e, Url.Parse rawURL = inr e)
            \/ (exists u, Url.Parse rawURL = inl u /\ Url.IsAbs u = false))
  /\ (forall hc c, optionError (WithHTTPClient hc) c <> None <-> hc = None)
  /\ (forall ua c, optionError (WithUserAgent ua) c = None).
Proof.
  split; [| split; [| split; [| split]]].
  - destruct (String.eqb_spec (Strings.TrimSpace key) EmptyString) as [Hblank | Hkey].
    + rewrite (NewClient_blank key opts Hblank). simpl. split.
      * intros [= <-]. left. split; [exact Hblank | reflexivity].
      * intros [[_ ->] | [Hne _]]; [reflexivity | contradiction].
    + rewrite (NewClient_options key opts Hkey).
      rewrite <- applyOptions_error_iff.
      destruct (applyOptions opts (initialClient key)) as [c [e |]]; simpl; split.
      * intros H. right. split; assumption.
      * intros [[Hblank _] | [_ H]]; [contradiction | exact H].
      * discriminate.
      * intros [[Hblank _] | [_ H]]; [contradiction | discriminate].
  - unfold NewClient.
    destruct (isEmpty _).
    { simpl. split; [discriminate | intros [c Hc]; discriminate]. }
    rewrite Parse_defaultBaseURL.
    destruct (applyOptions opts _) as [c [e |]]; simpl.
    + split; [discriminate | intros [c' Hc]; discriminate].
    + split; [intros _; eexists; reflexivity | reflexivity].
  - intros rawURL c. simpl.
    destruct (isEmpty (Strings.TrimSpace rawURL)) eqn:E; simpl.
    { apply isEmpty_true in E. split; [left; exact E | discriminate]. }
    assert (Strings.TrimSpace rawURL <> EmptyString) as Hne.
    { intros H. apply isEmpty_true in H. congruence. }
    destruct (Url.Parse rawURL) as [u | e]; simpl.
    + destruct (Url.IsAbs u) eqn:Habs; simpl; split.
      * intros H. contradiction.
      * intros [H | [[e He] | [u' [[= <-] Hu]]]]; [contradiction | discriminate | congruence].
      * intros _. right. right. exists u. split; [reflexivity | exact Habs].
      * discriminate.
    + split; [intros _; right; left; exists e; reflexivity | discriminate].
  - intros [hc |] c; simpl; split; try discriminate; try contradiction; reflexivity.
  - reflexivity.
Qed.

(** The test [TestNewClientValidation]. *)
Example NewClient_validation :
  NewClient EmptyString [] = (None, Some (errorString "enzonix: api key must not be empty"))
  /\ NewClient "key" [WithBaseURL "://bad"]
     = (None, Some (wrapError "enzonix: parse base url"
                      (libError "net/url" "missing protocol scheme")))
  /\ NewClient "key" [WithHTTPClient None]
     = (None, Some (errorString "enzonix: http client must not be nil"))
  /\ NewClient "key" [WithBaseURL "example.test/api"]
     = (None, Some (errorString "enzonix: base url must be absolute"))
  /\ NewClient "key" [WithUserAgent " ua "; WithHTTPClient None; WithBaseURL "://bad"]
     = (None, Some (errorString "enzonix: http client must not be nil")).
Proof. repeat split; vm_compute; reflexivity. Qed.

(** The test [TestNewClientWithOptions]. *)
Example NewClient_with_options :
  exists c,
    NewClient "key" [WithBaseURL "https://example.test/custom";
                     WithUserAgent "custom-agent";
                     WithHTTPClient (Some {| Http.Timeout := 2000000000;
                                             Http.Transport := 1%nat |})]
    = (Some c, None)
    /\ Url.String <$> baseURL c = Some "https://example.test/custom"
    /\ userAgent c = "custom-agent"
    /\ httpClient c = Some {| Http.Timeout := 2000000000; Http.Transport := 1%nat |}.
Proof. eexists. repeat split. Qed.

(** C10. [NewClient] skips nil entries of its option list without
    invoking them: inserting nil values anywhere in the list yields the
    same result as the list without them, and [NewClient(key, nil)]
    succeeds with the defaults. *)
Theorem NewClient_skips_nil (key : string) (opts pre post : list Option) :
  NewClient key (pre ++ None :: post) = NewClient key (pre ++ post)
  /\ NewClient key opts = NewClient key (filter is_Some opts)
  /\ NewClient key [None]
     = if isEmpty (Strings.TrimSpace key)
       then (None, Some (errorString "enzonix: api key must not be empty"))
       else (Some {| baseURL := baseURL (initialClient key);
                     apiKey := key;
                     httpClient := Some {| Http.Timeout := defaultTimeout;
                                           Http.Transport := O |};
                     userAgent := defaultUserAgent |}, None).
Proof.
  split; [| split].
  - unfold NewClient. destruct (isEmpty _); [reflexivity |].
    destruct (Url.Parse defaultBaseURL); [| reflexivity].
    rewrite applyOptions_skip_nil. reflexivity.
  - unfold NewClient. destruct (isEmpty _); [reflexivity |].
    destruct (Url.Parse defaultBaseURL); [| reflexivity].
    rewrite applyOptions_filter. reflexivity.
  - unfold NewClient. destruct (isEmpty _); reflexivity.
Qed.

(** The test [TestNewClientDefaults], with a nil option. *)
Example NewClient_nil_defaults :
  exists c, NewClient "apikey" [None] = (Some c, None)
            /\ apiKey c = "apikey"
            /\ Url.String <$> baseURL c = Some defaultBaseURL
            /\ httpClient c = Some {| Http.Timeout := 10000000000; Http.Transport := O |}
            /\ userAgent c = "enzonix-dns-sdk-go/0.1.0".
Proof. eexists. repeat split. Qed.

Section Claims.

Context `{!Unmarshaler (list DomainAPI.Domain), !Unmarshaler DomainAPI.Domain,
          !Unmarshaler DomainAPI.NameserverCheckResponse,
          !Unmarshaler (list DomainAPI.Record_), !Unmarshaler DomainAPI.Record_,
          !Unmarshaler DomainAPI.BindImportResponse,
          !Unmarshaler DomainAPI.ClientProfile,
          !Marshaler (gmap string string),
          !Marshaler DomainAPI.CreateRecordRequest,
          !Marshaler DomainAPI.UpdateRecordRequest,
          !Unmarshaler ZoneAPI.recordsResponse, !Unmarshaler ZoneAPI.Record_,
          !Marshaler ZoneAPI.CreateRecordRequest,
          !Marshaler ZoneAPI.UpdateRecordRequest}.

(** C4. For every resource operation taking a required identifier or
    required string field ([DeleteDomain], [CheckNameserver],
    [ListDomainRecords], [CreateRecord], [UpdateRecord], [DeleteRecord],
    [CreateDomain], [ListRecords]), if that input is blank after trimming
    whitespace, the call returns a descriptive local error and no HTTP
    request is constructed or sent: the store, and with it the trace of
    requests built and sent, is the one the call started from. *)
Theorem blank_input_fails_locally (ctx : option Http.Context) (s : Store)
    (blank : string) :
  Strings.TrimSpace blank = EmptyString ->
  DomainAPI.DeleteDomain ctx blank s
  = (Returned (Some (errorString "enzonix: domain id must not be empty")), s)
  /\ DomainAPI.CheckNameserver ctx blank s
     = (Returned (None, Some (errorString "enzonix: domain id must not be empty")), s)
  /\ DomainAPI.ListDomainRecords ctx blank s
     = (Returned ([], Some (errorString "enzonix: domain id must not be empty")), s)
  /\ DomainAPI.ExportBindZone ctx blank s
     = (Returned ([], Some (errorString "enzonix: domain id must not be empty")), s)
  /\ DomainAPI.CreateDomain ctx blank s
     = (Returned (None, Some (errorString "enzonix: domain name must not be empty")), s)
  /\ (forall payload,
        DomainAPI.UpdateRecord ctx blank payload s
        = (Returned (None, Some (errorString "enzonix: record id must not be empty")), s))
  /\ DomainAPI.DeleteRecord ctx blank s
     = (Returned (Some (errorString "enzonix: record id must not be empty")), s)
  /\ (forall payload,
        blank ∈ [DomainAPI.CreateDomainID payload; DomainAPI.CreateName payload;
                 DomainAPI.CreateType payload; DomainAPI.CreateValue payload] ->
        exists msg, DomainAPI.CreateRecord ctx payload s
                    = (Returned (None, Some (errorString msg)), s))
  /\ (forall opts,
        ZoneAPI.ListRecords ctx blank opts s
        = (Returned ([], Some (errorString "enzonix: zone must not be empty")), s))
  /\ (forall zone payload,
        blank ∈ [zone; ZoneAPI.CreateName payload; ZoneAPI.CreateType payload;
                 ZoneAPI.CreateContent payload] ->
        exists msg, ZoneAPI.CreateRecord ctx zone payload s
                    = (Returned (None, Some (errorString msg)), s))
  /\ (forall zone recordID payload,
        blank ∈ [zone; recordID] ->
        exists msg, ZoneAPI.UpdateRecord ctx zone recordID payload s
                    = (Returned (None, Some (errorString msg)), s))
  /\ (forall zone recordID,
        blank ∈ [zone; recordID] ->
        exists msg, ZoneAPI.DeleteRecord ctx zone recordID s
                    = (Returned (Some (errorString msg)), s)).
Proof.
  intros Hblank.
  unfold DomainAPI.DeleteDomain, DomainAPI.CheckNameserver,
    DomainAPI.ListDomainRecords, DomainAPI.ExportBindZone, DomainAPI.CreateDomain,
    DomainAPI.UpdateRecord, DomainAPI.DeleteRecord, ZoneAPI.ListRecords.
  rewrite !(requireID_blank blank _ Hblank), (requireZone_blank blank Hblank), Hblank.
  repeat split.
  - intros payload. apply DomainAPI_CreateRecord_blank. exact Hblank.
  - intros zone payload. apply ZoneAPI_CreateRecord_blank. exact Hblank.
  - intros zone recordID payload. apply ZoneAPI_UpdateRecord_blank. exact Hblank.
  - intros zone recordID. apply ZoneAPI_DeleteRecord_blank. exact Hblank.
Qed.

(** In particular an identifier made of ASCII white space only. *)
Corollary white_space_identifier_fails_locally (ctx : option Http.Context) (s : Store)
    (id : string) :
  Forall (fun c => Strings.asciiSpace c = true) (list_ascii_of_string id) ->
  DomainAPI.DeleteDomain ctx id s
  = (Returned (Some (errorString "enzonix: domain id must not be empty")), s)
  /\ DomainAPI.DeleteRecord ctx id s
     = (Returned (Some (errorString "enzonix: record id must not be empty")), s).
Proof.
  intros Hall. pose proof (TrimSpace_asciiSpace id Hall) as Hblank.
  unfold DomainAPI.DeleteDomain, DomainAPI.DeleteRecord.
  rewrite !(requireID_blank id _ Hblank). split; reflexivity.
Qed.

(** C6. Every request built by [newRequest], hence every outgoing
    request of every resource operation, carries the exact header
    [Authorization: Bearer <credential>] with the credential of the
    client; Content-Type is [application/json] exactly when a JSON body is
    supplied, and User-Agent is set exactly when the configured user
    agent is non-empty. The credential of a client that [NewClient] made
    with the options of the package is the one [NewClient] was given. *)
Theorem requests_carry_credential {A : Type} `{!Marshaler A}
    (ctx : option Http.Context) (method path : string)
    (query : option (gmap string (list string))) (body : option A)
    (s s' : Store) (req : Http.Request) :
  newRequest ctx method path query body s = (Returned (inl req), s') ->
  Http.Header req !! "Authorization" = Some ["Bearer " +:+ apiKey (self s)]
  /\ Http.HeaderGet (Http.Header req) "Authorization" = "Bearer " +:+ apiKey (self s)
  /\ Http.Header req !! "Content-Type"
     = match body with
       | Some _ => Some ["application/json"]
       | None => None
       end
  /\ Http.Header req !! "User-Agent"
     = (if isEmpty (userAgent (self s)) then None else Some [userAgent (self s)])
  /\ (forall (op : operation) (s0 : Store) (sent : Http.Request),
        Sent sent ∈ trace (storeAfter op s0) ->
        Sent sent ∈ trace s0
        \/ Http.Header sent !! "Authorization" = Some ["Bearer " +:+ apiKey (self s0)])
  /\ (forall key opts c,
        Forall providedOption opts -> NewClient key opts = (Some c, None) ->
        apiKey c = key).
Proof.
  intros Hreq.
  destruct (newRequest_cases ctx method path query body s)
    as [[err Herr] | [[req' [Hreq' (Hauth & Hct & Hua)]] | [_ [msg Hmsg]]]];
    [congruence | | congruence].
  assert (req' = req) as -> by congruence.
  split; [exact Hauth |].
  split; [unfold Http.HeaderGet; rewrite canonical_Authorization, Hauth; reflexivity |].
  split; [exact Hct |]. split; [exact Hua |].
  split; [| exact NewClient_apiKey].
  intros op s0 sent Hin. destruct (storeAfter_follows op s0) as (_ & _ & Hsent).
  apply Hsent, Hin.
Qed.

(** C9. After [NewClient] succeeds the client configuration (base URL,
    credential, user agent, HTTP client handle) is immutable: no resource
    operation, [newRequest] call or [do] call changes a field of the
    client, so the configuration before and after any operation is the
    same. *)
Theorem client_configuration_immutable (op : operation) (s : Store) :
  self (storeAfter op s) = self s
  /\ (forall (A : Type) (M : Marshaler A) ctx method path query (body : option A),
        self (snd (newRequest ctx method path query body s)) = self s)
  /\ (forall (A : Type) (U : Unmarshaler A) req (out : option A),
        self (snd (do req out s)) = self s)
  /\ (forall req, self (snd (httpClientDo req s)) = self s).
Proof.
  split; [apply storeAfter_follows |]. split; [| split].
  - intros A M ctx method path query body.
    destruct (newRequest_cases ctx method path query body s)
      as [[err ->] | [[req [-> _]] | [_ [msg ->]]]]; reflexivity.
  - intros A U req out.
    destruct (do_cases req out s) as [[msg ->] | [r ->]]; reflexivity.
  - intros req.
    destruct (httpClientDo_cases req s) as [[_ [msg ->]] | [hc [_ ->]]]; reflexivity.
Qed.

End Claims.

(** C5. [newRequest] resolves the relative path against the configured
    base URL by relative-reference resolution and then sets the encoded
    query; for base [https://example.test/api], path
    [/zones/example.com/records] and query [q=dns] the request URL is
    exactly [https://example.test/zones/example.com/records?q=dns]. *)
Theorem newRequest_resolves_reference :
  (forall (A : Type) (M : Marshaler A) ctx method path query (body : option A)
          (s s' : Store) (req : Http.Request),
      newRequest ctx method path query body s = (Returned (inl req), s') ->
      exists rel resolved target,
        Url.Parse path = inl rel
        /\ Url.ResolveReferenceFrom (baseURL (self s)) rel = Some resolved
        /\ (forall base, baseURL (self s) = Some base ->
            resolved = Url.ResolveReference base rel)
        /\ Url.Parse
             (Url.String
                (match query with
                 | Some q => Url.withRawQuery resolved (Url.Encode q)
                 | None => resolved
                 end)) = inl target
        /\ Http.URL req = Url.withHost target (Http.removeEmptyPort (Url.Host target)))
  /\ exists c,
       NewClient "key" [WithBaseURL "https://example.test/api"] = (Some c, None)
       /\ forall net events, exists req s',
            newRequest (A := untyped) background Http.MethodGet
              "/zones/example.com/records" (Some {["q" := ["dns"]]}) nil
              {| self := c; network := net; trace := events |}
            = (Returned (inl req), s')
            /\ Url.String (Http.URL req)
               = "https://example.test/zones/example.com/records?q=dns".
Proof.
  split.
  - intros A M ctx method path query body s s' req.
    unfold newRequest. rewrite bind_unfold. simpl.
    destruct ctx as [cx |]; [| discriminate].
    destruct (Url.Parse path) as [rel | e]; [| discriminate].
    destruct (Url.ResolveReferenceFrom (baseURL (self s)) rel) as [resolved |] eqn:Hres;
      [| discriminate].
    destruct (match body with Some b => _ | None => _ end) as [rd | e];
      [| discriminate].
    destruct (Http.NewRequestWithContext _ _ _ _) as [built | e] eqn:Hbuilt;
      [| discriminate].
    intros [= <- _].
    unfold Http.NewRequestWithContext in Hbuilt.
    destruct (negb _); [discriminate |].
    destruct (Url.Parse (Url.String _)) as [target | e] eqn:Htarget; [| discriminate].
    injection Hbuilt as <-.
    exists rel, resolved, target. split; [reflexivity |]. split; [exact Hres |].
    split.
    { intros base Hbase. rewrite Hbase in Hres. injection Hres as <-. reflexivity. }
    split; [exact Htarget |].
    destruct body, (negb (isEmpty (userAgent (self s)))); reflexivity.
  - eexists. split; [vm_compute; reflexivity |].
    intros net events. eexists. eexists. split; [vm_compute; reflexivity |].
    vm_compute. reflexivity.
Qed.

(** The test [TestNewRequest]. *)
Lemma newRequest_resolves_witness :
  exists req s',
    newRequest (A := untyped) background Http.MethodGet "/fail" nil nil
      (stubStore (initialClient "key") 200 []) = (Returned (inl req), s')
    /\ Url.String (Http.URL req) = "https://api.ns.enzonix.com/fail".
Proof.
  destruct (newRequest (A := untyped) background Http.MethodGet "/fail" nil nil
              (stubStore (initialClient "key") 200 [])) as [[[req | e] | msg] s'] eqn:Hreq;
    try (vm_compute in Hreq; discriminate).
  exists req, s'. split; [reflexivity |].
  destruct (proj1 newRequest_resolves_reference _ _ _ _ _ _ _ _ _ _ Hreq)
    as (rel & resolved & target & Hrel & Hres & _ & Htarget & ->).
  vm_compute in Hrel. injection Hrel as <-.
  vm_compute in Hres. injection Hres as <-.
  vm_compute in Htarget. injection Htarget as <-.
  vm_compute. reflexivity.
Defined.

(** C7, as stated: for every zone name passed to the zone-scoped record
    operations, trailing dots are stripped before the request path is
    constructed, so the path built from a name with trailing dot(s)
    equals the path built from the name without them. It fails for two
    trailing dots: one of them stays in the path. *)
Lemma trailing_dots_counterexample :
  ZoneAPI.zoneRecordsPath "example.com.." <> ZoneAPI.zoneRecordsPath "example.com"
  /\ ZoneAPI.zoneRecordsPath "example.com.." = "/zones/example.com./records".
Proof. split; [vm_compute; discriminate | vm_compute; reflexivity]. Qed.

Section ZoneClaims.

Context `{!Unmarshaler ZoneAPI.recordsResponse, !Unmarshaler ZoneAPI.Record_,
          !Marshaler ZoneAPI.CreateRecordRequest,
          !Marshaler ZoneAPI.UpdateRecordRequest}.

(** C7, amended. For every zone name passed to the zone-scoped record
    operations ([ListRecords], [CreateRecord], [UpdateRecord],
    [DeleteRecord]) one trailing dot is stripped before the request path
    is constructed: for a name without surrounding white space that does
    not end with a dot, the path built from the name followed by a dot
    equals the path built from the name, and each operation does with the
    one what it does with the other (zone [example.com.] yields the path
    [/zones/example.com/records]). *)
Theorem one_trailing_dot_stripped (zone : string) :
  Strings.TrimSpace zone = zone ->
  Strings.HasSuffix zone "." = false ->
  zone <> EmptyString ->
  ZoneAPI.trimZone (zone +:+ ".") = zone
  /\ ZoneAPI.zoneRecordsPath (zone +:+ ".") = ZoneAPI.zoneRecordsPath zone
  /\ ZoneAPI.zoneRecordsPath (zone +:+ ".")
     = "/zones/" +:+ Url.PathEscape zone +:+ "/records"
  /\ (forall id, ZoneAPI.zoneRecordPath (zone +:+ ".") id = ZoneAPI.zoneRecordPath zone id)
  /\ (forall ctx opts s,
        ZoneAPI.ListRecords ctx (zone +:+ ".") opts s = ZoneAPI.ListRecords ctx zone opts s)
  /\ (forall ctx payload s,
        ZoneAPI.CreateRecord ctx (zone +:+ ".") payload s
        = ZoneAPI.CreateRecord ctx zone payload s)
  /\ (forall ctx id payload s,
        ZoneAPI.UpdateRecord ctx (zone +:+ ".") id payload s
        = ZoneAPI.UpdateRecord ctx zone id payload s)
  /\ (forall ctx id s,
        ZoneAPI.DeleteRecord ctx (zone +:+ ".") id s = ZoneAPI.DeleteRecord ctx zone id s).
Proof.
  intros Hz Hdot Hne.
  pose proof (trimZone_app_dot zone Hz) as Hdotted.
  pose proof (trimZone_plain zone Hz Hdot) as Hplain.
  assert (ZoneAPI.zoneRecordsPath (zone +:+ ".") = ZoneAPI.zoneRecordsPath zone) as Hpath.
  { unfold ZoneAPI.zoneRecordsPath. rewrite Hdotted, Hplain. reflexivity. }
  assert (forall id, ZoneAPI.zoneRecordPath (zone +:+ ".") id
                     = ZoneAPI.zoneRecordPath zone id) as Hpath'.
  { intros id. unfold ZoneAPI.zoneRecordPath. rewrite Hpath. reflexivity. }
  assert (ZoneAPI.requireZone (zone +:+ ".") = ZoneAPI.requireZone zone) as Hreq.
  { assert (Strings.TrimSpace (zone +:+ ".") = zone +:+ ".") as Hdz.
    { unfold Strings.TrimSpace.
      rewrite TrimLeftSpace_app_dot, (TrimSpace_fixed zone Hz).
      apply TrimRightSpace_app_dot. }
    unfold ZoneAPI.requireZone. rewrite Hdz, Hz.
    destruct zone; [contradiction | reflexivity]. }
  split; [exact Hdotted |]. split; [exact Hpath |].
  split; [unfold ZoneAPI.zoneRecordsPath; rewrite Hdotted; reflexivity |].
  split; [exact Hpath' |].
  unfold ZoneAPI.ListRecords, ZoneAPI.CreateRecord, ZoneAPI.UpdateRecord,
    ZoneAPI.DeleteRecord.
  rewrite Hreq, Hpath.
  repeat split; intros; rewrite ?Hpath'; reflexivity.
Qed.

End ZoneClaims.

Lemma requireID_present (value label : string) :
  Strings.TrimSpace value <> EmptyString -> requireID value label = None.
Proof.
  intros H. unfold requireID.
  destruct (isEmpty (Strings.TrimSpace value)) eqn:E; [| reflexivity].
  apply isEmpty_true in E. contradiction.
Qed.

(** What [do] returns for a response below 400 whose body is read whole. *)
Lemma do_success {A : Type} `{!Unmarshaler A} (s : Store) (hc : Http.Client)
    (req : Http.Request) (target : A) (res : Http.Response) :
  httpClient (self s) = Some hc ->
  network s hc (sentRequests (trace s)) req = inl res ->
  Http.StatusCode res < 400 ->
  Io.failure (Http.RespBody res) = None ->
  fst (do req (Some target) s)
  = Returned
      (match take (N.to_nat jsonLimit) (Io.content (Http.RespBody res)) with
       | [] => (Some target, None)
       | b :: body =>
           match Unmarshal (b :: body) target with
           | (target', Some err) =>
               (Some target', Some (wrapError "enzonix: decode response" err))
           | (target', None) => (Some target', None)
           end
       end).
Proof.
  intros Hhc Hnet Hstatus Hok. unfold do. rewrite bind_unfold.
  destruct (httpClientDo_cases req s) as [[Hnone _] | [hc' [Hhc' ->]]]; [congruence |].
  assert (hc' = hc) as -> by congruence.
  rewrite Hnet. cbv beta iota. rewrite (ReadAllLimit_take _ _ Hok).
  apply Z.leb_gt in Hstatus. rewrite Hstatus.
  destruct (take _ _) as [| b body]; [reflexivity |].
  destruct (Unmarshal (b :: body) target) as [t' [err |]]; reflexivity.
Qed.

(** C8. [ExportBindZone] returns, on any success status (< 400), exactly
    the raw bytes of the response body with no JSON decoding attempted
    whatever the content, where the body read is capped at 4 MiB, while
    the JSON response path in [do] caps its body read at 1 MiB. *)
Theorem ExportBindZone_returns_raw_bytes (ctx : option Http.Context)
    (domainID : string) (s s1 : Store) (hc : Http.Client) (req : Http.Request)
    (res : Http.Response) :
  Strings.TrimSpace domainID <> EmptyString ->
  newRequest (A := untyped) ctx Http.MethodGet
    (DomainAPI.clientAPIPrefix +:+ "/domains/" +:+ Url.PathEscape domainID
     +:+ "/export/bind") nil nil s = (Returned (inl req), s1) ->
  httpClient (self s) = Some hc ->
  network s hc (sentRequests (trace s1)) (Http.setHeader req "Accept" "text/plain")
  = inl res ->
  Http.StatusCode res < 400 ->
  fst (DomainAPI.ExportBindZone ctx domainID s)
  = Returned (Io.ReadAllLimit (Http.RespBody res) exportLimit)
  /\ fst (Io.ReadAllLimit (Http.RespBody res) exportLimit)
     = take (N.to_nat exportLimit) (Io.content (Http.RespBody res))
  /\ (Io.failure (Http.RespBody res) = None ->
      (length (Io.content (Http.RespBody res)) <= N.to_nat exportLimit)%nat ->
      fst (DomainAPI.ExportBindZone ctx domainID s)
      = Returned (Io.content (Http.RespBody res), None))
  /\ exportLimit = (4 * 1024 * 1024)%N
  /\ jsonLimit = (1024 * 1024)%N
  /\ (forall (A : Type) (U : Unmarshaler A) (target : A) (s2 : Store)
             (hc2 : Http.Client) (req2 : Http.Request) (res2 : Http.Response),
        httpClient (self s2) = Some hc2 ->
        network s2 hc2 (sentRequests (trace s2)) req2 = inl res2 ->
        Http.StatusCode res2 < 400 ->
        Io.failure (Http.RespBody res2) = None ->
        fst (do req2 (Some target) s2)
        = Returned
            (match take (N.to_nat jsonLimit) (Io.content (Http.RespBody res2)) with
             | [] => (Some target, None)
             | b :: body =>
                 match Unmarshal (b :: body) target with
                 | (target', Some err) =>
                     (Some target', Some (wrapError "enzonix: decode response" err))
                 | (target', None) => (Some target', None)
                 end
             end)).
Proof.
  intros Hid Hnew Hhc Hnet Hstatus.
  assert (fst (DomainAPI.ExportBindZone ctx domainID s)
          = Returned (Io.ReadAllLimit (Http.RespBody res) exportLimit)) as Hexport.
  { unfold DomainAPI.ExportBindZone.
    rewrite (requireID_present _ _ Hid), bind_unfold, Hnew.
    destruct (newRequest_cases (A := untyped) ctx Http.MethodGet
                (DomainAPI.clientAPIPrefix +:+ "/domains/" +:+ Url.PathEscape domainID
                 +:+ "/export/bind") nil nil s)
      as [[err Herr] | [[req' [Hreq' _]] | [_ [msg Hmsg]]]];
      [congruence | | congruence].
    assert (s1 = addEvent s (Built req)) as Hs1 by congruence.
    rewrite bind_unfold.
    destruct (httpClientDo_cases (Http.setHeader req "Accept" "text/plain") s1)
      as [[Hnone _] | [hc' [Hhc' ->]]].
    { rewrite Hs1, addEvent_self in Hnone. congruence. }
    rewrite Hs1, addEvent_self in Hhc'.
    assert (hc' = hc) as -> by congruence.
    replace (network s1) with (network s) by (rewrite Hs1; reflexivity).
    rewrite Hnet. cbv beta iota.
    apply Z.leb_gt in Hstatus. rewrite Hstatus. reflexivity. }
  split; [exact Hexport |].
  split; [apply ReadAllLimit_fst |].
  split.
  { intros Hok Hlen. rewrite Hexport, (ReadAllLimit_take _ _ Hok), take_ge by exact Hlen.
    reflexivity. }
  split; [reflexivity |]. split; [reflexivity |].
  intros A U target s2 hc2 req2 res2. apply do_success.
Qed.

(** ** The claims at the inputs of the package tests *)

Section Witnesses.

#[local] Existing Instance keepTarget | 100.
#[local] Existing Instance emptyObject | 100.

Lemma blank_input_witness :
  Strings.TrimSpace "   " = EmptyString
  /\ DomainAPI.DeleteDomain background "   " (stubStore (initialClient "key") 500 [])
     = (Returned (Some (errorString "enzonix: domain id must not be empty")),
        stubStore (initialClient "key") 500 [])
  /\ trace (snd (ZoneAPI.ListRecords background "   " None
                   (stubStore (initialClient "key") 500 []))) = [].
Proof.
  pose proof (blank_input_fails_locally background
                (stubStore (initialClient "key") 500 []) "   " eq_refl)
    as (Hdelete & _ & _ & _ & _ & _ & _ & _ & Hlist & _).
  split; [reflexivity |]. split; [exact Hdelete |].
  rewrite (Hlist None). reflexivity.
Defined.

Lemma requests_carry_credential_witness :
  exists req s',
    newRequest (A := untyped) background Http.MethodGet "/fail" nil nil
      (stubStore (initialClient "key") 200 []) = (Returned (inl req), s')
    /\ Http.HeaderGet (Http.Header req) "Authorization" = "Bearer key"
    /\ Http.HeaderGet (Http.Header req) "User-Agent" = "enzonix-dns-sdk-go/0.1.0"
    /\ Http.Header req !! "Content-Type" = None.
Proof.
  destruct (newRequest (A := untyped) background Http.MethodGet "/fail" nil nil
              (stubStore (initialClient "key") 200 [])) as [[[req | e] | msg] s'] eqn:Hreq;
    try (vm_compute in Hreq; discriminate).
  exists req, s'. split; [reflexivity |].
  destruct (requests_carry_credential _ _ _ _ _ _ _ _ Hreq)
    as (_ & Hauth & Hct & Hua & _).
  split; [exact Hauth |]. split; [| exact Hct].
  unfold Http.HeaderGet. rewrite canonical_UserAgent, Hua. reflexivity.
Defined.

Lemma one_trailing_dot_witness :
  ZoneAPI.zoneRecordsPath "example.com." = "/zones/example.com/records"
  /\ ZoneAPI.zoneRecordPath "example.com." "abc" = "/zones/example.com/records/abc".
Proof.
  pose proof (one_trailing_dot_stripped "example.com" eq_refl eq_refl
                ltac:(discriminate)) as (_ & _ & Hpath & Hrecord & _).
  split; [exact Hpath |].
  transitivity (ZoneAPI.zoneRecordPath "example.com" "abc");
    [exact (Hrecord "abc") | reflexivity].
Defined.

Lemma ExportBindZone_witness :
  fst (DomainAPI.ExportBindZone background "domain-1"
         (stubStore (initialClient "key") 200 zoneFile))
  = Returned (zoneFile, None).
Proof.
  destruct (newRequest (A := untyped) background Http.MethodGet
              (DomainAPI.clientAPIPrefix +:+ "/domains/" +:+ Url.PathEscape "domain-1"
               +:+ "/export/bind") nil nil
              (stubStore (initialClient "key") 200 zoneFile))
    as [[[req | e] | msg] s1] eqn:Hreq;
    try (vm_compute in Hreq; discriminate).
  destruct (ExportBindZone_returns_raw_bytes background "domain-1"
              (stubStore (initialClient "key") 200 zoneFile) s1 defaultHTTPClient req
              {| Http.StatusCode := 200;
                 Http.RespBody := {| Io.content := zoneFile; Io.failure := None |} |}
              ltac:(discriminate) Hreq eq_refl eq_refl eq_refl)
    as (_ & _ & Hwhole & _).
  apply Hwhole; [reflexivity |].
  apply Nat.leb_le. vm_compute. reflexivity.
Defined.

End Witnesses.

(** The paths of the tests of the domain-scoped API. *)
Example domain_paths :
  DomainAPI.clientAPIPrefix +:+ "/domains/" +:+ Url.PathEscape "domain-1"
  = "/api/client/domains/domain-1"
  /\ DomainAPI.clientAPIPrefix +:+ "/records/" +:+ Url.PathEscape "a/b c"
     = "/api/client/records/a%2Fb%20c".
Proof. split; reflexivity. Qed.

(** * Further properties of the client *)

(** ** White space *)

Lemma trimFront_idem two three (s : string) :
  Strings.trimFront two three (Strings.trimFront two three s)
  = Strings.trimFront two three s.
Proof.
  remember (String.length s) as n eqn:Hn. revert s Hn.
  induction n as [n IH] using lt_wf_ind. intros s Hn.
  rewrite (trimFront_unfold two three s).
  destruct s as [| a s1]; [reflexivity |].
  simpl in Hn. destruct (Strings.asciiSpace a) eqn:Ha.
  { apply (IH (String.length s1) ltac:(lia) s1 eq_refl). }
  destruct s1 as [| b s2]; [rewrite trimFront_unfold, Ha; reflexivity |].
  simpl in Hn. destruct (two a b) eqn:H2.
  { apply (IH (String.length s2) ltac:(lia) s2 eq_refl). }
  destruct s2 as [| c s3]; [rewrite trimFront_unfold, Ha, H2; reflexivity |].
  simpl in Hn. destruct (three a b c) eqn:H3.
  { apply (IH (String.length s3) ltac:(lia) s3 eq_refl). }
  rewrite trimFront_unfold, Ha, H2, H3. reflexivity.
Qed.

(** A string that starts with no white space has no prefix that does. *)
Lemma trimFront_prefix two three (p q : string) :
  Strings.trimFront two three (p +:+ q) = p +:+ q ->
  Strings.trimFront two three p = p.
Proof.
  intros H.
  assert (forall t u : string,
            (String.length t < String.length u)%nat ->
            Strings.trimFront two three t <> u) as Hshort.
  { intros t u Hlt Heq. pose proof (trimFront_length two three t) as Hle.
    rewrite Heq in Hle. lia. }
  rewrite trimFront_unfold in H. rewrite trimFront_unfold.
  destruct p as [| a p1]; [reflexivity |].
  rewrite append_cons in H.
  destruct (Strings.asciiSpace a).
  { exfalso. revert H. apply Hshort. simpl. lia. }
  destruct p1 as [| b p2]; [reflexivity |].
  rewrite append_cons in H.
  destruct (two a b).
  { exfalso. revert H. apply Hshort. simpl. lia. }
  destruct p2 as [| c p3]; [reflexivity |].
  rewrite append_cons in H.
  destruct (three a b c); [| reflexivity].
  exfalso. revert H. apply Hshort. simpl. lia.
Qed.

Lemma TrimRightSpace_prefix (s : string) :
  exists q, s = Strings.TrimRightSpace s +:+ q.
Proof.
  unfold Strings.TrimRightSpace.
  destruct (trimFront_suffix (fun b a => Strings.space2 a b)
              (fun c b a => Strings.space3 a b c) (Strings.rev s)) as [p Hp].
  exists (Strings.rev p).
  rewrite <- rev_app, <- Hp, rev_rev. reflexivity.
Qed.

Lemma TrimRightSpace_idem (s : string) :
  Strings.TrimRightSpace (Strings.TrimRightSpace s) = Strings.TrimRightSpace s.
Proof.
  unfold Strings.TrimRightSpace. rewrite rev_rev, trimFront_idem. reflexivity.
Qed.

(** [strings.TrimSpace] leaves a trimmed string as it is. *)
Lemma TrimSpace_idem (s : string) :
  Strings.TrimSpace (Strings.TrimSpace s) = Strings.TrimSpace s.
Proof.
  unfold Strings.TrimSpace.
  assert (Strings.TrimLeftSpace (Strings.TrimRightSpace (Strings.TrimLeftSpace s))
          = Strings.TrimRightSpace (Strings.TrimLeftSpace s)) as Hleft.
  { destruct (TrimRightSpace_prefix (Strings.TrimLeftSpace s)) as [q Hq].
    apply (trimFront_prefix _ _ _ q). rewrite <- Hq. apply trimFront_idem. }
  rewrite Hleft. apply TrimRightSpace_idem.
Qed.

(** ** The client [NewClient] returns *)

Lemma NewClient_httpClient (key : string) (opts : list Option) (c : Client) :
  NewClient key opts = (Some c, None) -> is_Some (httpClient c).
Proof.
  unfold NewClient. destruct (isEmpty _); [discriminate |].
  destruct (Url.Parse defaultBaseURL); [| discriminate].
  destruct (applyOptions opts _) as [c' [err |]]; [discriminate |].
  intros [= <-]. destruct (httpClient c') eqn:E; simpl; rewrite ?E; eexists; reflexivity.
Qed.

Lemma providedOption_wellConfigured (o : Option) (c : Client) :
  providedOption o -> wellConfigured c ->
  match o with
  | Some opt => wellConfigured (fst (opt c))
  | None => True
  end.
Proof.
  intros [-> | [[rawURL ->] | [[hc ->] | [ua ->]]]] [Habs Hua]; simpl.
  - exact I.
  - destruct (isEmpty _); [split; assumption |].
    destruct (Url.Parse rawURL) as [u | e]; [| split; assumption].
    destruct (Url.IsAbs u) eqn:Hu; simpl; (split; [| exact Hua]);
      [exists u; split; [reflexivity | exact Hu] | exact Habs].
  - destruct hc; split; assumption.
  - split; [exact Habs | apply TrimSpace_idem].
Qed.

Lemma applyOptions_wellConfigured (opts : list Option) (c : Client) :
  Forall providedOption opts -> wellConfigured c ->
  wellConfigured (fst (applyOptions opts c)).
Proof.
  revert c. induction opts as [| o opts IH]; intros c Hall Hc; [exact Hc |].
  apply Forall_cons in Hall as [Ho Hall].
  pose proof (providedOption_wellConfigured o c Ho Hc) as Hstep.
  destruct o as [opt |]; simpl.
  - destruct (opt c) as [c' [err |]]; simpl in *; [exact Hstep |].
    apply IH; assumption.
  - apply IH; assumption.
Qed.

Lemma NewClient_wellConfigured (key : string) (opts : list Option) (c : Client) :
  Forall providedOption opts -> NewClient key opts = (Some c, None) ->
  wellConfigured c.
Proof.
  intros Hall Hnew.
  destruct (String.eqb_spec (Strings.TrimSpace key) EmptyString) as [Hblank | Hkey].
  { rewrite (NewClient_blank key opts Hblank) in Hnew. discriminate. }
  rewrite (NewClient_options key opts Hkey) in Hnew.
  assert (wellConfigured (initialClient key)) as Hinit
    by (split; [exists defaultBase; split; reflexivity | reflexivity]).
  pose proof (applyOptions_wellConfigured opts (initialClient key) Hall Hinit) as Hc.
  destruct (applyOptions opts (initialClient key)) as [c' [err |]]; [discriminate |].
  simpl in Hc. injection Hnew as <-.
  destruct (httpClient c'); exact Hc.
Qed.

(** X1. A client that [NewClient] returns has an HTTP client, and the key
    it was given is not blank. When the options are those of the
    package, its base URL is not nil and is absolute, its user agent has
    no white space around it, and its key is the key as given, not
    trimmed. *)
Theorem NewClient_result_is_usable (key : string) (opts : list Option) (c : Client) :
  NewClient key opts = (Some c, None) ->
  is_Some (httpClient c)
  /\ Strings.TrimSpace key <> EmptyString
  /\ (Forall providedOption opts ->
      (exists base, baseURL c = Some base /\ Url.IsAbs base = true)
      /\ Strings.TrimSpace (userAgent c) = userAgent c
      /\ apiKey c = key).
Proof.
  intros Hnew. split; [exact (NewClient_httpClient key opts c Hnew) |].
  destruct (String.eqb_spec (Strings.TrimSpace key) EmptyString) as [Hblank | Hkey].
  { rewrite (NewClient_blank key opts Hblank) in Hnew. discriminate. }
  split; [exact Hkey |]. intros Hall.
  pose proof (NewClient_apiKey key opts c Hall Hnew) as Hapi.
  rewrite (NewClient_options key opts Hkey) in Hnew.
  assert (wellConfigured (initialClient key)) as Hinit
    by (split; [exists defaultBase; split; reflexivity | reflexivity]).
  pose proof (applyOptions_wellConfigured opts (initialClient key) Hall Hinit) as [Habs Hua].
  destruct (applyOptions opts (initialClient key)) as [c' [err |]]; [discriminate |].
  simpl in Habs, Hua. injection Hnew as <-.
  destruct (httpClient c'); simpl; repeat split; assumption.
Qed.

(** ** Paths that start with one slash *)

Lemma HasPrefix_drop (s p : string) :
  Strings.HasPrefix s p = true -> s = p +:+ Strings.drop (String.length p) s.
Proof.
  revert s. induction p as [| a p IH]; intros s H; [reflexivity |].
  destruct s as [| b s]; [discriminate |].
  simpl in H. apply andb_true_iff in H as [Hab Hp].
  apply Ascii.eqb_eq in Hab. subst b.
  rewrite append_cons. simpl. f_equal. apply IH, Hp.
Qed.

(** A string with the suffix is what [TrimSuffix] returns, then the suffix. *)
Lemma TrimSuffix_app (s suffix : string) :
  Strings.HasSuffix s suffix = true -> s = Strings.TrimSuffix s suffix +:+ suffix.
Proof.
  intros H. unfold Strings.TrimSuffix. rewrite H. unfold Strings.HasSuffix in H.
  apply HasPrefix_drop in H. rewrite length_rev in H.
  rewrite <- (rev_rev s) at 1. rewrite H at 1. rewrite rev_app, rev_rev. reflexivity.
Qed.

Lemma Cut_cons (a : ascii) (s : string) (sep : ascii) :
  Strings.Cut (String a s) sep
  = if Ascii.eqb a sep then (EmptyString, s, true)
    else let '(before, after, found) := Strings.Cut s sep in
         (String a before, after, found).
Proof. reflexivity. Qed.

Lemma Cut_rooted (c : ascii) (path : string) (sep : ascii) :
  Ascii.eqb "/" sep = false -> Ascii.eqb c sep = false ->
  rooted c path -> rooted c (fst (fst (Strings.Cut path sep))).
Proof.
  intros H1 H2 [rest ->]. rewrite !Cut_cons, H1, H2.
  destruct (Strings.Cut rest sep) as [[before after] found].
  eexists. reflexivity.
Qed.

Lemma TrimSuffix_rooted (c : ascii) (path : string) :
  Ascii.eqb c "?" = false ->
  rooted c path -> Strings.HasSuffix path "?" = true ->
  rooted c (Strings.TrimSuffix path "?").
Proof.
  intros Hc [rest Hpath] Hsuffix.
  pose proof (TrimSuffix_app path "?" Hsuffix) as Happ.
  destruct (Strings.TrimSuffix path "?") as [| x [| y t]].
  - rewrite Hpath in Happ. discriminate Happ.
  - rewrite Hpath in Happ. injection Happ as _ Hy _. subst c. discriminate Hc.
  - rewrite Hpath in Happ. injection Happ as <- <- _. eexists. reflexivity.
Qed.

Lemma unescape_slash (s : string) :
  Url.unescape (String "/" s) Url.encodePath
  = match Url.unescape s Url.encodePath with
    | inl t => inl (String "/" t)
    | inr e => inr e
    end.
Proof. reflexivity. Qed.

Lemma escape_slash (s : string) :
  Url.escape (String "/" s) Url.encodePath = String "/" (Url.escape s Url.encodePath).
Proof. reflexivity. Qed.

Lemma getScheme_slash (s : string) : Url.getScheme (String "/" s) = Url.noScheme.
Proof. reflexivity. Qed.

Lemma EscapedPath_slash (u : Url.URL) (t r : string) :
  Url.Path u = String "/" t ->
  Url.RawPath u = EmptyString \/ Url.RawPath u = String "/" r ->
  exists e, Url.EscapedPath u = String "/" e.
Proof.
  intros Hpath Hraw. unfold Url.EscapedPath. rewrite Hpath.
  destruct (negb (isEmpty (Url.RawPath u)) && _ && _) eqn:E.
  - destruct Hraw as [Hraw | Hraw]; rewrite Hraw in *; [discriminate E |].
    eexists. reflexivity.
  - change (String.eqb (String "/" t) "*") with false. cbv iota.
    rewrite escape_slash. eexists. reflexivity.
Qed.

Lemma parse_of_rooted (c : ascii) (u : string) (rel : Url.URL) :
  segmentStart c -> rooted c u -> Url.parse u = inl rel -> pathReference rel.
Proof.
  intros (Hslash & Hhash & Hquery) Hu. unfold Url.parse.
  destruct (Url.stringContainsCTLByte u); [discriminate |].
  assert (String.eqb u "*" = false) as -> by (destruct Hu as [rest ->]; reflexivity).
  assert (Url.getScheme u = Url.noScheme) as -> by (destruct Hu as [rest ->]; reflexivity).
  destruct (if _ && _ then _ else _) as [[rest1 force] query] eqn:Hsplit.
  assert (rooted c rest1) as [x ->].
  { destruct (Strings.HasSuffix u "?" && _) eqn:E.
    - injection Hsplit as <- _ _. apply andb_true_iff in E as [E _].
      apply TrimSuffix_rooted; assumption.
    - pose proof (Cut_rooted c u "?" eq_refl Hquery Hu) as Hcut.
      destruct (Strings.Cut u "?") as [[before after] found].
      injection Hsplit as <- _ _. exact Hcut. }
  cbn [Strings.HasPrefix isEmpty negb andb orb]. rewrite Hslash.
  cbn [Strings.HasPrefix isEmpty negb andb orb Ascii.eqb Bool.eqb].
  unfold Url.setPath, Url.bindE. rewrite unescape_slash.
  destruct (Url.unescape (String c x) Url.encodePath) as [t | e]; [| discriminate].
  intros [= <-]. unfold pathReference, Url.withPath.
  cbn [Url.Scheme Url.Opaque Url.User Url.Host Url.Path].
  repeat split; try (eexists; reflexivity).
  eapply (EscapedPath_slash _ t (String c x)); [reflexivity |].
  cbn [Url.RawPath].
  match goal with
  | |- context [if ?b then EmptyString else _] => destruct b
  end; [left | right]; reflexivity.
Qed.

Lemma Parse_rooted (c : ascii) (path : string) (rel : Url.URL) :
  segmentStart c -> rooted c path -> Url.Parse path = inl rel -> pathReference rel.
Proof.
  intros Hc Hpath. unfold Url.Parse.
  pose proof (Cut_rooted c path "#" eq_refl (proj1 (proj2 Hc)) Hpath) as Hcut.
  destruct (Strings.Cut path "#") as [[u frag] found]. simpl in Hcut.
  unfold Url.bindE. destruct (Url.parse u) as [url | e] eqn:Hparse; [| discriminate].
  pose proof (parse_of_rooted c u url Hc Hcut Hparse) as Hurl.
  destruct (isEmpty frag); [intros [= <-]; exact Hurl |].
  unfold Url.setFragment, Url.bindE.
  destruct (Url.unescape frag Url.encodeFragment); [| discriminate].
  intros [= <-]. exact Hurl.
Qed.

(** Against a reference that is a rooted path, only the scheme, the user
    information and the host of the base count. *)
Lemma ResolveReference_pathReference (u u' ref : Url.URL) :
  pathReference ref -> sameAuthority u u' ->
  Url.ResolveReference u ref = Url.ResolveReference u' ref.
Proof.
  intros (Hs & Ho & Hu & Hh & [t Hp] & [e He]) (Hscheme & Huser & Hhost).
  unfold Url.ResolveReference. rewrite Hs, Ho, Hu, Hh, Hp, He.
  cbn [isEmpty negb andb orb]. rewrite !bool_decide_eq_false_2 by (intros [x Hx]; discriminate).
  cbn [Url.Scheme Url.Opaque Url.User Url.Host Url.Path Url.RawPath Url.OmitHost
       Url.ForceQuery Url.RawQuery Url.Fragment Url.RawFragment].
  unfold Url.resolvePath. cbn [isEmpty negb Strings.HasPrefix Ascii.eqb Bool.eqb andb].
  rewrite !HasPrefix_nil. cbn [negb].
  rewrite Hscheme, Huser, Hhost. reflexivity.
Qed.

Lemma newRequest_rebased {A : Type} `{!Marshaler A} (c : ascii) ctx method path query
    (body : option A) (s : Store) (u base : Url.URL) :
  segmentStart c -> rooted c path ->
  baseURL (self s) = Some base -> sameAuthority u base ->
  newRequest ctx method path query body (rebased s u)
  = (fst (newRequest ctx method path query body s),
     rebased (snd (newRequest ctx method path query body s)) u).
Proof.
  intros Hc Hpath Hbase Hsame. unfold newRequest. rewrite !bind_unfold.
  cbn [getSelf self rebased baseURL apiKey userAgent].
  destruct ctx as [cx |]; [| reflexivity].
  destruct (Url.Parse path) as [rel | e] eqn:Hparse; [| reflexivity].
  rewrite Hbase. unfold Url.ResolveReferenceFrom.
  rewrite (ResolveReference_pathReference u base rel
             (Parse_rooted c path rel Hc Hpath Hparse) Hsame).
  destruct (match body with Some b => _ | None => _ end) as [rd | e]; [| reflexivity].
  destruct (Http.NewRequestWithContext _ _ _ _) as [req | e]; reflexivity.
Qed.

Lemma do_rebased {A : Type} `{!Unmarshaler A} (req : Http.Request) (out : option A)
    (s : Store) (u : Url.URL) :
  do req out (rebased s u) = (fst (do req out s), rebased (snd (do req out s)) u).
Proof.
  unfold do, httpClientDo. rewrite !bind_unfold.
  cbn [getSelf self rebased httpClient].
  destruct (httpClient (self s)) as [hc |]; [| reflexivity].
  unfold roundTrip. cbn [network trace rebased].
  destruct (network s hc (sentRequests (trace s)) req) as [res | err]; [| reflexivity].
  destruct (Io.ReadAllLimit _ _) as [body [err |]]; [reflexivity |].
  destruct (400 <=? Http.StatusCode res); [reflexivity |].
  destruct out as [target |], body as [| b body]; try reflexivity.
  destruct (Unmarshal (b :: body) target) as [t' [err |]]; reflexivity.
Qed.

Lemma httpClientDo_rebased (req : Http.Request) (s : Store) (u : Url.URL) :
  httpClientDo req (rebased s u)
  = (fst (httpClientDo req s), rebased (snd (httpClientDo req s)) u).
Proof.
  unfold httpClientDo. rewrite !bind_unfold.
  cbn [getSelf self rebased httpClient].
  destruct (httpClient (self s)) as [hc |]; reflexivity.
Qed.

(** ** Decoding an error body, in general *)

Lemma decodeMember_Message (e : APIError) saved m :
  Message (fst (decodeMember (e, saved) m))
  = if Json.nameMatches "message" (Json.memberKey m)
    then keepString (Message e) (Json.memberValue m)
    else Message e.
Proof.
  destruct (Json.nameMatches "message" (Json.memberKey m)) eqn:Em.
  - unfold decodeMember. rewrite Em. destruct (Json.memberValue m); reflexivity.
  - apply decodeMember_Message_miss, Em.
Qed.

Lemma decodeMember_Code (e : APIError) saved m :
  Code (fst (decodeMember (e, saved) m))
  = if Json.nameMatches "code" (Json.memberKey m)
    then keepString (Code e) (Json.memberValue m)
    else Code e.
Proof.
  destruct (Json.nameMatches "code" (Json.memberKey m)) eqn:Ec.
  - unfold decodeMember.
    destruct (Json.nameMatches "message" _) eqn:Em.
    + rewrite (nameMatches_message_code _ Em) in Ec. discriminate.
    + rewrite Ec. destruct (Json.memberValue m); reflexivity.
  - apply decodeMember_Code_miss, Ec.
Qed.

Lemma storeString_error (v : Json.value) (old : string) :
  snd (storeString v old) = None <-> stringOrNull v = true.
Proof. destruct v; simpl; split; intros H; (reflexivity || discriminate). Qed.

Lemma saveError_None (saved err : option error) :
  saveError saved err = None <-> saved = None /\ err = None.
Proof.
  destruct saved, err; simpl; split; try intros [H1 H2]; try discriminate; auto.
Qed.

Lemma decodeMember_error (e : APIError) saved m :
  snd (decodeMember (e, saved) m) = None
  <-> saved = None
      /\ (Json.nameMatches "message" (Json.memberKey m) = true
          \/ Json.nameMatches "code" (Json.memberKey m) = true ->
          stringOrNull (Json.memberValue m) = true).
Proof.
  unfold decodeMember.
  destruct (Json.nameMatches "message" _) eqn:Em.
  - pose proof (storeString_error (Json.memberValue m) (Message e)) as Hstore.
    destruct (storeString _ _) as [s err]. cbn [snd] in *.
    rewrite saveError_None, Hstore. split.
    + intros [Hs Hv]. split; [exact Hs | intros _; exact Hv].
    + intros [Hs Hv]. split; [exact Hs | apply Hv; left; reflexivity].
  - destruct (Json.nameMatches "code" _) eqn:Ec.
    + pose proof (storeString_error (Json.memberValue m) (Code e)) as Hstore.
      destruct (storeString _ _) as [s err]. cbn [snd] in *.
      rewrite saveError_None, Hstore. split.
      * intros [Hs Hv]. split; [exact Hs | intros _; exact Hv].
      * intros [Hs Hv]. split; [exact Hs | apply Hv; right; reflexivity].
    + assert (snd (if Json.nameMatches "raw" (Json.memberKey m)
                   then ({| StatusCode := StatusCode e; Message := Message e;
                            Code := Code e; Raw := Json.memberRaw m |}, saved)
                   else (e, saved)) = saved) as ->
        by (destruct (Json.nameMatches "raw" _); reflexivity).
      split.
      * intros Hs. split; [exact Hs | intros [H | H]; discriminate].
      * intros [Hs _]. exact Hs.
Qed.

Lemma fold_Message members (e : APIError) saved :
  Message (fst (fold_left decodeMember members (e, saved)))
  = fold_left keepString (fieldValues "message" members) (Message e).
Proof.
  revert e saved. induction members as [| m members IH]; intros e saved; cbn [fold_left].
  - reflexivity.
  - pose proof (decodeMember_Message e saved m) as Hstep.
    destruct (decodeMember (e, saved) m) as [e' saved'].
    rewrite IH, fieldValues_cons. simpl in Hstep. rewrite Hstep.
    destruct (Json.nameMatches "message" _); reflexivity.
Qed.

Lemma fold_Code members (e : APIError) saved :
  Code (fst (fold_left decodeMember members (e, saved)))
  = fold_left keepString (fieldValues "code" members) (Code e).
Proof.
  revert e saved. induction members as [| m members IH]; intros e saved; cbn [fold_left].
  - reflexivity.
  - pose proof (decodeMember_Code e saved m) as Hstep.
    destruct (decodeMember (e, saved) m) as [e' saved'].
    rewrite IH, fieldValues_cons. simpl in Hstep. rewrite Hstep.
    destruct (Json.nameMatches "code" _); reflexivity.
Qed.

Lemma fold_error members (e : APIError) saved :
  snd (fold_left decodeMember members (e, saved)) = None
  <-> saved = None
      /\ forallb stringOrNull (fieldValues "message" members) = true
      /\ forallb stringOrNull (fieldValues "code" members) = true.
Proof.
  revert e saved. induction members as [| m members IH]; intros e saved; cbn [fold_left].
  - simpl. split; [intros ->; repeat split | intros [-> _]; reflexivity].
  - pose proof (decodeMember_error e saved m) as Hstep.
    destruct (decodeMember (e, saved) m) as [e' saved'].
    rewrite IH. cbn [snd] in Hstep. rewrite Hstep, !fieldValues_cons.
    destruct (Json.nameMatches "message" (Json.memberKey m)) eqn:Em.
    + rewrite (nameMatches_message_code _ Em). cbn [forallb].
      rewrite andb_true_iff. intuition.
    + destruct (Json.nameMatches "code" (Json.memberKey m)) eqn:Ec; cbn [forallb];
        rewrite ?andb_true_iff; intuition discriminate.
Qed.

(** X2. How the body of an error response is decoded, for every body
    that is a JSON text. For an object the code is the last string among
    the members named [code], and empty without one; names match without
    regard to case and a null leaves the field as it is. When every
    member named [message] or [code] is a string or null, the message is
    found the same way and the body is kept as [Raw]; otherwise the
    message is the trimmed text of the body. The text [null] gives no
    message and no code and is kept as [Raw]; any other value gives the
    trimmed text as the message and no [Raw]. *)
Theorem error_body_decoding (status : Z) (body : bytes) (v : Json.value) :
  Json.parse body = Some v ->
  match v with
  | Json.Object members =>
      StatusCode (makeAPIError status body) = status
      /\ Code (makeAPIError status body)
         = fold_left keepString (fieldValues "code" members) EmptyString
      /\ if forallb stringOrNull (fieldValues "message" members)
            && forallb stringOrNull (fieldValues "code" members)
         then Message (makeAPIError status body)
              = fold_left keepString (fieldValues "message" members) EmptyString
              /\ Raw (makeAPIError status body) = body
         else Message (makeAPIError status body)
              = Strings.TrimSpace (string_of_list_byte body)
  | Json.Null =>
      makeAPIError status body
      = {| StatusCode := status; Message := EmptyString; Code := EmptyString;
           Raw := body |}
  | _ =>
      makeAPIError status body
      = {| StatusCode := status;
           Message := Strings.TrimSpace (string_of_list_byte body);
           Code := EmptyString; Raw := [] |}
  end.
Proof.
  intros Hparse. unfold makeAPIError.
  destruct body as [| b body]; [discriminate Hparse |].
  unfold Unmarshal, APIError_Unmarshaler. rewrite Hparse.
  destruct v as [| | | | | members]; try reflexivity.
  pose proof (fold_decodeMember_StatusCode members (emptyAPIError status, None)) as Hstatus.
  pose proof (fold_Message members (emptyAPIError status) None) as HM.
  pose proof (fold_Code members (emptyAPIError status) None) as HC.
  pose proof (fold_error members (emptyAPIError status) None) as Herr.
  unfold emptyAPIError in *.
  destruct (fold_left decodeMember members _) as [e [err |]]; cbn [fst snd] in *;
    (split; [exact Hstatus |]); (split; [exact HC |]).
  - destruct (forallb _ _ && forallb _ _) eqn:E; [| reflexivity].
    apply andb_true_iff in E as [E1 E2].
    assert (Some err = None) as Habs by (apply Herr; auto). discriminate Habs.
  - destruct Herr as [Herr _]. destruct (Herr eq_refl) as (_ & E1 & E2).
    rewrite E1, E2. split; [exact HM | reflexivity].
Qed.

Lemma makeAPIError_plain_text (status : Z) (body : bytes) :
  Json.parse body = None -> body <> [] ->
  makeAPIError status body
  = {| StatusCode := status; Message := Strings.TrimSpace (string_of_list_byte body);
       Code := EmptyString; Raw := [] |}.
Proof.
  intros Hparse Hne. unfold makeAPIError.
  destruct body as [| b body]; [contradiction |].
  unfold Unmarshal, APIError_Unmarshaler. rewrite Hparse. reflexivity.
Qed.

Lemma isEmpty_string_of_list_byte (l : bytes) :
  l <> [] -> isEmpty (string_of_list_byte l) = false.
Proof. destruct l; [contradiction | reflexivity]. Qed.

(** X3. The text of the error of a failed response: for an empty body
    the status text of [net/http] and the status; for an object with a
    message and a code, both not empty, the message, the status and the
    code; for a body that starts no JSON text and is not blank, its
    trimmed text and the status. *)
Theorem error_text_of_response (status : Z) :
  APIError_Error (makeAPIError status [])
  = "enzonix: " +:+ Http.StatusText status +:+ " (status=" +:+ pretty status +:+ ")"
  /\ (forall msg code newline,
        plain msg -> plain code -> msg <> [] -> code <> [] ->
        APIError_Error (makeAPIError status (structuredBody msg code newline))
        = "enzonix: " +:+ string_of_list_byte msg +:+ " (status=" +:+ pretty status
          +:+ ", code=" +:+ string_of_list_byte code +:+ ")")
  /\ (forall b rest,
        startsToken b = false ->
        Strings.TrimSpace (string_of_list_byte (b :: rest)) <> EmptyString ->
        APIError_Error (makeAPIError status (b :: rest))
        = "enzonix: " +:+ Strings.TrimSpace (string_of_list_byte (b :: rest))
          +:+ " (status=" +:+ pretty status +:+ ")").
Proof.
  split; [reflexivity |]. split.
  - intros msg code newline Hm Hc Hmsg Hcode.
    destruct (makeAPIError_structuredBody status msg code newline Hm Hc) as (HM & HC & _).
    unfold APIError_Error.
    rewrite HM, HC, makeAPIError_StatusCode,
      (isEmpty_string_of_list_byte msg Hmsg), (isEmpty_string_of_list_byte code Hcode).
    reflexivity.
  - intros b rest Hb Htext.
    rewrite (makeAPIError_plain_text status (b :: rest) (parse_not_JSON b rest Hb))
      by discriminate.
    unfold APIError_Error. cbn [Message Code StatusCode].
    destruct (isEmpty (Strings.TrimSpace _)) eqn:E; [| reflexivity].
    apply isEmpty_true in E. contradiction.
Qed.

Section Trimmed.

Context `{!Unmarshaler (list DomainAPI.Domain), !Unmarshaler DomainAPI.Domain,
          !Unmarshaler DomainAPI.NameserverCheckResponse,
          !Unmarshaler (list DomainAPI.Record_), !Unmarshaler DomainAPI.Record_,
          !Unmarshaler DomainAPI.BindImportResponse,
          !Unmarshaler DomainAPI.ClientProfile,
          !Marshaler (gmap string string),
          !Marshaler DomainAPI.CreateRecordRequest,
          !Marshaler DomainAPI.UpdateRecordRequest,
          !Unmarshaler ZoneAPI.recordsResponse, !Unmarshaler ZoneAPI.Record_,
          !Marshaler ZoneAPI.CreateRecordRequest,
          !Marshaler ZoneAPI.UpdateRecordRequest}.

(** X4. White space around a domain name or a zone name does not count:
    [CreateDomain] and the four calls of the zone API do on a name what
    they do on the trimmed name, and the path of a zone is the same. *)
Theorem names_are_sent_trimmed (name : string) :
  (forall ctx s,
     DomainAPI.CreateDomain ctx (Strings.TrimSpace name) s
     = DomainAPI.CreateDomain ctx name s)
  /\ ZoneAPI.zoneRecordsPath (Strings.TrimSpace name) = ZoneAPI.zoneRecordsPath name
  /\ (forall ctx opts s,
        ZoneAPI.ListRecords ctx (Strings.TrimSpace name) opts s
        = ZoneAPI.ListRecords ctx name opts s)
  /\ (forall ctx payload s,
        ZoneAPI.CreateRecord ctx (Strings.TrimSpace name) payload s
        = ZoneAPI.CreateRecord ctx name payload s)
  /\ (forall ctx id payload s,
        ZoneAPI.UpdateRecord ctx (Strings.TrimSpace name) id payload s
        = ZoneAPI.UpdateRecord ctx name id payload s)
  /\ (forall ctx id s,
        ZoneAPI.DeleteRecord ctx (Strings.TrimSpace name) id s
        = ZoneAPI.DeleteRecord ctx name id s).
Proof.
  assert (ZoneAPI.zoneRecordsPath (Strings.TrimSpace name) = ZoneAPI.zoneRecordsPath name)
    as Hpath.
  { unfold ZoneAPI.zoneRecordsPath, ZoneAPI.trimZone. rewrite TrimSpace_idem. reflexivity. }
  assert (ZoneAPI.requireZone (Strings.TrimSpace name) = ZoneAPI.requireZone name) as Hreq.
  { unfold ZoneAPI.requireZone. rewrite TrimSpace_idem. reflexivity. }
  split; [| split; [exact Hpath |]].
  - intros ctx s. unfold DomainAPI.CreateDomain. rewrite TrimSpace_idem. reflexivity.
  - unfold ZoneAPI.ListRecords, ZoneAPI.CreateRecord, ZoneAPI.UpdateRecord,
      ZoneAPI.DeleteRecord, ZoneAPI.zoneRecordPath.
    rewrite Hreq, Hpath. repeat split.
Qed.

End Trimmed.

(** An identifier keeps its surrounding white space, escaped. *)
Example identifier_is_sent_as_given :
  requireID " abc " "record id" = None
  /\ ZoneAPI.zoneRecordPath " example.com. " " abc "
     = "/zones/example.com/records/%20abc%20".
Proof. split; reflexivity. Qed.

(** ** Characters of escaped texts *)

Lemma allChars_app (P : ascii -> bool) (a b : string) :
  allChars P (a +:+ b) = allChars P a && allChars P b.
Proof.
  induction a as [| c a IH]; [reflexivity |].
  rewrite append_cons. simpl. rewrite IH, andb_assoc. reflexivity.
Qed.

Lemma allChars_impl (P Q : ascii -> bool) (s : string) :
  (forall c, P c = true -> Q c = true) -> allChars P s = true -> allChars Q s = true.
Proof.
  intros HPQ. induction s as [| c s IH]; [reflexivity |].
  simpl. intros H. apply andb_true_iff in H as [Hc Hs].
  rewrite (HPQ c Hc), (IH Hs). reflexivity.
Qed.

Ltac each_ascii c := destruct c as [[] [] [] [] [] [] [] []].

Lemma upperhex_safe (c : ascii) :
  urlSafe (Url.upperhex (Strings.code c / 16)) = true
  /\ urlSafe (Url.upperhex (Strings.code c mod 16)) = true.
Proof. each_ascii c; split; reflexivity. Qed.

Lemma segment_char_safe (c : ascii) :
  Url.shouldEscape c Url.encodePathSegment = false -> urlSafe c = true.
Proof. each_ascii c; intros H; try discriminate H; reflexivity. Qed.

Lemma query_char_safe (c : ascii) :
  Url.shouldEscape c Url.encodeQueryComponent = false -> urlSafe c = true.
Proof. each_ascii c; intros H; try discriminate H; reflexivity. Qed.

Lemma escape_cons (c : ascii) (s : string) (mode : Url.encoding) :
  Url.escape (String c s) mode
  = if Ascii.eqb c " " && Url.isMode mode Url.encodeQueryComponent
    then String "+" (Url.escape s mode)
    else if Url.shouldEscape c mode
    then String "%" (String (Url.upperhex (Strings.code c / 16))
                    (String (Url.upperhex (Strings.code c mod 16)) (Url.escape s mode)))
    else String c (Url.escape s mode).
Proof. reflexivity. Qed.

(** What [PathEscape] and [QueryEscape] write is safe. *)
Lemma PathEscape_safe (s : string) : allChars urlSafe (Url.PathEscape s) = true.
Proof.
  unfold Url.PathEscape. induction s as [| c s IH]; [reflexivity |].
  rewrite escape_cons. cbn [Url.isMode]. rewrite andb_false_r.
  destruct (Url.shouldEscape c Url.encodePathSegment) eqn:E.
  - destruct (upperhex_safe c) as [H1 H2]. cbn [allChars]. rewrite H1, H2, IH. reflexivity.
  - cbn [allChars]. rewrite (segment_char_safe c E), IH. reflexivity.
Qed.

Lemma QueryEscape_safe (s : string) : allChars urlSafe (Url.QueryEscape s) = true.
Proof.
  unfold Url.QueryEscape. induction s as [| c s IH]; [reflexivity |].
  rewrite escape_cons. cbn [Url.isMode]. rewrite andb_true_r.
  destruct (Ascii.eqb c " "); [cbn [allChars]; rewrite IH; reflexivity |].
  destruct (Url.shouldEscape c Url.encodeQueryComponent) eqn:E.
  - destruct (upperhex_safe c) as [H1 H2]. cbn [allChars]. rewrite H1, H2, IH. reflexivity.
  - cbn [allChars]. rewrite (query_char_safe c E), IH. reflexivity.
Qed.

(** A safe text holds no control character, number sign or question
    mark, and is validly encoded. *)
Lemma safe_not_CTL (s : string) :
  allChars urlSafe s = true -> Url.stringContainsCTLByte s = false.
Proof.
  induction s as [| c s IH]; [reflexivity |].
  simpl. intros H. apply andb_true_iff in H as [Hc Hs]. rewrite (IH Hs).
  revert Hc. each_ascii c; intros Hc; try discriminate Hc; reflexivity.
Qed.

Lemma safe_absent (sep : ascii) (s : string) :
  urlSafe sep = false -> allChars urlSafe s = true -> Strings.ContainsByte s sep = false.
Proof.
  intros Hsep. induction s as [| c s IH]; [reflexivity |].
  simpl. intros H. apply andb_true_iff in H as [Hc Hs]. rewrite (IH Hs).
  destruct (Ascii.eqb_spec c sep) as [-> | Hne]; [congruence | reflexivity].
Qed.

Lemma safe_validEncoded (s : string) :
  allChars urlSafe s = true -> Url.validEncoded s Url.encodePath = true.
Proof.
  induction s as [| c s IH]; [reflexivity |].
  simpl. intros H. apply andb_true_iff in H as [Hc Hs]. rewrite (IH Hs), andb_true_r.
  revert Hc. each_ascii c; intros Hc; try discriminate Hc; reflexivity.
Qed.

(** ** [Cut], [Split] and suffixes *)

Lemma ContainsByte_app (a b : string) (c : ascii) :
  Strings.ContainsByte (a +:+ b) c = Strings.ContainsByte a c || Strings.ContainsByte b c.
Proof.
  induction a as [| x a IH]; [reflexivity |].
  rewrite append_cons. simpl. rewrite IH, orb_assoc. reflexivity.
Qed.

Lemma Cut_absent (s : string) (sep : ascii) :
  Strings.ContainsByte s sep = false -> Strings.Cut s sep = (s, EmptyString, false).
Proof.
  induction s as [| c s IH]; [reflexivity |].
  simpl. intros H. apply orb_false_iff in H as [Hc Hs].
  rewrite Hc, (IH Hs). reflexivity.
Qed.

Lemma Cut_app (a b : string) (sep : ascii) :
  Strings.ContainsByte a sep = false ->
  Strings.Cut (a +:+ String sep b) sep = (a, b, true).
Proof.
  induction a as [| c a IH]; intros H.
  - rewrite append_nil, Cut_cons, Ascii.eqb_refl. reflexivity.
  - simpl in H. apply orb_false_iff in H as [Hc Ha].
    rewrite append_cons, Cut_cons, Hc, (IH Ha). reflexivity.
Qed.

Lemma HasSuffix_absent (s : string) (c : ascii) :
  Strings.ContainsByte s c = false -> Strings.HasSuffix s (String c EmptyString) = false.
Proof.
  intros H. destruct (Strings.HasSuffix s (String c EmptyString)) eqn:E; [| reflexivity].
  apply TrimSuffix_app in E. rewrite E, ContainsByte_app in H.
  apply orb_false_iff in H as [_ H]. simpl in H. rewrite Ascii.eqb_refl in H. discriminate H.
Qed.

Lemma ContainsByte_rev (s : string) (c : ascii) :
  Strings.ContainsByte (Strings.rev s) c = Strings.ContainsByte s c.
Proof.
  induction s as [| x s IH]; [reflexivity |].
  change (String x s) with (String x EmptyString +:+ s) at 1.
  rewrite rev_app, ContainsByte_app, IH.
  change (Strings.rev (String x EmptyString)) with (String x EmptyString).
  simpl. rewrite orb_false_r. apply orb_comm.
Qed.

(** A text that ends with a text without question mark does not end with
    one. *)
Lemma HasSuffix_app_absent (a q : string) :
  q <> EmptyString -> Strings.ContainsByte q "?" = false ->
  Strings.HasSuffix (a +:+ q) "?" = false.
Proof.
  intros Hne Hq. unfold Strings.HasSuffix. rewrite rev_app.
  change (Strings.rev "?") with "?".
  rewrite <- ContainsByte_rev in Hq.
  destruct (Strings.rev q) as [| x r] eqn:Hr.
  - exfalso. apply Hne. rewrite <- (rev_rev q), Hr. reflexivity.
  - cbn [Strings.ContainsByte] in Hq. apply orb_false_iff in Hq as [Hx _].
    rewrite append_cons. cbn [Strings.HasPrefix]. rewrite Ascii.eqb_sym, Hx. reflexivity.
Qed.

Lemma Split_cons (c : ascii) (s : string) (sep : ascii) :
  Url.Split (String c s) sep
  = if Ascii.eqb c sep then EmptyString :: Url.Split s sep
    else match Url.Split s sep with
         | h :: t => String c h :: t
         | [] => [String c EmptyString]
         end.
Proof. reflexivity. Qed.

Lemma Split_absent (s : string) (sep : ascii) :
  Strings.ContainsByte s sep = false -> Url.Split s sep = [s].
Proof.
  induction s as [| c s IH]; [reflexivity |].
  simpl. intros H. apply orb_false_iff in H as [Hc Hs].
  rewrite Hc, (IH Hs). reflexivity.
Qed.

Lemma Split_app (a b : string) (sep : ascii) :
  Strings.ContainsByte a sep = false ->
  Url.Split (a +:+ String sep b) sep = a :: Url.Split b sep.
Proof.
  induction a as [| c a IH]; intros H.
  - rewrite append_nil, Split_cons, Ascii.eqb_refl. reflexivity.
  - simpl in H. apply orb_false_iff in H as [Hc Ha].
    rewrite append_cons, Split_cons, Hc, (IH Ha). reflexivity.
Qed.

Lemma Split_nonempty (s : string) (sep : ascii) :
  exists h t, Url.Split s sep = h :: t.
Proof.
  induction s as [| c s [h [t IH]]]; [do 2 eexists; reflexivity |].
  rewrite Split_cons, IH. destruct (Ascii.eqb c sep); do 2 eexists; reflexivity.
Qed.

(** Joining what [Split] returns gives the text back. *)
Lemma join_Split (s : string) : Url.join "/" (Url.Split s "/") = s.
Proof.
  induction s as [| c s IH]; [reflexivity |].
  rewrite Split_cons. destruct (Split_nonempty s "/") as [h [t E]]. rewrite E in *.
  destruct (Ascii.eqb_spec c "/") as [-> | Hne].
  - change (Url.join "/" (EmptyString :: h :: t))
      with (EmptyString +:+ "/" +:+ Url.join "/" (h :: t)).
    rewrite IH. reflexivity.
  - destruct t as [| h' t].
    + simpl in IH. subst s. reflexivity.
    + change (Url.join "/" (String c h :: h' :: t))
        with (String c h +:+ "/" +:+ Url.join "/" (h' :: t)).
      change (Url.join "/" (h :: h' :: t))
        with (h +:+ "/" +:+ Url.join "/" (h' :: t)) in IH.
      rewrite append_cons, IH. reflexivity.
Qed.

(** ** [resolvePath] on a path without dot segments *)

Lemma append_assoc (a b c : string) : (a +:+ b) +:+ c = a +:+ (b +:+ c).
Proof. induction a as [| x a IH]; [reflexivity |]. rewrite !append_cons, IH. reflexivity. Qed.

Lemma append_empty_r (a : string) : a +:+ EmptyString = a.
Proof. induction a as [| x a IH]; [reflexivity |]. rewrite append_cons, IH. reflexivity. Qed.

Lemma resolveStep_plain (dst : string) (first : bool) (elem : string) :
  dotSegment elem = false ->
  Url.resolveStep (dst, first) elem
  = ((if first then dst else dst +:+ "/") +:+ elem, false).
Proof.
  unfold dotSegment, Url.resolveStep. intros H. apply orb_false_iff in H as [H1 H2].
  rewrite H1, H2. reflexivity.
Qed.

Lemma fold_resolveStep_plain (elem : string) (elems : list string) (dst : string)
    (first : bool) :
  Forall (fun e => dotSegment e = false) (elem :: elems) ->
  fold_left Url.resolveStep (elem :: elems) (dst, first)
  = ((if first then dst else dst +:+ "/") +:+ Url.join "/" (elem :: elems), false).
Proof.
  revert elem dst first. induction elems as [| e' elems IH]; intros elem dst first Hall.
  - apply Forall_cons in Hall as [He _]. cbn [fold_left].
    rewrite (resolveStep_plain _ _ _ He). reflexivity.
  - apply Forall_cons in Hall as [He Hall].
    change (fold_left Url.resolveStep (elem :: e' :: elems) (dst, first))
      with (fold_left Url.resolveStep (e' :: elems) (Url.resolveStep (dst, first) elem)).
    rewrite (resolveStep_plain _ _ _ He), (IH e' _ false Hall).
    change (Url.join "/" (elem :: e' :: elems))
      with (elem +:+ "/" +:+ Url.join "/" (e' :: elems)).
    rewrite !append_assoc. reflexivity.
Qed.

Lemma last_Forall {A : Type} (P : A -> Prop) (l : list A) (d : A) :
  l <> [] -> Forall P l -> P (List.last l d).
Proof.
  induction l as [| x l IH]; intros Hne Hall; [contradiction |].
  apply Forall_cons in Hall as [Hx Hall].
  destruct l as [| y l]; [exact Hx |].
  apply IH; [discriminate | exact Hall].
Qed.

(** A path that starts with a slash and has no dot segment is resolved
    to itself, whatever the base. *)
Lemma resolvePath_dotFree (base path : string) :
  Strings.HasPrefix path "/" = true -> dotFree path ->
  Url.resolvePath base path = path.
Proof.
  intros Hslash Hdots. unfold Url.resolvePath.
  destruct path as [| c path]; [discriminate Hslash |].
  cbn [isEmpty negb]. rewrite Hslash. cbn [negb isEmpty].
  destruct (Split_nonempty (String c path) "/") as [h [t Hsplit]].
  unfold dotFree in Hdots. rewrite Hsplit in *.
  rewrite (fold_resolveStep_plain h t "/" true Hdots).
  pose proof (last_Forall _ (h :: t) EmptyString ltac:(discriminate) Hdots) as Hlast.
  unfold dotSegment in Hlast. rewrite Hlast.
  rewrite <- Hsplit, join_Split.
  change (Strings.drop 1 ("/" +:+ String c path)) with (String c path).
  rewrite Hslash. reflexivity.
Qed.

(** ** [unescape] *)

Lemma hex_round_trip (c : ascii) :
  Url.ishex (Url.upperhex (Strings.code c / 16)) = true
  /\ Url.ishex (Url.upperhex (Strings.code c mod 16)) = true
  /\ ascii_of_N (Url.unhex (Url.upperhex (Strings.code c / 16)) * 16
                 + Url.unhex (Url.upperhex (Strings.code c mod 16))) = c.
Proof. each_ascii c; repeat split. Qed.

Lemma unescape_percent (mode : Url.encoding) (h1 h2 : ascii) (s : string) :
  notHostMode mode -> Url.ishex h1 = true -> Url.ishex h2 = true ->
  Url.unescape (String "%" (String h1 (String h2 s))) mode
  = match Url.unescape s mode with
    | inl t => inl (String (ascii_of_N (Url.unhex h1 * 16 + Url.unhex h2)) t)
    | inr e => inr e
    end.
Proof.
  intros [Hhost Hzone] H1 H2. cbn [Url.unescape].
  change (Ascii.eqb "%" "%") with true. cbv iota.
  rewrite H1, H2, Hhost, Hzone. reflexivity.
Qed.

Lemma unescape_cons (mode : Url.encoding) (c : ascii) (s : string) :
  notHostMode mode -> Ascii.eqb c "%" = false ->
  Url.unescape (String c s) mode
  = match Url.unescape s mode with
    | inl t =>
        inl (String (if Ascii.eqb c "+" && Url.isMode mode Url.encodeQueryComponent
                     then " "%char else c) t)
    | inr e => inr e
    end.
Proof.
  intros [Hhost Hzone] Hc. cbn [Url.unescape]. rewrite Hc, Hhost, Hzone.
  destruct (Ascii.eqb c "+") eqn:Hplus.
  - destruct (Url.unescape s mode); [| reflexivity].
    destruct (Url.isMode mode Url.encodeQueryComponent); reflexivity.
  - destruct (Url.unescape s mode); reflexivity.
Qed.

Lemma percent_is_escaped (mode : Url.encoding) (c : ascii) :
  Url.shouldEscape c mode = false -> Ascii.eqb c "%" = false.
Proof.
  destruct (Ascii.eqb_spec c "%") as [-> | Hne]; [| reflexivity].
  destruct mode; intros H; discriminate H.
Qed.

(** Unescaping what [escape] wrote gives the text back. *)
Lemma unescape_escape (from to : Url.encoding) (s : string) :
  Url.isMode from Url.encodeQueryComponent = false ->
  Url.isMode to Url.encodeQueryComponent = false ->
  notHostMode to ->
  Url.unescape (Url.escape s from) to = inl s.
Proof.
  intros Hfrom Hto Hmode. induction s as [| c s IH]; [reflexivity |].
  rewrite escape_cons, Hfrom, andb_false_r.
  destruct (Url.shouldEscape c from) eqn:E.
  - destruct (hex_round_trip c) as (H1 & H2 & Hc).
    rewrite (unescape_percent to _ _ _ Hmode H1 H2), IH, Hc. reflexivity.
  - rewrite (unescape_cons to c _ Hmode (percent_is_escaped from c E)), IH, Hto,
      andb_false_r. reflexivity.
Qed.

Lemma QueryUnescape_QueryEscape (s : string) :
  Url.unescape (Url.QueryEscape s) Url.encodeQueryComponent = inl s.
Proof.
  assert (notHostMode Url.encodeQueryComponent) as Hmode by (split; reflexivity).
  unfold Url.QueryEscape. induction s as [| c s IH]; [reflexivity |].
  rewrite escape_cons. cbn [Url.isMode]. rewrite andb_true_r.
  destruct (Ascii.eqb_spec c " ") as [-> | Hspace].
  - rewrite (unescape_cons _ "+" _ Hmode eq_refl), IH. reflexivity.
  - destruct (Url.shouldEscape c Url.encodeQueryComponent) eqn:E.
    + destruct (hex_round_trip c) as (H1 & H2 & Hc).
      rewrite (unescape_percent _ _ _ _ Hmode H1 H2), IH, Hc. reflexivity.
    + rewrite (unescape_cons _ c _ Hmode (percent_is_escaped _ c E)), IH.
      assert (Ascii.eqb c "+" = false) as ->; [| reflexivity].
      destruct (Ascii.eqb_spec c "+") as [-> | Hne]; [discriminate E | reflexivity].
Qed.

(** A text that can be unescaped can be unescaped piece by piece. *)
Lemma unescape_app (mode : Url.encoding) (a b a' b' : string) :
  notHostMode mode ->
  Url.unescape a mode = inl a' -> Url.unescape b mode = inl b' ->
  Url.unescape (a +:+ b) mode = inl (a' +:+ b').
Proof.
  intros Hmode. remember (String.length a) as n eqn:Hn. revert a a' Hn.
  induction n as [n IH] using lt_wf_ind. intros a a' Hn Ha Hb.
  destruct a as [| c a1].
  - injection Ha as <-. exact Hb.
  - simpl in Hn. destruct (Ascii.eqb_spec c "%") as [-> | Hne].
    + destruct a1 as [| h1 [| h2 a3]]; try discriminate Ha.
      destruct (Url.ishex h1) eqn:H1; [| cbn [Url.unescape] in Ha;
        change (Ascii.eqb "%" "%") with true in Ha; cbv iota in Ha;
        rewrite H1 in Ha; discriminate Ha].
      destruct (Url.ishex h2) eqn:H2; [| cbn [Url.unescape] in Ha;
        change (Ascii.eqb "%" "%") with true in Ha; cbv iota in Ha;
        rewrite H1, H2 in Ha; discriminate Ha].
      rewrite (unescape_percent mode _ _ _ Hmode H1 H2) in Ha.
      rewrite !append_cons, (unescape_percent mode _ _ _ Hmode H1 H2).
      destruct (Url.unescape a3 mode) as [t |] eqn:E; [| discriminate Ha].
      injection Ha as <-.
      rewrite (IH (String.length a3) ltac:(simpl in Hn; lia) a3 t eq_refl E Hb).
      reflexivity.
    + apply Ascii.eqb_neq in Hne.
      rewrite (unescape_cons mode c _ Hmode Hne) in Ha.
      rewrite append_cons, (unescape_cons mode c _ Hmode Hne).
      destruct (Url.unescape a1 mode) as [t |] eqn:E; [| discriminate Ha].
      injection Ha as <-.
      rewrite (IH (String.length a1) ltac:(lia) a1 t eq_refl E Hb). reflexivity.
Qed.

(** ** From a path to the URL of the request *)

Section CleanPath.

Variables (c : ascii) (written decoded : string).
Hypothesis Hstart : segmentStart c.
Hypothesis Hrooted : rooted c written.
Hypothesis Hsafe : allChars urlSafe written = true.
Hypothesis Hdecoded : Url.unescape written Url.encodePath = inl decoded.

Lemma clean_HasPrefix : Strings.HasPrefix written "/" = true.
Proof. destruct Hrooted as [rest ->]. reflexivity. Qed.

Lemma clean_not_double : Strings.HasPrefix written "//" = false.
Proof.
  destruct Hrooted as [rest ->]. destruct Hstart as [Hslash _].
  cbn [Strings.HasPrefix]. rewrite Hslash. reflexivity.
Qed.

Lemma clean_decoded_slash : exists t, decoded = String "/" t.
Proof.
  destruct Hrooted as [rest Hw]. rewrite Hw, unescape_slash in Hdecoded.
  destruct (Url.unescape _ _) as [t |]; [| discriminate].
  injection Hdecoded as <-. eexists. reflexivity.
Qed.

Lemma setPath_clean (u : Url.URL) :
  Url.setPath u written
  = inl (Url.withPath u decoded
           (if String.eqb written (Url.escape decoded Url.encodePath)
            then EmptyString else written)).
Proof. unfold Url.setPath, Url.bindE. rewrite Hdecoded. reflexivity. Qed.

Lemma parse_of_clean : Url.parse written = inl (urlOf EmptyString EmptyString decoded written EmptyString).
Proof.
  unfold Url.parse. rewrite (safe_not_CTL _ Hsafe).
  assert (String.eqb written "*" = false) as ->
    by (destruct Hrooted as [rest ->]; reflexivity).
  assert (Url.getScheme written = Url.noScheme) as ->
    by (destruct Hrooted as [rest ->]; reflexivity).
  rewrite (HasSuffix_absent written "?" (safe_absent "?" _ eq_refl Hsafe)).
  rewrite (Cut_absent written "?" (safe_absent "?" _ eq_refl Hsafe)).
  cbn [andb]. cbv iota beta. rewrite clean_HasPrefix.
  cbn [negb andb orb isEmpty].
  assert (Strings.HasPrefix written "///" = false) as ->.
  { destruct Hrooted as [rest ->]. destruct Hstart as [Hslash _].
    cbn [Strings.HasPrefix]. rewrite Hslash. reflexivity. }
  rewrite clean_not_double. cbn [negb andb orb].
  rewrite setPath_clean. reflexivity.
Qed.

Lemma Parse_clean : Url.Parse written = inl (urlOf EmptyString EmptyString decoded written EmptyString).
Proof.
  unfold Url.Parse. rewrite (Cut_absent written "#" (safe_absent "#" _ eq_refl Hsafe)).
  rewrite parse_of_clean. reflexivity.
Qed.

(** The path is written in the URL as it was given. *)
Lemma EscapedPath_clean (scheme host query : string) :
  Url.EscapedPath (urlOf scheme host decoded written query) = written.
Proof.
  unfold Url.EscapedPath, urlOf. cbn [Url.RawPath Url.Path].
  destruct (String.eqb_spec written (Url.escape decoded Url.encodePath)) as [Heq | Hne].
  - cbn [isEmpty negb andb].
    destruct clean_decoded_slash as [t Ht]. rewrite Ht at 1.
    change (String.eqb (String "/" t) "*") with false. cbv iota. symmetry. exact Heq.
  - destruct written as [| x w] eqn:Hw; [destruct Hrooted as [rest Hr]; discriminate Hr |].
    cbn [isEmpty negb]. rewrite <- Hw in *.
    rewrite (safe_validEncoded _ Hsafe), Hdecoded, String.eqb_refl. reflexivity.
Qed.

(** Against a base without user information the reference takes the
    scheme and the host of the base. *)
Lemma ResolveReference_clean (u : Url.URL) :
  dotFree written -> Url.User u = None ->
  Url.ResolveReference u (urlOf EmptyString EmptyString decoded written EmptyString)
  = urlOf (Url.Scheme u) (Url.Host u) decoded written EmptyString.
Proof.
  intros Hdots Huser.
  pose proof (EscapedPath_clean EmptyString EmptyString EmptyString) as Hescaped.
  remember (urlOf EmptyString EmptyString decoded written EmptyString) as ref eqn:Href.
  assert (Url.Scheme ref = EmptyString /\ Url.Opaque ref = EmptyString
          /\ Url.User ref = None /\ Url.Host ref = EmptyString
          /\ Url.Path ref = decoded /\ Url.ForceQuery ref = false
          /\ Url.RawQuery ref = EmptyString /\ Url.Fragment ref = EmptyString
          /\ Url.RawFragment ref = EmptyString /\ Url.OmitHost ref = false)
    as (Hs & Ho & Hu & Hh & Hp & Hf & Hq & Hfr & Hrf & Hom)
    by (subst ref; repeat split).
  unfold Url.ResolveReference.
  rewrite Hescaped, (resolvePath_dotFree _ written clean_HasPrefix Hdots).
  rewrite Hs, Ho, Hu, Hh, Hp, Hf, Hq, Hfr, Hrf, Hom.
  destruct clean_decoded_slash as [t Ht].
  assert (isEmpty decoded = false) as -> by (rewrite Ht; reflexivity).
  cbn [isEmpty negb andb orb].
  rewrite !bool_decide_eq_false_2 by (intros [x Hx]; discriminate).
  cbn [Url.Scheme Url.Opaque Url.User Url.Host Url.Path Url.RawPath Url.OmitHost
       Url.ForceQuery Url.RawQuery Url.Fragment Url.RawFragment isEmpty negb andb orb].
  unfold Url.setPathOrKeep. rewrite setPath_clean, Huser. reflexivity.
Qed.

(** The text of the URL: the default base, the path as written, the
    query after a question mark when there is one. *)
Lemma String_clean (query : string) :
  Url.String (urlOf "https" "api.ns.enzonix.com" decoded written query)
  = "https://api.ns.enzonix.com" +:+ written
    +:+ (if isEmpty query then EmptyString else "?" +:+ query).
Proof.
  unfold Url.String. rewrite EscapedPath_clean.
  unfold urlOf.
  cbn [Url.Scheme Url.Opaque Url.User Url.Host Url.Path Url.RawPath Url.OmitHost
       Url.ForceQuery Url.RawQuery Url.Fragment Url.RawFragment isEmpty negb andb orb].
  rewrite clean_HasPrefix. cbn [negb andb orb].
  rewrite ?bool_decide_eq_false_2 by (intros [x Hx]; discriminate).
  rewrite ?bool_decide_eq_true_2 by reflexivity.
  cbn [isEmpty negb andb orb].
  change (Url.escape "api.ns.enzonix.com" Url.encodeHost) with "api.ns.enzonix.com".
  rewrite andb_false_r, !append_empty_r. cbn [andb].
  destruct (isEmpty query); reflexivity.
Qed.

Lemma CTL_app (a b : string) :
  Url.stringContainsCTLByte (a +:+ b)
  = Url.stringContainsCTLByte a || Url.stringContainsCTLByte b.
Proof.
  induction a as [| x a IH]; [reflexivity |].
  rewrite append_cons. simpl. rewrite IH, !orb_assoc. reflexivity.
Qed.

(** Reading the text back gives the URL. *)
Lemma Parse_String_clean (query : string) :
  allChars urlSafe query = true ->
  Url.Parse ("https://api.ns.enzonix.com" +:+ written
             +:+ (if isEmpty query then EmptyString else "?" +:+ query))
  = inl (urlOf "https" "api.ns.enzonix.com" decoded written query).
Proof.
  intros Hquery.
  pose proof (safe_absent "#" _ eq_refl Hsafe) as Hhash.
  pose proof (safe_absent "?" _ eq_refl Hsafe) as Hmark.
  pose proof (safe_absent "#" _ eq_refl Hquery) as Hqhash.
  pose proof (safe_absent "?" _ eq_refl Hquery) as Hqmark.
  pose proof (safe_not_CTL _ Hsafe) as Hctl.
  pose proof (safe_not_CTL _ Hquery) as Hqctl.
  set (tail := if isEmpty query then EmptyString else "?" +:+ query).
  assert (Strings.ContainsByte tail "#" = false) as Htail.
  { subst tail. destruct (isEmpty query); [reflexivity |].
    rewrite ContainsByte_app, Hqhash. reflexivity. }
  assert (Url.stringContainsCTLByte tail = false) as Htailctl.
  { subst tail. destruct (isEmpty query); [reflexivity |].
    rewrite CTL_app, Hqctl. reflexivity. }
  unfold Url.Parse. rewrite Cut_absent
    by (rewrite !ContainsByte_app, Hhash, Htail; reflexivity).
  unfold Url.bindE, Url.parse.
  rewrite !CTL_app, Hctl, Htailctl.
  change (Url.stringContainsCTLByte "https://api.ns.enzonix.com") with false.
  cbn [orb].
  change (String.eqb ("https://api.ns.enzonix.com" +:+ written +:+ tail) "*") with false.
  change (Url.getScheme ("https://api.ns.enzonix.com" +:+ written +:+ tail))
    with (Url.scheme "https" ("//api.ns.enzonix.com" +:+ written +:+ tail)).
  cbv iota beta. change (Strings.ToLowerASCII "https") with "https".
  assert ((if Strings.HasSuffix ("//api.ns.enzonix.com" +:+ written +:+ tail) "?"
              && Nat.eqb (Strings.CountByte ("//api.ns.enzonix.com" +:+ written +:+ tail) "?") 1
           then (Strings.TrimSuffix ("//api.ns.enzonix.com" +:+ written +:+ tail) "?",
                 true, EmptyString)
           else let '(before, after, _) :=
                  Strings.Cut ("//api.ns.enzonix.com" +:+ written +:+ tail) "?" in
                (before, false, after))
          = ("//api.ns.enzonix.com" +:+ written, false, query)) as ->.
  { subst tail. destruct query as [| x q].
    - cbn [isEmpty]. rewrite append_empty_r.
      rewrite HasSuffix_absent by (rewrite ContainsByte_app, Hmark; reflexivity).
      rewrite Cut_absent by (rewrite ContainsByte_app, Hmark; reflexivity).
      reflexivity.
    - cbn [isEmpty].
      rewrite <- (append_assoc "//api.ns.enzonix.com" written), <- append_assoc.
      rewrite HasSuffix_app_absent by (discriminate || exact Hqmark).
      rewrite append_assoc.
      change ("?" +:+ String x q) with (String "?" (String x q)).
      rewrite Cut_app by (rewrite ContainsByte_app, Hmark; reflexivity).
      reflexivity. }
  destruct Hrooted as [rest Hw].
  change (Strings.HasPrefix ("//api.ns.enzonix.com" +:+ written) "/") with true.
  change (Strings.HasPrefix ("//api.ns.enzonix.com" +:+ written) "//") with true.
  cbn [negb andb orb isEmpty].
  change (Strings.drop 2 ("//api.ns.enzonix.com" +:+ written))
    with ("api.ns.enzonix.com" +:+ written).
  rewrite Hw at 1.
  rewrite (Cut_app "api.ns.enzonix.com" (String c rest) "/" eq_refl).
  rewrite <- Hw.
  change (Url.parseAuthority "api.ns.enzonix.com") with
    (@inl (option Url.Userinfo * string) string (None, "api.ns.enzonix.com")).
  unfold Url.bindE. rewrite setPath_clean. reflexivity.
Qed.

End CleanPath.

(** ** The query of [ListRecords] *)

Lemma pretty_N_char_digit (x : N) : Url.isDigit (pretty_N_char x) = true.
Proof. unfold pretty_N_char. repeat case_match; reflexivity. Qed.

Lemma digit_not_escaped (d : ascii) (mode : Url.encoding) :
  Url.isDigit d = true -> Url.shouldEscape d mode = false.
Proof. intros H. unfold Url.shouldEscape. rewrite H, orb_true_r. reflexivity. Qed.

Lemma escape_pretty_N_go (mode : Url.encoding) (x : N) (s : string) :
  Url.escape s mode = s -> Url.escape (pretty_N_go x s) mode = pretty_N_go x s.
Proof.
  revert s. induction (N.lt_wf_0 x) as [x _ IH]; intros s Hs.
  destruct (N.eq_dec x 0%N) as [-> | Hx]; [rewrite pretty_N_go_0; exact Hs |].
  rewrite pretty_N_go_step by lia.
  apply IH; [apply N.div_lt; lia |].
  rewrite escape_cons.
  assert (Ascii.eqb (pretty_N_char (x `mod` 10)%N) " " = false) as ->.
  { pose proof (pretty_N_char_digit (x `mod` 10)%N) as Hd.
    destruct (Ascii.eqb_spec (pretty_N_char (x `mod` 10)%N) " ") as [E | E];
      [| reflexivity].
    rewrite E in Hd. discriminate Hd. }
  cbn [andb].
  rewrite (digit_not_escaped _ mode (pretty_N_char_digit _)), Hs. reflexivity.
Qed.

(** A positive number is written with digits only, which are not escaped. *)
Lemma QueryEscape_Itoa (n : Z) : 0 < n -> Url.QueryEscape (ZoneAPI.Itoa n) = ZoneAPI.Itoa n.
Proof.
  intros Hn. destruct n as [| p | p]; try lia.
  unfold ZoneAPI.Itoa, pretty, pretty_Z, pretty, pretty_positive, pretty, pretty_N.
  rewrite decide_False by discriminate.
  apply escape_pretty_N_go. reflexivity.
Qed.

Lemma lookup_ValuesSet (v : gmap string (list string)) (key value other : string) :
  Url.ValuesSet v key value !! other
  = if String.eqb key other then Some [value] else v !! other.
Proof.
  unfold Url.ValuesSet. destruct (String.eqb_spec key other) as [-> | Hne].
  - apply lookup_insert_eq.
  - apply lookup_insert_ne, Hne.
Qed.

Lemma listQuery_Encode (opts : ZoneAPI.ListRecordsOptions) :
  Url.Encode (ZoneAPI.listQuery (Some opts)) = Url.join "&" (queryParts opts).
Proof.
  unfold queryParts.
  destruct (0 <? ZoneAPI.Page opts) eqn:Hpage;
    [rewrite <- (QueryEscape_Itoa _ (proj1 (Z.ltb_lt _ _) Hpage)) |];
    (destruct (0 <? ZoneAPI.PerPage opts) eqn:Hper;
     [rewrite <- (QueryEscape_Itoa (ZoneAPI.PerPage opts) (proj1 (Z.ltb_lt _ _) Hper)) |]);
    unfold ZoneAPI.listQuery; rewrite Hpage, Hper;
    generalize (ZoneAPI.Itoa (ZoneAPI.Page opts)) (ZoneAPI.Itoa (ZoneAPI.PerPage opts));
    intros page perPage;
    destruct (negb (isEmpty (ZoneAPI.OptName opts))),
             (negb (isEmpty (ZoneAPI.OptType opts)));
    generalize (ZoneAPI.OptName opts) (ZoneAPI.OptType opts); intros name type;
    unfold Url.Encode;
    match goal with
    | |- context [@merge_sort ?A ?R ?D ?l] =>
        let keys := eval vm_compute in (@merge_sort A R D l) in
        change (@merge_sort A R D l) with keys
    end;
    cbn [flat_map map app];
    rewrite ?lookup_ValuesSet, ?lookup_empty; cbn [String.eqb Ascii.eqb Bool.eqb default];
    reflexivity.
Qed.

(** ** Paths made of escaped segments *)

Lemma join_cons (sep x y : string) (l : list string) :
  Url.join sep (x :: y :: l) = x +:+ sep +:+ Url.join sep (y :: l).
Proof. reflexivity. Qed.

Lemma upperhex_not_slash (c : ascii) :
  Ascii.eqb (Url.upperhex (Strings.code c / 16)) "/" = false
  /\ Ascii.eqb (Url.upperhex (Strings.code c mod 16)) "/" = false.
Proof. each_ascii c; split; reflexivity. Qed.

(** An escaped segment holds no slash. *)
Lemma PathEscape_no_slash (s : string) :
  Strings.ContainsByte (Url.PathEscape s) "/" = false.
Proof.
  unfold Url.PathEscape. induction s as [| c s IH]; [reflexivity |].
  rewrite escape_cons. cbn [Url.isMode]. rewrite andb_false_r.
  destruct (Url.shouldEscape c Url.encodePathSegment) eqn:E.
  - destruct (upperhex_not_slash c) as [H1 H2].
    cbn [Strings.ContainsByte]. rewrite H1, H2, IH. reflexivity.
  - cbn [Strings.ContainsByte]. rewrite IH, orb_false_r.
    destruct (Ascii.eqb_spec c "/") as [-> | Hne]; [discriminate E | reflexivity].
Qed.

Lemma PathUnescape_PathEscape (s : string) :
  Url.unescape (Url.PathEscape s) Url.encodePathSegment = inl s.
Proof. apply unescape_escape; [reflexivity | reflexivity | split; reflexivity]. Qed.

Lemma PathEscape_inj (s t : string) : Url.PathEscape s = Url.PathEscape t -> s = t.
Proof.
  intros H. pose proof (PathUnescape_PathEscape s) as Hs.
  rewrite H, PathUnescape_PathEscape in Hs. congruence.
Qed.

Lemma PathEscape_dotSegment (s : string) :
  dotSegment s = false -> dotSegment (Url.PathEscape s) = false.
Proof.
  intros Hs. destruct (dotSegment (Url.PathEscape s)) eqn:E; [| reflexivity].
  unfold dotSegment in E. apply orb_true_iff in E as [E | E]; apply String.eqb_eq in E.
  - apply (PathEscape_inj s ".") in E. subst s. discriminate Hs.
  - apply (PathEscape_inj s "..") in E. subst s. discriminate Hs.
Qed.

Lemma join_safe (segments : list string) :
  allChars urlSafe (Url.join "/" (map Url.PathEscape segments)) = true.
Proof.
  induction segments as [| x [| y l] IH]; [reflexivity | apply PathEscape_safe |].
  cbn [map] in *. rewrite join_cons, !allChars_app, PathEscape_safe, IH. reflexivity.
Qed.

Lemma segmentsPath_safe (segments : list string) :
  allChars urlSafe (segmentsPath segments) = true.
Proof. unfold segmentsPath. rewrite allChars_app, join_safe. reflexivity. Qed.

Lemma join_unescape (segments : list string) :
  Url.unescape (Url.join "/" (map Url.PathEscape segments)) Url.encodePath
  = inl (Url.join "/" segments).
Proof.
  assert (notHostMode Url.encodePath) as Hmode by (split; reflexivity).
  assert (forall x, Url.unescape (Url.PathEscape x) Url.encodePath = inl x) as Hone
    by (intros x; apply unescape_escape; [reflexivity | reflexivity | exact Hmode]).
  induction segments as [| x [| y l] IH]; [reflexivity | apply Hone |].
  cbn [map] in *. rewrite !join_cons.
  apply (unescape_app _ _ _ _ _ Hmode (Hone x)).
  apply (unescape_app Url.encodePath "/" _ "/" _ Hmode eq_refl IH).
Qed.

Lemma segmentsPath_unescape (segments : list string) :
  Url.unescape (segmentsPath segments) Url.encodePath
  = inl ("/" +:+ Url.join "/" segments).
Proof.
  unfold segmentsPath.
  assert (notHostMode Url.encodePath) as Hmode by (split; reflexivity).
  apply (unescape_app Url.encodePath "/" _ "/" _ Hmode eq_refl (join_unescape _)).
Qed.

Lemma join_Split_segments (x : string) (segments : list string) :
  Url.Split (Url.join "/" (map Url.PathEscape (x :: segments))) "/"
  = map Url.PathEscape (x :: segments).
Proof.
  revert x. induction segments as [| y l IH]; intros x.
  - apply Split_absent, PathEscape_no_slash.
  - cbn [map] in *. rewrite join_cons.
    change ("/" +:+ Url.join "/" (Url.PathEscape y :: map Url.PathEscape l))
      with (String "/" (Url.join "/" (Url.PathEscape y :: map Url.PathEscape l))).
    rewrite (Split_app _ _ "/" (PathEscape_no_slash x)), IH. reflexivity.
Qed.

Lemma segmentsPath_dotFree (x : string) (segments : list string) :
  Forall (fun s => dotSegment s = false) (x :: segments) ->
  dotFree (segmentsPath (x :: segments)).
Proof.
  intros Hall. unfold dotFree, segmentsPath.
  change ("/" +:+ Url.join "/" (map Url.PathEscape (x :: segments)))
    with (EmptyString +:+ String "/" (Url.join "/" (map Url.PathEscape (x :: segments)))).
  rewrite (Split_app EmptyString _ "/" eq_refl), join_Split_segments.
  apply Forall_cons. split; [reflexivity |].
  apply Forall_map. eapply Forall_impl; [exact Hall |].
  intros s Hs. apply PathEscape_dotSegment, Hs.
Qed.

(** ** The query text holds no character that ends it *)

Lemma join_amp_safe (parts : list string) :
  Forall (fun p => allChars urlSafe p = true) parts ->
  allChars urlSafe (Url.join "&" parts) = true.
Proof.
  induction parts as [| x [| y l] IH]; intros Hall; [reflexivity | |].
  - apply Forall_cons in Hall as [Hx _]. exact Hx.
  - apply Forall_cons in Hall as [Hx Hl].
    rewrite join_cons, !allChars_app, Hx, (IH Hl). reflexivity.
Qed.

Lemma Encode_safe (v : gmap string (list string)) :
  allChars urlSafe (Url.Encode v) = true.
Proof.
  unfold Url.Encode. apply join_amp_safe.
  apply Forall_flat_map, Forall_forall. intros k _.
  apply Forall_map, Forall_forall. intros x _. cbn beta.
  rewrite !allChars_app, !QueryEscape_safe. reflexivity.
Qed.

Lemma queryText_safe (query : option (gmap string (list string))) :
  allChars urlSafe (queryText query) = true.
Proof. destruct query; [apply Encode_safe | reflexivity]. Qed.

(** ** The request [newRequest] builds for a path of segments *)

Lemma segments_rooted (c : ascii) (segments : list string) :
  rooted c (segmentsPath segments) -> exists x rest, segments = x :: rest.
Proof.
  destruct segments as [| x rest]; [| intros _; eexists _, _; reflexivity].
  intros [r Hr]. discriminate Hr.
Qed.

Lemma newRequest_endpoint {A : Type} `{!Marshaler A} (c : ascii) (cx : Http.Context)
    (method : string) (segments : list string)
    (query : option (gmap string (list string))) (body : option A) (s : Store)
    (base : Url.URL) :
  baseURL (self s) = Some base -> defaultAuthority base ->
  segmentStart c -> rooted c (segmentsPath segments) ->
  Forall (fun x => dotSegment x = false) segments ->
  Http.validMethod method = true ->
  (exists err,
     newRequest (Some cx) method (segmentsPath segments) query body s
     = (Returned (inr (wrapError "enzonix: encode request body" err)), s))
  \/ (exists req,
        newRequest (Some cx) method (segmentsPath segments) query body s
        = (Returned (inl req), addEvent s (Built req))
        /\ Http.Method req = method
        /\ Http.URL req
           = urlOf "https" "api.ns.enzonix.com" ("/" +:+ Url.join "/" segments)
               (segmentsPath segments) (queryText query)).
Proof.
  intros Hbase (Hscheme & Huser & Hhost) Hc Hrooted Hdots Hmethod.
  destruct (segments_rooted c segments Hrooted) as (x & rest & Hsegs).
  pose proof (segmentsPath_safe segments) as Hsafe.
  pose proof (segmentsPath_unescape segments) as Hdec.
  assert (dotFree (segmentsPath segments)) as Hfree
    by (rewrite Hsegs; apply segmentsPath_dotFree; rewrite <- Hsegs; exact Hdots).
  unfold newRequest. rewrite bind_unfold. cbn [getSelf fst snd].
  rewrite (Parse_clean c _ _ Hc Hrooted Hsafe Hdec).
  rewrite Hbase. unfold Url.ResolveReferenceFrom.
  rewrite (ResolveReference_clean c _ _ Hrooted Hsafe Hdec _ Hfree Huser).
  rewrite Hscheme, Hhost.
  assert ((match query with
           | Some q => Url.withRawQuery
                         (urlOf "https" "api.ns.enzonix.com"
                            ("/" +:+ Url.join "/" segments) (segmentsPath segments)
                            EmptyString) (Url.Encode q)
           | None => urlOf "https" "api.ns.enzonix.com"
                       ("/" +:+ Url.join "/" segments) (segmentsPath segments) EmptyString
           end)
          = urlOf "https" "api.ns.enzonix.com" ("/" +:+ Url.join "/" segments)
              (segmentsPath segments) (queryText query)) as ->
    by (destruct query; reflexivity).
  cbv zeta.
  destruct (match body with Some b => _ | None => _ end) as [rd | e] eqn:Hbody;
    [| left; eexists; reflexivity].
  right. unfold Http.NewRequestWithContext.
  assert (isEmpty method = false) as Hne
    by (unfold Http.validMethod in Hmethod; destruct (isEmpty method);
        [discriminate Hmethod | reflexivity]).
  rewrite Hne, Hmethod. cbn [negb].
  rewrite (String_clean c _ _ Hrooted Hsafe Hdec).
  rewrite (Parse_String_clean c _ _ Hrooted Hsafe Hdec _ (queryText_safe query)).
  eexists. split; [reflexivity |].
  destruct body as [b |], (negb (isEmpty (userAgent (self s)))); split; reflexivity.
Qed.

Lemma endpoint_String (c : ascii) (segments : list string) (query : string) :
  rooted c (segmentsPath segments) ->
  Url.String (urlOf "https" "api.ns.enzonix.com" ("/" +:+ Url.join "/" segments)
                (segmentsPath segments) query)
  = "https://api.ns.enzonix.com" +:+ segmentsPath segments
    +:+ (if isEmpty query then EmptyString else "?" +:+ query).
Proof.
  intros Hrooted.
  apply (String_clean c _ _ Hrooted (segmentsPath_safe _) (segmentsPath_unescape _)).
Qed.

Lemma zoneRecordPath_segments (zone recordID : string) :
  ZoneAPI.zoneRecordPath zone recordID
  = segmentsPath ["zones"; ZoneAPI.trimZone zone; "records"; recordID].
Proof.
  unfold ZoneAPI.zoneRecordPath, ZoneAPI.zoneRecordsPath, segmentsPath.
  cbn [map Url.join].
  change (Url.PathEscape "zones") with "zones".
  change (Url.PathEscape "records") with "records".
  rewrite !append_assoc. reflexivity.
Qed.

Lemma listQuery_text (opts : option ZoneAPI.ListRecordsOptions) :
  queryText (Some (ZoneAPI.listQuery opts))
  = match opts with
    | Some opts => Url.join "&" (queryParts opts)
    | None => EmptyString
    end.
Proof. destruct opts as [opts |]; [apply listQuery_Encode | reflexivity]. Qed.

Lemma segmentsPath_Split (x : string) (segments : list string) :
  Url.Split (segmentsPath (x :: segments)) "/"
  = EmptyString :: map Url.PathEscape (x :: segments).
Proof.
  unfold segmentsPath.
  change ("/" +:+ Url.join "/" (map Url.PathEscape (x :: segments)))
    with (EmptyString +:+ String "/" (Url.join "/" (map Url.PathEscape (x :: segments)))).
  rewrite (Split_app EmptyString _ "/" eq_refl), join_Split_segments. reflexivity.
Qed.

(** X5. The text that [zoneRecordsPath] and [zoneRecordPath] return,
    before [newRequest] resolves it. Cut at its slashes, the path of the
    records of a zone is [zones], the escaped zone and [records], and
    the path of a record has the escaped identifier as its one further
    segment, whatever characters the names hold: a name puts no slash in
    the text, and unescaping the text gives the names back. Resolving
    the reference leaves the text as it is when neither the trimmed zone
    nor the identifier is [.] or [..]; such a name is a dot segment, and
    resolving removes it: the zone [...] with the identifier [x] is
    resolved to [/records/x]. *)
Theorem zone_paths_keep_names_whole (zone recordID : string) :
  Url.Split (ZoneAPI.zoneRecordsPath zone) "/"
  = [EmptyString; "zones"; Url.PathEscape (ZoneAPI.trimZone zone); "records"]
  /\ Url.unescape (ZoneAPI.zoneRecordsPath zone) Url.encodePath
     = inl ("/zones/" +:+ ZoneAPI.trimZone zone +:+ "/records")
  /\ Url.Split (ZoneAPI.zoneRecordPath zone recordID) "/"
     = [EmptyString; "zones"; Url.PathEscape (ZoneAPI.trimZone zone); "records";
        Url.PathEscape recordID]
  /\ Url.unescape (ZoneAPI.zoneRecordPath zone recordID) Url.encodePath
     = inl ("/zones/" +:+ ZoneAPI.trimZone zone +:+ "/records/" +:+ recordID)
  /\ (dotSegment (ZoneAPI.trimZone zone) = false ->
      forall base,
        Url.resolvePath base (ZoneAPI.zoneRecordsPath zone)
        = ZoneAPI.zoneRecordsPath zone)
  /\ (dotSegment (ZoneAPI.trimZone zone) = false -> dotSegment recordID = false ->
      forall base,
        Url.resolvePath base (ZoneAPI.zoneRecordPath zone recordID)
        = ZoneAPI.zoneRecordPath zone recordID)
  /\ ZoneAPI.zoneRecordPath "..." "x" = "/zones/../records/x"
  /\ Url.resolvePath EmptyString (ZoneAPI.zoneRecordPath "..." "x") = "/records/x".
Proof.
  rewrite !zoneRecordPath_segments.
  change (ZoneAPI.zoneRecordsPath zone)
    with (segmentsPath ["zones"; ZoneAPI.trimZone zone; "records"]).
  rewrite !segmentsPath_Split, !segmentsPath_unescape.
  split; [reflexivity |]. split; [reflexivity |].
  split; [reflexivity |]. split; [reflexivity |].
  split.
  { intros Hzone base. apply resolvePath_dotFree; [reflexivity |].
    apply segmentsPath_dotFree. repeat constructor. exact Hzone. }
  split.
  { intros Hzone Hid base. apply resolvePath_dotFree; [reflexivity |].
    apply segmentsPath_dotFree. repeat constructor; assumption. }
  split; vm_compute; reflexivity.
Qed.

(** X6. The query of [ListRecords]. Without options it is empty. With
    options it holds [name], [page], [per_page] and [type] in this order,
    joined by [&]: a text only when it is not empty, a number only when
    it is positive. It holds no number sign and no question mark. *)
Theorem ListRecords_query (opts : ZoneAPI.ListRecordsOptions) :
  Url.Encode (ZoneAPI.listQuery None) = EmptyString
  /\ Url.Encode (ZoneAPI.listQuery (Some opts)) = Url.join "&" (queryParts opts)
  /\ Strings.ContainsByte (Url.Encode (ZoneAPI.listQuery (Some opts))) "#" = false
  /\ Strings.ContainsByte (Url.Encode (ZoneAPI.listQuery (Some opts))) "?" = false.
Proof.
  split; [reflexivity |]. split; [apply listQuery_Encode |].
  split; apply safe_absent; try reflexivity; apply Encode_safe.
Qed.

Lemma withValue_unfold {A : Type} (f : A -> result) (m : M (A * option error)) (s : Store) :
  withValue f m s
  = match m s with
    | (Returned r, s') => (Returned (f (fst r), snd r), s')
    | (Panicked msg, s') => (Panicked msg, s')
    end.
Proof. reflexivity. Qed.

Lemma withoutValue_unfold (m : M (option error)) (s : Store) :
  withoutValue m s
  = match m s with
    | (Returned err, s') => (Returned (noValue, err), s')
    | (Panicked msg, s') => (Panicked msg, s')
    end.
Proof. reflexivity. Qed.

Lemma newRequest_nil_context {A : Type} `{!Marshaler A} method path query
    (body : option A) (s : Store) :
  newRequest None method path query body s
  = (Returned (inr (errorString "enzonix: context must not be nil")), s).
Proof. reflexivity. Qed.

(** ** The calls, one by one *)

Section CallProperties.

Context `{!Unmarshaler (list DomainAPI.Domain), !Unmarshaler DomainAPI.Domain,
          !Unmarshaler DomainAPI.NameserverCheckResponse,
          !Unmarshaler (list DomainAPI.Record_), !Unmarshaler DomainAPI.Record_,
          !Unmarshaler DomainAPI.BindImportResponse,
          !Unmarshaler DomainAPI.ClientProfile,
          !Marshaler (gmap string string),
          !Marshaler DomainAPI.CreateRecordRequest,
          !Marshaler DomainAPI.UpdateRecordRequest,
          !Unmarshaler ZoneAPI.recordsResponse, !Unmarshaler ZoneAPI.Record_,
          !Marshaler ZoneAPI.CreateRecordRequest,
          !Marshaler ZoneAPI.UpdateRecordRequest}.

Lemma run_store (op : operation) (s : Store) : snd (run op s) = storeAfter op s.
Proof.
  destruct op; simpl; rewrite ?withValue_unfold, ?withoutValue_unfold;
    match goal with
    | |- context [match ?m with _ => _ end] => destruct m as [[r | msg] s']
    end; reflexivity.
Qed.

Ltac unfold_calls :=
  unfold DomainAPI.ListDomains, DomainAPI.CreateDomain, DomainAPI.DeleteDomain,
    DomainAPI.CheckNameserver, DomainAPI.ListDomainRecords, DomainAPI.CreateRecord,
    DomainAPI.UpdateRecord, DomainAPI.DeleteRecord, DomainAPI.ExportBindZone,
    DomainAPI.ImportBindZone, DomainAPI.RotateAPIKey, ZoneAPI.ListRecords,
    ZoneAPI.CreateRecord, ZoneAPI.UpdateRecord, ZoneAPI.DeleteRecord.

Ltac blank_cases :=
  unfold requireID, ZoneAPI.requireZone;
  repeat match goal with
         | |- context [isEmpty (Strings.TrimSpace ?x)] =>
             let E := fresh "Hblank" in
             destruct (isEmpty (Strings.TrimSpace x)) eqn:E
         end.

Ltac inputs_missing H :=
  exfalso; destruct H as [Hall Hdata]; simpl in Hall, Hdata;
  repeat match goal with
         | Hall : Forall _ (_ :: _) |- _ =>
             let Hx := fresh "Hx" in apply Forall_cons in Hall as [Hx Hall]
         end;
  repeat match goal with
         | E : isEmpty _ = true |- _ => apply isEmpty_true in E
         end;
  congruence.

(** X7. A call with a nil context returns its nil result and an error,
    and leaves the store as it was: nothing is built or sent. When the
    inputs the call requires are there, the error is the one of
    [newRequest] about the context. *)
Theorem nil_context_fails_locally (op : operation) (s : Store) :
  callContext op = None ->
  exists msg,
    run op s = (Returned (nilResult op, Some (errorString msg)), s)
    /\ (inputsPresent op -> msg = "enzonix: context must not be nil").
Proof.
  intros Hctx.
  destruct op; simpl in Hctx; subst ctx; simpl;
    rewrite ?withValue_unfold, ?withoutValue_unfold; unfold_calls;
    try match goal with
        | |- context [match ?d with [] => _ | _ :: _ => _ end] => destruct d
        end;
    blank_cases;
    rewrite ?bind_unfold, ?newRequest_nil_context;
    (eexists; split; [reflexivity |]; intros Hin;
     first [reflexivity | inputs_missing Hin]).
Qed.

Lemma addEvent_network (s : Store) (ev : event) : network (addEvent s ev) = network s.
Proof. reflexivity. Qed.

(** What [do] returns, by the answer of the network. *)
Lemma do_run {A : Type} `{!Unmarshaler A} (req : Http.Request) (out : option A)
    (s : Store) (hc : Http.Client) :
  httpClient (self s) = Some hc ->
  do req out s
  = (Returned
       match network s hc (sentRequests (trace s)) req with
       | inr err => (out, Some (wrapError "enzonix: request failed" err))
       | inl res =>
           match Io.ReadAllLimit (Http.RespBody res) jsonLimit with
           | (_, Some err) => (out, Some (wrapError "enzonix: read response" err))
           | (bodyBytes, None) =>
               if (400 <=? Http.StatusCode res) then
                 (out, Some (apiError (makeAPIError (Http.StatusCode res) bodyBytes)))
               else
                 match out, bodyBytes with
                 | None, _ | _, [] => (out, None)
                 | Some target, _ :: _ =>
                     match Unmarshal bodyBytes target with
                     | (target', Some err) =>
                         (Some target', Some (wrapError "enzonix: decode response" err))
                     | (target', None) => (Some target', None)
                     end
                 end
           end
       end,
     addEvent s (Sent req)).
Proof.
  intros Hhc. unfold do. rewrite bind_unfold.
  destruct (httpClientDo_cases req s) as [[Hnone _] | [hc' [Hhc' ->]]]; [congruence |].
  assert (hc' = hc) as -> by congruence.
  destruct (network s hc (sentRequests (trace s)) req) as [res | err]; [| reflexivity].
  destruct (Io.ReadAllLimit _ _) as [body [err |]]; [reflexivity |].
  destruct (400 <=? Http.StatusCode res); [reflexivity |].
  destruct out as [target |], body as [| b body]; try reflexivity.
  destruct (Unmarshal (b :: body) target) as [t' [err |]]; reflexivity.
Qed.

Lemma httpClientDo_run (req : Http.Request) (s : Store) (hc : Http.Client) :
  httpClient (self s) = Some hc ->
  httpClientDo req s
  = (Returned (network s hc (sentRequests (trace s)) req), addEvent s (Sent req)).
Proof.
  intros Hhc.
  destruct (httpClientDo_cases req s) as [[Hnone _] | [hc' [Hhc' ->]]]; [congruence |].
  congruence.
Qed.

(** The steps of a call up to the request: the tests of the inputs, then
    [newRequest]. *)
Ltac enter_call :=
  simpl; rewrite ?withValue_unfold, ?withoutValue_unfold; unfold_calls;
  try match goal with
      | |- context [match ?d with [] => _ | _ :: _ => _ end] => destruct d
      end;
  blank_cases.

(** [newRequest] reports an error or returns a request; [on_nil] closes
    the case of its panic on a nil base URL, from the fact that the base
    URL is nil. *)
Ltac build_request on_nil :=
  rewrite ?bind_unfold;
  lazymatch goal with
  | |- context [@newRequest ?A ?M ?ctx ?m ?p ?q ?b ?s] =>
      let err := fresh "err" in
      let req := fresh "req" in
      let Hhdr := fresh "Hhdr" in
      let Hnil := fresh "Hnil" in
      let msg := fresh "msg" in
      destruct (@newRequest_cases A M ctx m p q b s)
        as [[err ->] | [[req [-> Hhdr]] | [Hnil [msg ->]]]];
      [ | | solve [on_nil Hnil] ]
  end.

(** The ways a statement takes the panic on a nil base URL: as its last
    case, as a store left as it was, or as excluded by a base URL. *)
Ltac last_case Hnil := right; right; split; [exact Hnil | eexists; reflexivity].
Ltac store_kept Hnil := left; reflexivity.
Ltac not_nil Hnil := congruence.

Ltac send_request Hhc :=
  rewrite ?bind_unfold;
  lazymatch goal with
  | |- context [@do ?A ?U ?req ?out ?s1] => rewrite (@do_run A U req out s1 _ Hhc)
  | |- context [httpClientDo ?req ?s1] => rewrite (httpClientDo_run req s1 _ Hhc)
  end;
  rewrite ?addEvent_network.

(** X8. When the transport fails every request, a call either stops
    before sending, with an error and the store as it was, or builds and
    sends one request and returns its nil result and the error of the
    transport wrapped as [enzonix: request failed]. On a client whose
    base URL is nil the call may instead panic in [newRequest], with the
    store as it was. *)
Theorem transport_failure_is_wrapped (op : operation) (s : Store)
    (hc : Http.Client) (e : error) :
  httpClient (self s) = Some hc ->
  answers s (inr e) ->
  (exists err, run op s = (Returned (nilResult op, Some err), s))
  \/ (exists built sent,
        run op s
        = (Returned (nilResult op, Some (wrapError "enzonix: request failed" e)),
           addEvent (addEvent s (Built built)) (Sent sent)))
  \/ (baseURL (self s) = None /\ exists msg, run op s = (Panicked msg, s)).
Proof.
  intros Hhc Hnet. unfold answers in Hnet.
  destruct op; enter_call;
    try (left; eexists; reflexivity);
    (build_request last_case; [left; eexists; reflexivity |]);
    right; left; send_request Hhc; rewrite Hnet; do 2 eexists; reflexivity.
Qed.

(** X9. When the server answers with a status of 400 or more and a body
    that can be read, a call that sends its request returns its nil
    result and the [*APIError] made of the status and of the first MiB
    of the body. On a client whose base URL is nil the call may instead
    panic in [newRequest], with the store as it was. *)
Theorem error_status_reaches_caller (op : operation) (s : Store)
    (hc : Http.Client) (res : Http.Response) :
  httpClient (self s) = Some hc ->
  answers s (inl res) ->
  400 <= Http.StatusCode res ->
  Io.failure (Http.RespBody res) = None ->
  (exists err, run op s = (Returned (nilResult op, Some err), s))
  \/ (exists built sent,
        run op s
        = (Returned
             (nilResult op,
              Some (apiError
                      (makeAPIError (Http.StatusCode res)
                         (take (N.to_nat jsonLimit) (Io.content (Http.RespBody res)))))),
           addEvent (addEvent s (Built built)) (Sent sent)))
  \/ (baseURL (self s) = None /\ exists msg, run op s = (Panicked msg, s)).
Proof.
  intros Hhc Hnet Hstatus Hok. unfold answers in Hnet. apply Z.leb_le in Hstatus.
  destruct op; enter_call;
    try (left; eexists; reflexivity);
    (build_request last_case; [left; eexists; reflexivity |]);
    right; left; send_request Hhc; rewrite Hnet; cbv beta iota;
    unfold parseAPIError; rewrite ?(ReadAllLimit_take _ _ Hok), Hstatus;
    do 2 eexists; reflexivity.
Qed.

(** X10. When the server answers with a status below 400 and an empty
    body, a call that sends its request returns no error and the zero
    value of its result: the nil list, or a pointer to a zero struct.
    The calls that return only an error do so for every body. On a
    client whose base URL is nil the call may instead panic in
    [newRequest], with the store as it was. *)
Theorem empty_success_body (op : operation) (s : Store)
    (hc : Http.Client) (res : Http.Response) :
  httpClient (self s) = Some hc ->
  answers s (inl res) ->
  Http.StatusCode res < 400 ->
  Io.failure (Http.RespBody res) = None ->
  Io.content (Http.RespBody res) = [] \/ nilResult op = noValue ->
  (exists err, run op s = (Returned (nilResult op, Some err), s))
  \/ (exists built sent,
        run op s
        = (Returned (zeroResult op, None),
           addEvent (addEvent s (Built built)) (Sent sent)))
  \/ (baseURL (self s) = None /\ exists msg, run op s = (Panicked msg, s)).
Proof.
  intros Hhc Hnet Hstatus Hok Hbody. unfold answers in Hnet. apply Z.leb_gt in Hstatus.
  destruct op; enter_call;
    try (left; eexists; reflexivity);
    (build_request last_case; [left; eexists; reflexivity |]);
    right; left; send_request Hhc; rewrite Hnet; cbv beta iota;
    rewrite ?(ReadAllLimit_take _ _ Hok), Hstatus;
    (destruct Hbody as [Hbody | Hbody]; [rewrite Hbody | try discriminate Hbody]);
    rewrite ?take_nil; do 2 eexists; try reflexivity.
  all: try (destruct (take _ _); reflexivity).
Qed.

Ltac run_do :=
  rewrite ?bind_unfold;
  lazymatch goal with
  | |- context [@do ?A ?U ?req ?out ?s1] =>
      let msg := fresh "msg" in
      let o := fresh "o" in
      let e := fresh "e" in
      destruct (@do_cases A U req out s1) as [[msg ->] | [[o [e |]] ->]]
  end.

(** X11. A call that returns an error returns its nil result with it.
    The one exception is [ExportBindZone]. *)
Theorem error_comes_with_nil_result (op : operation) (s s' : Store)
    (v : result) (err : error) :
  run op s = (Returned (v, Some err), s') ->
  v = nilResult op \/ exists ctx id, op = callExportBindZone ctx id.
Proof.
  destruct op; try (intros _; right; do 2 eexists; reflexivity);
    enter_call;
    try (intros [= <- _ _]; left; reflexivity);
    (build_request ltac:(fun Hnil => intros Hrun; discriminate Hrun);
     [intros [= <- _ _]; left; reflexivity |]);
    run_do; simpl; intros [= <- Herr _]; try discriminate Herr; left; reflexivity.
Qed.

Lemma do_sends {A : Type} `{!Unmarshaler A} (req : Http.Request) (out : option A)
    (s : Store) (hc : Http.Client) :
  httpClient (self s) = Some hc ->
  exists r, do req out s = (Returned r, addEvent s (Sent req)).
Proof. intros Hhc. rewrite (do_run req out s hc Hhc). eexists. reflexivity. Qed.

Lemma httpClientDo_panics (req : Http.Request) (s : Store) :
  httpClient (self s) = None -> exists msg, httpClientDo req s = (Panicked msg, s).
Proof.
  intros Hnone.
  destruct (httpClientDo_cases req s) as [[_ H] | [hc [Hhc _]]]; [exact H | congruence].
Qed.

Lemma do_panics {A : Type} `{!Unmarshaler A} (req : Http.Request) (out : option A)
    (s : Store) :
  httpClient (self s) = None -> exists msg, do req out s = (Panicked msg, s).
Proof.
  intros Hnone. destruct (httpClientDo_panics req s Hnone) as [msg Hmsg].
  exists msg. unfold do. rewrite bind_unfold, Hmsg. reflexivity.
Qed.

Ltac sends Hhc :=
  rewrite ?bind_unfold;
  lazymatch goal with
  | |- context [@do ?A ?U ?req ?out ?s1] =>
      let o := fresh "o" in
      let e := fresh "e" in
      destruct (@do_sends A U req out s1 _ Hhc) as [[o [e |]] ->]
  | |- context [httpClientDo ?req ?s1] =>
      rewrite (httpClientDo_run req s1 _ Hhc);
      destruct (network _ _ _ _) as [?res | ?e];
      cbv beta iota; try destruct (400 <=? Http.StatusCode _)
  end.

Ltac panics Hnone :=
  rewrite ?bind_unfold;
  lazymatch goal with
  | |- context [@do ?A ?U ?req ?out ?s1] =>
      let msg := fresh "msg" in
      destruct (@do_panics A U req out s1 Hnone) as [msg ->]
  | |- context [httpClientDo ?req ?s1] =>
      let msg := fresh "msg" in
      destruct (httpClientDo_panics req s1 Hnone) as [msg ->]
  end.

(** X12. A call leaves the store as it was, or panics on a nil HTTP
    client after it has built its request, or builds one request and
    sends one: the request sent has the context, the method and the URL
    of the request built. A panic of [newRequest] on a nil base URL
    leaves the store as it was. *)
Theorem at_most_one_request (op : operation) (s : Store) :
  snd (run op s) = s
  \/ (exists built msg,
        httpClient (self s) = None
        /\ run op s = (Panicked msg, addEvent s (Built built)))
  \/ (exists built sent,
        snd (run op s) = addEvent (addEvent s (Built built)) (Sent sent)
        /\ Http.Ctx sent = Http.Ctx built
        /\ Http.Method sent = Http.Method built
        /\ Http.URL sent = Http.URL built).
Proof.
  destruct (httpClient (self s)) as [hc |] eqn:Hhc.
  - destruct op; enter_call; try (left; reflexivity);
      (build_request store_kept; [left; reflexivity |]);
      right; right; sends Hhc; do 2 eexists; repeat split.
  - destruct op; enter_call; try (left; reflexivity);
      (build_request store_kept; [left; reflexivity |]);
      right; left; panics Hhc; do 2 eexists; split; reflexivity.
Qed.

(** A call returns when neither pointer of the client is nil. *)
Lemma run_returns (op : operation) (s : Store) (hc : Http.Client) (base : Url.URL) :
  httpClient (self s) = Some hc -> baseURL (self s) = Some base ->
  exists r, fst (run op s) = Returned r.
Proof.
  intros Hhc Hbase.
  destruct op; enter_call; try (eexists; reflexivity);
    (build_request not_nil; [eexists; reflexivity |]);
    sends Hhc; eexists; reflexivity.
Qed.

(** X13. No call panics on a client that [NewClient] returned for
    options of the package: neither its HTTP client nor its base URL is
    nil. *)
Theorem calls_do_not_panic (op : operation) (key : string) (opts : list Option)
    (c : Client) (s : Store) :
  Forall providedOption opts ->
  NewClient key opts = (Some c, None) ->
  self s = c ->
  exists r, fst (run op s) = Returned r.
Proof.
  intros Hall Hnew Hself.
  destruct (NewClient_httpClient key opts c Hnew) as [hc Hhc].
  destruct (NewClient_wellConfigured key opts c Hall Hnew) as [(base & Hbase & _) _].
  apply (run_returns op s hc base); rewrite Hself; assumption.
Qed.

(** An option from outside the package can leave the base URL nil, as
    [resetClient] does; [NewClient] then puts back an HTTP client only,
    and a call that reaches [newRequest] with a context panics there. *)
Example reset_client_panics :
  exists c,
    NewClient "key" [resetClient] = (Some c, None)
    /\ baseURL c = None
    /\ is_Some (httpClient c)
    /\ forall net events,
         run (callListDomains background) {| self := c; network := net; trace := events |}
         = (Panicked "invalid memory address or nil pointer dereference",
            {| self := c; network := net; trace := events |}).
Proof.
  eexists. split; [reflexivity |]. split; [reflexivity |].
  split; [eexists; reflexivity |]. intros net events. reflexivity.
Qed.

Lemma readLimited_short (n : N) (data : bytes) (fail : option error) :
  (N.of_nat (length data) < n)%N -> Io.readLimited n data fail = (data, fail).
Proof.
  revert n. induction data as [| b data IH]; intros n Hlen; simpl in *.
  - destruct (n =? 0)%N eqn:E; [apply N.eqb_eq in E; lia | reflexivity].
  - destruct (n =? 0)%N eqn:E; [apply N.eqb_eq in E; lia |].
    rewrite IH by lia. reflexivity.
Qed.

(** X14. When the body of the answer breaks off with a read error after
    less than one MiB, a call that sends its request returns its nil
    result and the error wrapped as [enzonix: read response], whatever
    the status. [ExportBindZone] differs: below 400 it returns the bytes
    read and the error as it is, from 400 on the [*APIError] made of the
    bytes read. On a client whose base URL is nil the call may instead
    panic in [newRequest], with the store as it was. *)
Theorem read_failure_outcomes (op : operation) (s : Store) (hc : Http.Client)
    (status : Z) (partial : bytes) (err : error) :
  httpClient (self s) = Some hc ->
  answers s (inl (brokenBody status partial err)) ->
  (N.of_nat (length partial) < jsonLimit)%N ->
  (exists e, run op s = (Returned (nilResult op, Some e), s))
  \/ (exists built sent,
        run op s
        = (Returned
             match op with
             | callExportBindZone _ _ =>
                 if 400 <=? status
                 then (zoneBytes [], Some (apiError (makeAPIError status partial)))
                 else (zoneBytes partial, Some err)
             | _ => (nilResult op, Some (wrapError "enzonix: read response" err))
             end,
           addEvent (addEvent s (Built built)) (Sent sent)))
  \/ (baseURL (self s) = None /\ exists msg, run op s = (Panicked msg, s)).
Proof.
  intros Hhc Hnet Hlen. unfold answers in Hnet.
  assert (forall n, (jsonLimit <= n)%N ->
            Io.ReadAllLimit (Http.RespBody (brokenBody status partial err)) n
            = (partial, Some err)) as Hread.
  { intros n Hn. unfold Io.ReadAllLimit. simpl. apply readLimited_short. lia. }
  destruct op; enter_call;
    try (left; eexists; reflexivity);
    (build_request last_case; [left; eexists; reflexivity |]);
    right; left; send_request Hhc; rewrite Hnet; cbv beta iota;
    unfold parseAPIError;
    rewrite ?(Hread jsonLimit ltac:(reflexivity)),
            ?(Hread exportLimit ltac:(discriminate));
    try (change (Http.StatusCode (brokenBody status partial err)) with status;
         destruct (400 <=? status));
    do 2 eexists; reflexivity.
Qed.

Lemma newRequest_built {A : Type} `{!Marshaler A} ctx method path query
    (body : option A) (s : Store) :
  (exists err, newRequest ctx method path query body s = (Returned (inr err), s))
  \/ (exists req,
        newRequest ctx method path query body s
        = (Returned (inl req), addEvent s (Built req))
        /\ Http.Header req = requestHeaders (self s) (match body with Some _ => true | None => false end)
        /\ Http.Method req = (if isEmpty method then Http.MethodGet else method)
        /\ ctx = Some (Http.Ctx req))
  \/ (exists msg, newRequest ctx method path query body s = (Panicked msg, s)).
Proof.
  unfold newRequest. rewrite bind_unfold. simpl.
  destruct ctx as [cx |]; [| left; eexists; reflexivity].
  destruct (Url.Parse path) as [rel | e]; [| left; eexists; reflexivity].
  destruct (Url.ResolveReferenceFrom (baseURL (self s)) rel) as [resolved |];
    [| right; right; eexists; reflexivity].
  set (u := match query with Some q => _ | None => _ end).
  destruct (match body with Some b => _ | None => _ end) as [rd | e] eqn:Hbody;
    [| left; eexists; reflexivity].
  destruct (Http.NewRequestWithContext _ _ _ _) as [req | e] eqn:Hreq;
    [| left; eexists; reflexivity].
  right. left. eexists. split; [reflexivity |].
  pose proof (NewRequestWithContext_Header _ _ _ _ _ Hreq) as Hhdr.
  unfold Http.NewRequestWithContext in Hreq.
  destruct (negb _); [discriminate |].
  destruct (Url.Parse _); [| discriminate].
  injection Hreq as <-.
  unfold requestHeaders.
  destruct body as [b |], (negb (isEmpty (userAgent (self s)))); simpl;
    repeat split; reflexivity.
Qed.

(** For a statement about the requests sent: where [newRequest]
    panics, none is. *)
Ltac build_request' :=
  rewrite ?bind_unfold;
  lazymatch goal with
  | |- context [@newRequest ?A ?M ?ctx ?m ?p ?q ?b ?s] =>
      let err := fresh "err" in
      let req := fresh "req" in
      let Hhdr := fresh "Hhdr" in
      let Hmethod := fresh "Hmethod" in
      let Hctx := fresh "Hctx" in
      let msg := fresh "msg" in
      let Hin := fresh "Hin" in
      destruct (@newRequest_built A M ctx m p q b s)
        as [[err ->] | [[req [-> (Hhdr & Hmethod & Hctx)]] | [msg ->]]];
      [ | | solve [intros Hin; left; exact Hin] ]
  end.

Lemma elem_of_two_events (s : Store) (built sent x : Http.Request) :
  Sent x ∈ trace (addEvent (addEvent s (Built built)) (Sent sent)) ->
  Sent x ∈ trace s \/ x = sent.
Proof.
  rewrite !addEvent_trace. intros Hin.
  apply elem_of_app in Hin as [Hin | Hin].
  - apply elem_of_app in Hin as [Hin | Hin]; [left; exact Hin |].
    apply list_elem_of_singleton in Hin. discriminate.
  - apply list_elem_of_singleton in Hin. injection Hin as ->. right. reflexivity.
Qed.

Lemma elem_of_one_event (s : Store) (built x : Http.Request) :
  Sent x ∈ trace (addEvent s (Built built)) -> Sent x ∈ trace s.
Proof.
  rewrite addEvent_trace. intros Hin.
  apply elem_of_app in Hin as [Hin | Hin]; [exact Hin |].
  apply list_elem_of_singleton in Hin. discriminate.
Qed.

Lemma onlyHeaders_insert (h : gmap string (list string)) (key : string) (v : list string) :
  key ∈ headerNames -> onlyHeaders headerNames h ->
  onlyHeaders headerNames (<[key := v]> h).
Proof.
  intros Hkey Hdom k Hk. apply lookup_insert_is_Some in Hk as [<- | [_ Hk]];
    [exact Hkey | apply Hdom, Hk].
Qed.

Lemma onlyHeaders_empty : onlyHeaders headerNames ∅.
Proof. intros k [v Hk]. rewrite lookup_empty in Hk. discriminate. Qed.

Ltac header_name := unfold headerNames; rewrite !elem_of_cons; tauto.

Lemma requestHeaders_facts (c : Client) (withBody : bool) :
  requestHeaders c withBody !! "Authorization" = Some [bearer (apiKey c)]
  /\ requestHeaders c withBody !! "Accept" = Some ["application/json"]
  /\ requestHeaders c withBody !! "Content-Type"
     = (if withBody then Some ["application/json"] else None)
  /\ requestHeaders c withBody !! "User-Agent"
     = (if isEmpty (userAgent c) then None else Some [userAgent c])
  /\ onlyHeaders headerNames (requestHeaders c withBody).
Proof.
  unfold requestHeaders.
  destruct withBody, (isEmpty (userAgent c)); simpl;
    repeat split; try reflexivity;
    repeat (apply onlyHeaders_insert; [header_name |]); apply onlyHeaders_empty.
Qed.

(** X15. The headers of every request a call sends: the bearer
    credential; [Accept], which is [text/plain] for an export and
    [application/json] otherwise; [Content-Type] only for a call with a
    body, [application/json] or the content type of an import; the user
    agent when it is not empty; and no other header. *)
Theorem sent_request_headers (op : operation) (s : Store) (sent : Http.Request) :
  Sent sent ∈ trace (snd (run op s)) ->
  Sent sent ∈ trace s
  \/ (Http.Header sent !! "Authorization" = Some [bearer (apiKey (self s))]
      /\ Http.Header sent !! "Accept" = Some [callAccept op]
      /\ Http.Header sent !! "Content-Type" = (fun x => [x]) <$> callContentType op
      /\ Http.Header sent !! "User-Agent"
         = (if isEmpty (userAgent (self s)) then None else Some [userAgent (self s)])
      /\ onlyHeaders headerNames (Http.Header sent)).
Proof.
  destruct (httpClient (self s)) as [hc |] eqn:Hhc.
  - destruct op; enter_call; try (intros Hin; left; exact Hin);
      (build_request'; [intros Hin; left; exact Hin |]);
      sends Hhc; simpl; intros Hin;
      apply elem_of_two_events in Hin as [Hin | ->]; try (left; exact Hin); right;
      rewrite ?Header_setHeader, ?canonical_Accept, ?canonical_ContentType;
      cbn [Http.Header]; rewrite Hhdr;
      match goal with
      | |- context [requestHeaders ?c ?b] =>
          destruct (requestHeaders_facts c b) as (Hauth & Hacc & Hct & Hua & Hdom)
      end.
    all: repeat split;
      rewrite ?lookup_insert_eq, ?lookup_insert_ne by discriminate;
      try assumption; try reflexivity.
    all: try (apply onlyHeaders_insert; [header_name | exact Hdom]).
  - destruct op; enter_call; try (intros Hin; left; exact Hin);
      (build_request'; [intros Hin; left; exact Hin |]);
      panics Hhc; simpl; intros Hin; left; apply elem_of_one_event in Hin; exact Hin.
Qed.

(** X16. [ImportBindZone] rejects empty zone data without building a
    request. The request it sends is a POST that carries the zone data
    as its body, with their length, and as what [GetBody] returns, under
    the content type given, [text/plain] when none is. *)
Theorem ImportBindZone_request (ctx : option Http.Context) (zoneData : bytes)
    (contentType : string) (s : Store) :
  (zoneData = [] ->
   DomainAPI.ImportBindZone ctx zoneData contentType s
   = (Returned (None, Some (errorString "enzonix: zone data must not be empty")), s))
  /\ (forall sent,
        Sent sent ∈ trace (snd (DomainAPI.ImportBindZone ctx zoneData contentType s)) ->
        Sent sent ∈ trace s
        \/ (Http.Method sent = "POST"
            /\ Http.Body sent = Some zoneData
            /\ Http.ContentLength sent = Z.of_nat (length zoneData)
            /\ Http.GetBody sent = Some zoneData
            /\ Http.Header sent !! "Content-Type"
               = Some [if isEmpty contentType then "text/plain" else contentType])).
Proof.
  split; [intros ->; reflexivity |].
  intros sent. unfold DomainAPI.ImportBindZone.
  destruct zoneData as [| b data]; [intros Hin; left; exact Hin |].
  build_request'; [intros Hin; left; exact Hin |].
  destruct (httpClient (self s)) as [hc |] eqn:Hhc.
  - sends Hhc; simpl; intros Hin;
      apply elem_of_two_events in Hin as [Hin | ->]; try (left; exact Hin); right;
      (split; [exact Hmethod |]); repeat split;
      rewrite Header_setHeader, canonical_ContentType; apply lookup_insert_eq.
  - panics Hhc. simpl. intros Hin. left. apply elem_of_one_event in Hin. exact Hin.
Qed.

Lemma segmentStart_a : segmentStart "a".
Proof. repeat split. Qed.

Lemma segmentStart_z : segmentStart "z".
Proof. repeat split. Qed.

Ltac rebase_request Hbase Hsame :=
  rewrite ?bind_unfold;
  lazymatch goal with
  | |- context [@newRequest ?A ?M ?ctx ?m ?p ?q ?b (rebased ?s ?u)] =>
      first
        [ rewrite (@newRequest_rebased A M "a" ctx m p q b s u _ segmentStart_a
                     ltac:(eexists; reflexivity) Hbase Hsame)
        | rewrite (@newRequest_rebased A M "z" ctx m p q b s u _ segmentStart_z
                     ltac:(eexists; reflexivity) Hbase Hsame) ];
      destruct (@newRequest A M ctx m p q b s) as [[[?req | ?err] | ?msg] ?s1];
      cbn [fst snd]; cbv beta iota
  end.

Ltac rebase_send :=
  rewrite ?bind_unfold;
  lazymatch goal with
  | |- context [@do ?A ?U ?req ?out (rebased ?s ?u)] =>
      rewrite (@do_rebased A U req out s u);
      destruct (@do A U req out s) as [[[?o [?e |]] | ?msg] ?s2]
  | |- context [httpClientDo ?req (rebased ?s ?u)] =>
      rewrite (httpClientDo_rebased req s u);
      destruct (httpClientDo req s) as [[[?res | ?e] | ?msg] ?s2];
      cbn [fst snd]; cbv beta iota; try destruct (400 <=? Http.StatusCode _)
  end.

(** X17. Of the base URL only the scheme, the user information and the
    host count: two clients that differ in the path, the query or the
    fragment of the base URL send the same requests and return the same
    results. [base] is the base URL of the client of [s]. *)
Theorem base_path_is_discarded (op : operation) (s : Store) (u base : Url.URL) :
  baseURL (self s) = Some base ->
  sameAuthority u base ->
  run op (rebased s u) = (fst (run op s), rebased (snd (run op s)) u).
Proof.
  intros Hbase Hsame.
  destruct op; enter_call; try reflexivity;
    rebase_request Hbase Hsame; try reflexivity;
    rebase_send; reflexivity.
Qed.

Lemma sent_or_unchanged (op : operation) (s : Store) (hc : Http.Client) :
  httpClient (self s) = Some hc ->
  snd (run op s) = s
  \/ exists built sent,
       snd (run op s) = addEvent (addEvent s (Built built)) (Sent sent).
Proof.
  intros Hhc.
  destruct op; enter_call; try (left; reflexivity);
    (build_request store_kept; [left; reflexivity |]);
    right; sends Hhc; do 2 eexists; reflexivity.
Qed.

Ltac path_eq :=
  first [ apply zoneRecordPath_segments
        | symmetry; apply zoneRecordPath_segments
        | reflexivity ].

Ltac endpoint_request Hbase Hauth Hdots :=
  rewrite ?bind_unfold;
  lazymatch goal with
  | |- context [@newRequest _ _ ?ctx _ _ _ _ _] =>
      let cx := fresh "cx" in destruct ctx as [cx |]
  end;
  lazymatch goal with
  | |- context [@newRequest ?A ?M None ?m ?p ?q ?b ?s] =>
      rewrite (@newRequest_nil_context A M m p q b s)
  | |- context [@newRequest ?A ?M (Some ?cx) ?m ?p ?q ?b ?s] =>
      lazymatch type of Hdots with
      | Forall _ ?segs =>
          replace p with (segmentsPath segs) by path_eq;
          let err := fresh "err" in
          let req := fresh "req" in
          let Hmethod := fresh "Hmethod" in
          let Hurl := fresh "Hurl" in
          first
            [ destruct (@newRequest_endpoint A M "a" cx m segs q b s _ Hbase Hauth
                          segmentStart_a ltac:(eexists; reflexivity) Hdots eq_refl)
                as [[err ->] | [req [-> [Hmethod Hurl]]]]
            | destruct (@newRequest_endpoint A M "z" cx m segs q b s _ Hbase Hauth
                          segmentStart_z ltac:(eexists; reflexivity) Hdots eq_refl)
                as [[err ->] | [req [-> [Hmethod Hurl]]]] ]
      end
  end.

Ltac endpoint_facts Hmethod Hurl :=
  cbn [Http.Method Http.URL Http.setHeader Http.Header];
  rewrite Hurl, ?listQuery_text;
  split; [exact Hmethod |];
  split; [first [ apply (endpoint_String "a"); eexists; reflexivity
                | apply (endpoint_String "z"); eexists; reflexivity ] |];
  split; reflexivity.

(** X18. With the scheme and the host of the default base URL, every
    request a call sends goes to the endpoint of the call, provided no
    name in its path is [.] or [..]: the method is the one of the call,
    the path is made of the segments of the call with each name as one
    segment, the query is the one of [ListRecords] and empty otherwise,
    and the text of the URL is the base, the escaped path and the
    query. [base] is the base URL of the client of [s]. *)
Theorem requests_go_to_their_endpoint (op : operation) (s : Store)
    (base : Url.URL) (sent : Http.Request) :
  baseURL (self s) = Some base ->
  defaultAuthority base ->
  Forall (fun x => dotSegment x = false) (callSegments op) ->
  Sent sent ∈ trace (snd (run op s)) ->
  Sent sent ∈ trace s
  \/ (Http.Method sent = callMethod op
      /\ Url.String (Http.URL sent) = callURL op
      /\ Url.Path (Http.URL sent) = "/" +:+ Url.join "/" (callSegments op)
      /\ Url.RawQuery (Http.URL sent) = callQuery op).
Proof.
  intros Hbase Hauth Hdots.
  destruct (httpClient (self s)) as [hc |] eqn:Hhc.
  - destruct op; cbn [callSegments] in Hdots;
      enter_call; try (intros Hin; left; exact Hin);
      endpoint_request Hbase Hauth Hdots; try (intros Hin; left; exact Hin);
      sends Hhc; simpl; intros Hin;
      apply elem_of_two_events in Hin as [Hin | ->]; try (left; exact Hin); right;
      unfold callURL; cbn [callMethod callSegments callQuery];
      endpoint_facts Hmethod Hurl.
  - destruct op; cbn [callSegments] in Hdots;
      enter_call; try (intros Hin; left; exact Hin);
      endpoint_request Hbase Hauth Hdots; try (intros Hin; left; exact Hin);
      panics Hhc; simpl; intros Hin; left; apply elem_of_one_event in Hin; exact Hin.
Qed.

(** X19. A call with a context, the inputs it requires and no [.] or
    [..] in its path gets its request out, for a client with an HTTP
    client and the scheme and host of the default base URL: either the
    body cannot be encoded, and the call returns that error with the
    store as it was, or one request is built and sent, with the method
    and the URL of the endpoint. [base] is the base URL of the client of
    [s]. *)
Theorem valid_call_is_sent (op : operation) (s : Store) (hc : Http.Client)
    (base : Url.URL) :
  httpClient (self s) = Some hc ->
  baseURL (self s) = Some base ->
  defaultAuthority base ->
  callContext op <> None ->
  inputsPresent op ->
  Forall (fun x => dotSegment x = false) (callSegments op) ->
  (exists e,
     run op s
     = (Returned (nilResult op, Some (wrapError "enzonix: encode request body" e)), s))
  \/ (exists built sent,
        snd (run op s) = addEvent (addEvent s (Built built)) (Sent sent)
        /\ Http.Method sent = callMethod op
        /\ Url.String (Http.URL sent) = callURL op).
Proof.
  intros Hhc Hbase Hauth Hctx Hin Hdots.
  destruct op; cbn [callSegments callContext] in Hdots, Hctx;
    enter_call; try (inputs_missing Hin);
    endpoint_request Hbase Hauth Hdots; try congruence;
    try (left; eexists; reflexivity);
    right; sends Hhc; do 2 eexists; (split; [reflexivity |]);
    unfold callURL; cbn [callMethod callSegments callQuery];
    cbn [Http.Method Http.URL Http.setHeader Http.Header];
    rewrite Hurl, ?listQuery_text;
    (split; [exact Hmethod |]);
    first [ apply (endpoint_String "a"); eexists; reflexivity
          | apply (endpoint_String "z"); eexists; reflexivity ].
Qed.

End CallProperties.

(** ** The further properties at inputs in the manner of the package tests *)

Section FurtherWitnesses.

#[local] Existing Instance keepTarget | 100.
#[local] Existing Instance emptyObject | 100.

Lemma nil_context_witness :
  run (callListDomains None) (stubStore (initialClient "key") 200 [])
  = (Returned (domains [], Some (errorString "enzonix: context must not be nil")),
     stubStore (initialClient "key") 200 []).
Proof.
  destruct (nil_context_fails_locally (callListDomains None)
              (stubStore (initialClient "key") 200 []) eq_refl) as (msg & Hrun & Hmsg).
  rewrite Hrun, (Hmsg ltac:(split; [constructor | exact I])). reflexivity.
Defined.

Lemma transport_failure_witness :
  fst (run (callDeleteDomain background "domain-1") failingStore)
  = Returned (noValue, Some (wrapError "enzonix: request failed" refused)).
Proof.
  destruct (transport_failure_is_wrapped (callDeleteDomain background "domain-1")
              failingStore defaultHTTPClient refused eq_refl (fun _ _ _ => eq_refl))
    as [[err Hrun] | [(built & sent & Hrun) | [Hnil _]]].
  - vm_compute in Hrun. discriminate Hrun.
  - rewrite Hrun. reflexivity.
  - discriminate Hnil.
Defined.

Lemma NewClient_usable_witness :
  NewClient "key" [] = (Some (initialClient "key"), None)
  /\ is_Some (httpClient (initialClient "key"))
  /\ apiKey (initialClient "key") = "key".
Proof.
  assert (NewClient "key" [] = (Some (initialClient "key"), None)) as Hnew
    by reflexivity.
  destruct (NewClient_result_is_usable "key" [] (initialClient "key") Hnew)
    as (Hhc & _ & Hrest).
  destruct (Hrest (List.Forall_nil _)) as (_ & _ & Hkey).
  split; [exact Hnew |]. split; [exact Hhc | exact Hkey].
Defined.

Lemma error_status_witness :
  fst (run (callDeleteDomain background "domain-1")
         (stubStore (initialClient "key") 400 oopsBody))
  = Returned (noValue,
              Some (apiError (makeAPIError 400 (take (N.to_nat jsonLimit) oopsBody)))).
Proof.
  destruct (error_status_reaches_caller (callDeleteDomain background "domain-1")
              (stubStore (initialClient "key") 400 oopsBody) defaultHTTPClient
              {| Http.StatusCode := 400;
                 Http.RespBody := {| Io.content := oopsBody; Io.failure := None |} |}
              eq_refl (fun _ _ _ => eq_refl) ltac:(simpl; lia) eq_refl)
    as [[err Hrun] | [(built & sent & Hrun) | [Hnil _]]].
  - vm_compute in Hrun. discriminate Hrun.
  - rewrite Hrun. reflexivity.
  - discriminate Hnil.
Defined.

Lemma empty_success_witness :
  fst (run (callCreateDomain background "example.com")
         (stubStore (initialClient "key") 204 []))
  = Returned (domainPtr (Some DomainAPI.zeroDomain), None).
Proof.
  destruct (empty_success_body (callCreateDomain background "example.com")
              (stubStore (initialClient "key") 204 []) defaultHTTPClient
              {| Http.StatusCode := 204;
                 Http.RespBody := {| Io.content := []; Io.failure := None |} |}
              eq_refl (fun _ _ _ => eq_refl) ltac:(simpl; lia) eq_refl
              (or_introl eq_refl))
    as [[err Hrun] | [(built & sent & Hrun) | [Hnil _]]].
  - vm_compute in Hrun. discriminate Hrun.
  - rewrite Hrun. reflexivity.
  - discriminate Hnil.
Defined.

Lemma error_nil_result_witness :
  exists v err s',
    run (callListDomains background) (stubStore (initialClient "key") 500 [])
    = (Returned (v, Some err), s')
    /\ v = domains [].
Proof.
  destruct (run (callListDomains background) (stubStore (initialClient "key") 500 []))
    as [[[v [err |]] | msg] s'] eqn:Hrun;
    try (vm_compute in Hrun; discriminate Hrun).
  exists v, err, s'. split; [reflexivity |].
  destruct (error_comes_with_nil_result _ _ _ _ _ Hrun) as [Hv | (ctx & id & Hop)];
    [exact Hv | discriminate Hop].
Defined.

Lemma calls_do_not_panic_witness :
  exists r,
    fst (run (callRotateAPIKey background) (stubStore (initialClient "key") 200 []))
    = Returned r.
Proof.
  exact (calls_do_not_panic (callRotateAPIKey background) "key" []
           (initialClient "key") (stubStore (initialClient "key") 200 [])
           (List.Forall_nil _) eq_refl eq_refl).
Defined.

Lemma read_failure_witness :
  fst (run (callExportBindZone background "domain-1") brokenStore)
  = Returned (zoneBytes zoneFile, Some refused).
Proof.
  destruct (read_failure_outcomes (callExportBindZone background "domain-1")
              brokenStore defaultHTTPClient 200 zoneFile refused
              eq_refl (fun _ _ _ => eq_refl) ltac:(vm_compute; reflexivity))
    as [[err Hrun] | [(built & sent & Hrun) | [Hnil _]]].
  - vm_compute in Hrun. discriminate Hrun.
  - rewrite Hrun. reflexivity.
  - discriminate Hnil.
Defined.

Lemma sent_headers_witness :
  exists sent,
    Sent sent ∈ trace (snd (run (callExportBindZone background "domain-1")
                              (stubStore (initialClient "key") 200 zoneFile)))
    /\ Http.Header sent !! "Accept" = Some ["text/plain"]
    /\ Http.Header sent !! "Authorization" = Some ["Bearer key"]
    /\ Http.Header sent !! "Content-Type" = None.
Proof.
  destruct (sent_or_unchanged (callExportBindZone background "domain-1")
              (stubStore (initialClient "key") 200 zoneFile) defaultHTTPClient eq_refl)
    as [Hs | (built & sent & Hs)].
  { vm_compute in Hs. discriminate Hs. }
  assert (Sent sent ∈ trace (snd (run (callExportBindZone background "domain-1")
                                    (stubStore (initialClient "key") 200 zoneFile))))
    as Hin.
  { rewrite Hs, addEvent_trace. apply elem_of_app. right. constructor. }
  exists sent. split; [exact Hin |].
  destruct (sent_request_headers _ _ _ Hin) as [Hold | (Hauth & Hacc & Hct & _)].
  - inversion Hold.
  - repeat split; assumption.
Defined.

Lemma base_path_witness :
  run (callListDomains background)
    (rebased (stubStore (initialClient "key") 200 []) versionedBase)
  = (fst (run (callListDomains background) (stubStore (initialClient "key") 200 [])),
     rebased (snd (run (callListDomains background)
                     (stubStore (initialClient "key") 200 []))) versionedBase).
Proof.
  exact (base_path_is_discarded (callListDomains background)
           (stubStore (initialClient "key") 200 []) versionedBase defaultBase
           eq_refl (conj eq_refl (conj eq_refl eq_refl))).
Defined.

Lemma error_body_witness :
  Message (makeAPIError 400 oopsBody) = "oops"
  /\ Code (makeAPIError 400 oopsBody) = "bad_request"
  /\ Raw (makeAPIError 400 oopsBody) = oopsBody.
Proof.
  assert (Json.parse oopsBody = Some oopsValue) as Hparse by (vm_compute; reflexivity).
  pose proof (error_body_decoding 400 oopsBody oopsValue Hparse) as Hdec.
  cbv delta [oopsValue] in Hdec. cbv iota in Hdec.
  destruct Hdec as (_ & Hcode & Hrest).
  match type of Hrest with
  | if ?b then _ else _ => change b with true in Hrest
  end.
  destruct Hrest as [Hmsg Hraw].
  split; [rewrite Hmsg; vm_compute; reflexivity |].
  split; [rewrite Hcode; vm_compute; reflexivity | exact Hraw].
Defined.

Lemma endpoint_witness :
  exists sent,
    Sent sent ∈ trace (snd (run (callZoneUpdateRecord background "example.com."
                                   "a/b" contentUpdate)
                              (stubStore (initialClient "key") 200 [])))
    /\ Http.Method sent = "PATCH"
    /\ Url.String (Http.URL sent)
       = "https://api.ns.enzonix.com/zones/example.com/records/a%2Fb"
    /\ Url.Path (Http.URL sent) = "/zones/example.com/records/a/b".
Proof.
  destruct (sent_or_unchanged
              (callZoneUpdateRecord background "example.com." "a/b" contentUpdate)
              (stubStore (initialClient "key") 200 []) defaultHTTPClient eq_refl)
    as [Hs | (built & sent & Hs)].
  { vm_compute in Hs. discriminate Hs. }
  assert (Sent sent
          ∈ trace (snd (run (callZoneUpdateRecord background "example.com." "a/b"
                               contentUpdate)
                          (stubStore (initialClient "key") 200 [])))) as Hin.
  { rewrite Hs, addEvent_trace. apply elem_of_app. right. constructor. }
  exists sent. split; [exact Hin |].
  destruct (requests_go_to_their_endpoint
              (callZoneUpdateRecord background "example.com." "a/b" contentUpdate)
              (stubStore (initialClient "key") 200 []) defaultBase sent
              eq_refl (conj eq_refl (conj eq_refl eq_refl))
              ltac:(repeat constructor) Hin)
    as [Hold | (Hmethod & Hurl & Hpath & _)].
  - inversion Hold.
  - repeat split; assumption.
Defined.

Lemma valid_call_witness :
  exists built sent,
    snd (run (callZoneListRecords background "example.com." (Some listOptions))
           (stubStore (initialClient "key") 200 []))
    = addEvent (addEvent (stubStore (initialClient "key") 200 []) (Built built))
        (Sent sent)
    /\ Http.Method sent = "GET"
    /\ Url.String (Http.URL sent)
       = "https://api.ns.enzonix.com/zones/example.com/records?name=www&page=2&type=A".
Proof.
  destruct (valid_call_is_sent
              (callZoneListRecords background "example.com." (Some listOptions))
              (stubStore (initialClient "key") 200 []) defaultHTTPClient defaultBase
              eq_refl eq_refl (conj eq_refl (conj eq_refl eq_refl))
              ltac:(discriminate)
              ltac:(split; [repeat constructor; vm_compute; discriminate | exact I])
              ltac:(repeat constructor))
    as [[e Hrun] | (built & sent & Hs & Hmethod & Hurl)].
  - vm_compute in Hrun. discriminate Hrun.
  - exists built, sent. repeat split; assumption.
Defined.

End FurtherWitnesses.
